(** * Legal Intelligence System: approval workflow, feedback handler and
      orchestrator

    A shallow embedding of [human_intervention/approval_manager.py],
    [human_intervention/feedback_handler.py] and [agents/orchestrator.py],
    with the properties of the specification stated and settled against it.

    Python values are modelled as follows: [int] as [Z]; [str] as [string];
    [Optional[T]] as [option T]; a [dict] as an association list in insertion
    order (assignment to an existing key keeps the key's position); a raised
    exception as the [Raise] case of [result]; [datetime.now()] as an explicit
    clock reading handed to the operation; floats as binary64 [float]. *)

From Stdlib Require Import ZArith List String Ascii Bool Lia.
From Stdlib Require Import Decimal DecimalString DecimalZ DecimalPos.
From Stdlib Require Import Floats Uint63.
From Stdlib Require Import Permutation Sorted.
Import ListNotations.

Local Open Scope Z_scope.

(** ** Python runtime fragments shared by the three modules *)

Module Py.

(** The exception classes the modelled code raises or lets through. *)
Inductive exn : Type :=
| ValueError (msg : string)
| TypeError (msg : string)
| AttributeError (msg : string)
| AgentError (msg : string)
| DatabaseError (msg : string).

Inductive result (A : Type) : Type :=
| Ok (a : A)
| Raise (e : exn).
Arguments Ok {A} a.
Arguments Raise {A} e.

(** *** Strings *)

Fixpoint contains_char (c : ascii) (s : string) : bool :=
  match s with
  | EmptyString => false
  | String a s' => if Ascii.eqb a c then true else contains_char c s'
  end.

(** [str(z)] for an [int]: decimal digits, with a leading minus sign. *)
Definition str_of_int (z : Z) : string :=
  NilZero.string_of_int (Z.to_int z).

(** [s[:n]] on a string.  Python cuts by character; a [string] here has
    one [ascii] per character, so the two agree on text of that range, and
    text beyond it is not modelled. *)
Definition str_prefix (n : nat) (s : string) : string := substring 0 n s.

(** *** [datetime] and [strftime('%Y%m%d%H%M%S')]

    The fields of a [datetime] are range-checked by its constructor
    (1 <= year <= 9999, 1 <= month <= 12, ...), and the clock reads present
    dates, so [%Y] prints four digits and every other directive two. *)
Record datetime : Type := mk_datetime {
  year : Z; month : Z; day : Z;
  hour : Z; minute : Z; second : Z;
  microsecond : Z
}.

Definition digit (z : Z) : ascii :=
  ascii_of_N (Z.to_N (48 + z mod 10)).

Definition fmt2 (z : Z) : string :=
  String (digit (z / 10)) (String (digit z) EmptyString).

Definition fmt4 (z : Z) : string :=
  String (digit (z / 1000)) (String (digit (z / 100)) (fmt2 z)).

Definition strftime_YmdHMS (d : datetime) : string :=
  (fmt4 (year d) ++ fmt2 (month d) ++ fmt2 (day d) ++
   fmt2 (hour d) ++ fmt2 (minute d) ++ fmt2 (second d))%string.

(** *** Insertion-ordered dictionaries with string keys *)

Definition dict (V : Type) : Type := list (string * V).

Fixpoint dict_get {V : Type} (d : dict V) (k : string) : option V :=
  match d with
  | [] => None
  | (k', v) :: d' => if String.eqb k k' then Some v else dict_get d' k
  end.

(** [d[k] = v]: replaces in place when [k] is present, appends otherwise. *)
Fixpoint dict_set {V : Type} (d : dict V) (k : string) (v : V) : dict V :=
  match d with
  | [] => [(k, v)]
  | (k', v') :: d' =>
      if String.eqb k k' then (k', v) :: d' else (k', v') :: dict_set d' k v
  end.

Definition dict_contains {V : Type} (d : dict V) (k : string) : bool :=
  match dict_get d k with Some _ => true | None => false end.

Definition dict_keys {V : Type} (d : dict V) : list string := map fst d.
Definition dict_values {V : Type} (d : dict V) : list V := map snd d.

(** *** Ordering of [datetime] values and [sorted]

    Two naive [datetime]s compare field by field, year first. *)
Definition datetime_key (d : datetime) : list Z :=
  [year d; month d; day d; hour d; minute d; second d; microsecond d].

Fixpoint lex_leb (a b : list Z) : bool :=
  match a, b with
  | [], _ => true
  | _ :: _, [] => false
  | x :: a', y :: b' =>
      if x <? y then true else if x =? y then lex_leb a' b' else false
  end.

Definition datetime_leb (a b : datetime) : bool :=
  lex_leb (datetime_key a) (datetime_key b).

(** [sorted(l, key=...)] and [sorted(l, key=..., reverse=True)]: [leb x y]
    says that [x] may stand before [y].  The sort is stable: an element is
    put before the elements after it in [l] that it may stand before. *)
Fixpoint insert_sorted {A : Type} (leb : A -> A -> bool) (x : A) (l : list A)
  : list A :=
  match l with
  | [] => [x]
  | y :: l' => if leb x y then x :: l else y :: insert_sorted leb x l'
  end.

Definition sorted_by {A : Type} (leb : A -> A -> bool) (l : list A) : list A :=
  fold_right (insert_sorted leb) [] l.

End Py.

Import Py.

(** ** [human_intervention/approval_manager.py] *)

Module ApprovalManager.

Inductive status_t : Type := pending | approved | rejected.

Definition status_str (s : status_t) : string :=
  match s with
  | pending => "pending"
  | approved => "approved"
  | rejected => "rejected"
  end.

Definition status_eqb (a b : status_t) : bool :=
  match a, b with
  | pending, pending | approved, approved | rejected, rejected => true
  | _, _ => false
  end.

(** The request dictionary.  The keys ['modified_content'],
    ['content_modified'] and ['rejection_reason'] are not created by
    [request_approval]: [None] stands for an absent key there. *)
Record approval_request : Type := mk_request {
  id : string;
  type : string;
  content : string;
  metadata : dict string;
  requester_id : Z;
  status : status_t;
  created_at : datetime;
  approved_by : option Z;
  approved_at : option datetime;
  comments : option string;
  modified_content : option string;
  content_modified : option bool;
  rejection_reason : option string
}.

(** [self.pending_approvals] is the whole state of the manager. *)
Record manager : Type := mk_manager {
  pending_approvals : dict approval_request
}.

Definition init : manager := mk_manager [].

Definition approval_id_of (approval_type : string) (now : datetime)
    (requester : Z) : string :=
  (approval_type ++ "_" ++ strftime_YmdHMS now ++ "_" ++ str_of_int requester)%string.

(** [request_approval]; [now_id] and [now_created] are the two readings of
    [datetime.now()] the body takes. *)
Definition request_approval (self : manager) (approval_type content : string)
    (metadata : dict string) (requester : Z) (now_id now_created : datetime)
  : string * manager :=
  let approval_id := approval_id_of approval_type now_id requester in
  let approval_request :=
    {| id := approval_id;
       type := approval_type;
       content := content;
       metadata := metadata;
       requester_id := requester;
       status := pending;
       created_at := now_created;
       approved_by := None;
       approved_at := None;
       comments := None;
       modified_content := None;
       content_modified := None;
       rejection_reason := None |} in
  (approval_id,
   mk_manager (dict_set (pending_approvals self) approval_id approval_request)).

(** Truth value of an [Optional[str]] in [if modifications:]. *)
Definition truthy_str (o : option string) : bool :=
  match o with
  | None => false
  | Some EmptyString => false
  | Some _ => true
  end.

(** Truth value of an [Optional[int]] in [if requester_id:]. *)
Definition truthy_int (o : option Z) : bool :=
  match o with
  | None => false
  | Some z => negb (z =? 0)
  end.

(** [approve]: the stored dictionary is updated in place and returned. *)
Definition approve (self : manager) (approval_id : string) (approver_id : Z)
    (comments_arg modifications : option string) (now : datetime)
  : result approval_request * manager :=
  match dict_get (pending_approvals self) approval_id with
  | None =>
      (Raise (ValueError ("Approval request " ++ approval_id ++ " not found")), self)
  | Some approval =>
      let approval' :=
        {| id := id approval;
           type := type approval;
           content := content approval;
           metadata := metadata approval;
           requester_id := requester_id approval;
           status := approved;
           created_at := created_at approval;
           approved_by := Some approver_id;
           approved_at := Some now;
           comments := comments_arg;
           modified_content :=
             if truthy_str modifications then modifications
             else modified_content approval;
           content_modified := Some (truthy_str modifications);
           rejection_reason := rejection_reason approval |} in
      (Ok approval',
       mk_manager (dict_set (pending_approvals self) approval_id approval'))
  end.

(** [reject]: same shape; ['comments'] is left as it was. *)
Definition reject (self : manager) (approval_id : string) (approver_id : Z)
    (reason : string) (now : datetime)
  : result approval_request * manager :=
  match dict_get (pending_approvals self) approval_id with
  | None =>
      (Raise (ValueError ("Approval request " ++ approval_id ++ " not found")), self)
  | Some approval =>
      let approval' :=
        {| id := id approval;
           type := type approval;
           content := content approval;
           metadata := metadata approval;
           requester_id := requester_id approval;
           status := rejected;
           created_at := created_at approval;
           approved_by := Some approver_id;
           approved_at := Some now;
           comments := comments approval;
           modified_content := modified_content approval;
           content_modified := content_modified approval;
           rejection_reason := Some reason |} in
      (Ok approval',
       mk_manager (dict_set (pending_approvals self) approval_id approval'))
  end.

Definition get_pending_approvals (self : manager) (requester : option Z)
  : list approval_request :=
  let pending_list :=
    filter (fun a => status_eqb (status a) pending)
           (dict_values (pending_approvals self)) in
  if truthy_int requester then
    filter
      (fun a => match requester with
                | Some r => requester_id a =? r
                | None => false
                end)
      pending_list
  else pending_list.

Definition get_approval_status (self : manager) (approval_id : string) : string :=
  match dict_get (pending_approvals self) approval_id with
  | None => "not_found"
  | Some a => status_str (status a)
  end.

(** [get_approval_history]: every request of the requester, newest first. *)
Definition newer_first (a b : approval_request) : bool :=
  datetime_leb (created_at b) (created_at a).

Definition get_approval_history (self : manager) (requester : Z)
  : list approval_request :=
  sorted_by newer_first
    (filter (fun a => requester_id a =? requester)
            (dict_values (pending_approvals self))).

(** *** Histories of calls on one manager *)

Inductive call : Type :=
| RequestApproval (approval_type content : string) (metadata : dict string)
    (requester : Z) (now_id now_created : datetime)
| Approve (approval_id : string) (approver_id : Z)
    (comments_arg modifications : option string) (now : datetime)
| Reject (approval_id : string) (approver_id : Z) (reason : string)
    (now : datetime).

Definition step (self : manager) (c : call) : manager :=
  match c with
  | RequestApproval ty ct md r n1 n2 => snd (request_approval self ty ct md r n1 n2)
  | Approve aid ap cm mods n => snd (approve self aid ap cm mods n)
  | Reject aid ap rs n => snd (reject self aid ap rs n)
  end.

Definition run (calls : list call) : manager := fold_left step calls init.

(** Every record is stored under its own id, and no key is stored twice. *)
Definition well_keyed (self : manager) : Prop :=
  NoDup (dict_keys (pending_approvals self)) /\
  forall k a, In (k, a) (pending_approvals self) -> id a = k.

End ApprovalManager.

(** ** [human_intervention/feedback_handler.py] *)

Module FeedbackHandler.

Record feedback : Type := mk_feedback {
  id : string;
  content_id : string;
  content_type : string;
  user_id : Z;
  rating : Z;
  comments : option string;
  specific_issues : list string;
  submitted_at : datetime;
  addressed : bool;
  follow_up : option string;
  addressed_at : option datetime   (* [None]: the key is absent *)
}.

Record handler : Type := mk_handler {
  feedback_store : dict feedback;
  feedback_counter : Z
}.

Definition init : handler := mk_handler [] 0.

Definition feedback_id_of (counter : Z) (now : datetime) : string :=
  ("feedback_" ++ str_of_int counter ++ "_" ++ strftime_YmdHMS now)%string.

Definition rating_error : exn := ValueError "Rating must be between 1 and 5".

(** [submit_feedback]: the counter is bumped and the id formatted before the
    rating is looked at. *)
Definition submit_feedback (self : handler) (content_id content_type : string)
    (user_id rating : Z) (comments : option string)
    (specific_issues : option (list string)) (now_id now_submitted : datetime)
  : result string * handler :=
  let counter := feedback_counter self + 1 in
  let feedback_id := feedback_id_of counter now_id in
  if (rating <? 1) || (rating >? 5) then
    (Raise rating_error, mk_handler (feedback_store self) counter)
  else
    let fb :=
      {| id := feedback_id;
         content_id := content_id;
         content_type := content_type;
         user_id := user_id;
         rating := rating;
         comments := comments;
         specific_issues :=
           match specific_issues with Some l => l | None => [] end;
         submitted_at := now_submitted;
         addressed := false;
         follow_up := None;
         addressed_at := None |} in
    (Ok feedback_id,
     mk_handler (dict_set (feedback_store self) feedback_id fb) counter).

Definition get_feedback (self : handler) (feedback_id : string) : option feedback :=
  dict_get (feedback_store self) feedback_id.

Definition mark_addressed (self : handler) (feedback_id follow_up_text : string)
    (now : datetime) : bool * handler :=
  match dict_get (feedback_store self) feedback_id with
  | None => (false, self)
  | Some f =>
      let f' :=
        {| id := id f;
           content_id := content_id f;
           content_type := content_type f;
           user_id := user_id f;
           rating := rating f;
           comments := comments f;
           specific_issues := specific_issues f;
           submitted_at := submitted_at f;
           addressed := true;
           follow_up := Some follow_up_text;
           addressed_at := Some now |} in
      (true,
       mk_handler (dict_set (feedback_store self) feedback_id f')
                  (feedback_counter self))
  end.

(** *** Numbers of the summary

    [average_rating] is the [int] 0 on the early return and a [float]
    otherwise. *)
Inductive number : Type :=
| Int (z : Z)
| Float (f : float).

(** [float(z)]; exact for |z| < 2^53, which bounds every count and sum of
    ratings that fits in memory. *)
Definition float_of_int (z : Z) : float :=
  if z <? 0 then PrimFloat.opp (PrimFloat.of_uint63 (Uint63.of_Z (- z)))
  else PrimFloat.of_uint63 (Uint63.of_Z z).

(** [a / b] on two [int]s (true division). *)
Definition int_truediv (a b : Z) : float :=
  PrimFloat.div (float_of_int a) (float_of_int b).

Definition len {A : Type} (l : list A) : Z := Z.of_nat (List.length l).

Fixpoint sum (l : list Z) : Z :=
  match l with
  | [] => 0
  | x :: l' => x + sum l'
  end.

(** [ratings.count(i)] *)
Fixpoint count (i : Z) (l : list Z) : Z :=
  match l with
  | [] => 0
  | x :: l' => (if x =? i then 1 else 0) + count i l'
  end.

(** [issue_counts[issue] = issue_counts.get(issue, 0) + 1] over all issues. *)
Definition count_issues (all_issues : list string) : dict Z :=
  fold_left
    (fun issue_counts issue =>
       dict_set issue_counts issue
         (match dict_get issue_counts issue with
          | Some n => n
          | None => 0
          end + 1))
    all_issues [].

(** [sorted(items, key=lambda x: x[1], reverse=True)]: stable, so equal counts
    keep their order. *)
Fixpoint insert_desc (x : string * Z) (l : list (string * Z)) : list (string * Z) :=
  match l with
  | [] => [x]
  | y :: l' => if snd y <=? snd x then x :: l else y :: insert_desc x l'
  end.

Definition sorted_desc (l : list (string * Z)) : list (string * Z) :=
  fold_right insert_desc [] l.

Record summary : Type := mk_summary {
  total_feedback : Z;
  average_rating : number;
  rating_distribution : list (Z * Z);
  most_common_issues : list (string * Z);
  percentage_positive : option number   (* [None]: the key is absent *)
}.

Definition is_nonempty_str (o : option string) : bool :=
  match o with
  | None => false
  | Some EmptyString => false
  | Some _ => true
  end.

Definition get_feedback_summary (self : handler) (content_type_arg : option string)
  : summary :=
  let feedback_list := dict_values (feedback_store self) in
  let feedback_list :=
    if is_nonempty_str content_type_arg then
      filter
        (fun f => match content_type_arg with
                  | Some t => String.eqb (content_type f) t
                  | None => false
                  end)
        feedback_list
    else feedback_list in
  match feedback_list with
  | [] =>
      {| total_feedback := 0;
         average_rating := Int 0;
         rating_distribution := [];
         most_common_issues := [];
         percentage_positive := None |}
  | _ :: _ =>
      let ratings := map rating feedback_list in
      let rating_dist := map (fun i => (i, count i ratings)) [1; 2; 3; 4; 5] in
      let all_issues := flat_map specific_issues feedback_list in
      let issue_counts := count_issues all_issues in
      let most_common := firstn 5 (sorted_desc issue_counts) in
      {| total_feedback := len feedback_list;
         average_rating := Float (int_truediv (sum ratings) (len ratings));
         rating_distribution := rating_dist;
         most_common_issues := most_common;
         percentage_positive :=
           Some (match ratings with
                 | [] => Int 0
                 | _ :: _ =>
                     Float (PrimFloat.mul
                              (int_truediv (len (filter (fun r => r >=? 4) ratings))
                                           (len ratings))
                              (float_of_int 100))
                 end) |}
  end.

(** *** Histories of calls on one handler *)

Inductive call : Type :=
| SubmitFeedback (content_id content_type : string) (user_id rating : Z)
    (comments : option string) (specific_issues : option (list string))
    (now_id now_submitted : datetime)
| MarkAddressed (feedback_id follow_up_text : string) (now : datetime).

Definition step (self : handler) (c : call) : handler :=
  match c with
  | SubmitFeedback cid cty uid r cm si n1 n2 =>
      snd (submit_feedback self cid cty uid r cm si n1 n2)
  | MarkAddressed fid fu n => snd (mark_addressed self fid fu n)
  end.

Definition run (calls : list call) : handler := fold_left step calls init.


(** The invariant of a handler: the counter is not negative and every key of
    the store was formatted from a counter value already used. *)
Definition keys_below_counter (self : handler) : Prop :=
  0 <= feedback_counter self /\
  forall k, In k (dict_keys (feedback_store self)) ->
            exists c now, k = feedback_id_of c now /\ 1 <= c <= feedback_counter self.

(** *** The listings *)

Definition newest_first (a b : feedback) : bool :=
  datetime_leb (submitted_at b) (submitted_at a).

Definition get_content_feedback (self : handler) (content_id_arg : string)
  : list feedback :=
  sorted_by newest_first
    (filter (fun f => String.eqb (content_id f) content_id_arg)
            (dict_values (feedback_store self))).

Definition get_user_feedback (self : handler) (user_id_arg : Z) : list feedback :=
  sorted_by newest_first
    (filter (fun f => user_id f =? user_id_arg)
            (dict_values (feedback_store self))).

Definition get_feedback_by_type (self : handler) (content_type_arg : string)
  : list feedback :=
  sorted_by newest_first
    (filter (fun f => String.eqb (content_type f) content_type_arg)
            (dict_values (feedback_store self))).

(** [get_low_rated_content(threshold=3)]; [None] is the omitted argument. *)
Definition get_low_rated_content (self : handler) (threshold : option Z)
  : list feedback :=
  let threshold := match threshold with Some t => t | None => 3 end in
  sorted_by (fun a b => rating a <=? rating b)
    (filter (fun f => rating f <? threshold)
            (dict_values (feedback_store self))).

(** *** [identify_improvement_areas]

    The order in which a [set] is iterated is not fixed by the language:
    [set_order] stands for [list(set(l))]. *)
Definition issues_and_comments (low_rated : list feedback) : list string :=
  flat_map
    (fun f =>
       specific_issues f ++
       (if is_nonempty_str (comments f) then
          match comments f with Some c => [c] | None => [] end
        else []))%list
    low_rated.

Definition low_rated_of_type (self : handler) (content_type_arg : string)
  : list feedback :=
  filter (fun f => rating f <=? 2) (get_feedback_by_type self content_type_arg).

Definition identify_improvement_areas (set_order : list string -> list string)
    (self : handler) : dict (list string) :=
  fold_left
    (fun improvement_areas ct =>
       match low_rated_of_type self ct with
       | [] => improvement_areas
       | low_rated =>
           dict_set improvement_areas ct
             (firstn 5 (set_order (issues_and_comments low_rated)))
       end)
    (set_order (map content_type (dict_values (feedback_store self))))
    [].

(** One round of the loop of [identify_improvement_areas]. *)
Definition record_areas (set_order : list string -> list string) (self : handler)
    (improvement_areas : dict (list string)) (ct : string) : dict (list string) :=
  match low_rated_of_type self ct with
  | [] => improvement_areas
  | low_rated =>
      dict_set improvement_areas ct
        (firstn 5 (set_order (issues_and_comments low_rated)))
  end.

(** *** Notions used to state properties of a handler *)

(** The records a summary is computed over. *)
Definition in_scope (self : handler) (content_type_arg : option string)
  : list feedback :=
  if is_nonempty_str content_type_arg then
    filter
      (fun f => match content_type_arg with
                | Some t => String.eqb (content_type f) t
                | None => false
                end)
      (dict_values (feedback_store self))
  else dict_values (feedback_store self).

(** Every record is stored under its own id, no key is stored twice, and
    every stored rating is between 1 and 5. *)
Definition well_formed (self : handler) : Prop :=
  NoDup (dict_keys (feedback_store self)) /\
  forall k f, In (k, f) (feedback_store self) -> id f = k /\ 1 <= rating f <= 5.

Definition is_submission (c : call) : bool :=
  match c with SubmitFeedback _ _ _ _ _ _ _ _ => true | _ => false end.

Definition is_accepted_submission (c : call) : bool :=
  match c with
  | SubmitFeedback _ _ _ r _ _ _ _ => negb ((r <? 1) || (r >? 5))
  | _ => false
  end.

End FeedbackHandler.

(** ** [agents/orchestrator.py] *)

Module Orchestrator.

Local Open Scope string_scope.

(** Values travelling in [**kwargs], in database rows and in the dictionaries
    handed to the agents. *)
#[warnings="-register-all"] Inductive pyval : Type :=
| VNone
| VInt (z : Z)
| VStr (s : string)
| VList (l : list pyval).

Definition row : Type := dict pyval.

Definition truthy (v : pyval) : bool :=
  match v with
  | VNone => false
  | VInt z => negb (z =? 0)%Z
  | VStr s => negb (String.eqb s "")
  | VList l => match l with [] => false | _ :: _ => true end
  end.

(** [d.get(k, default)] and [d.get(k)]. *)
Definition get (d : dict pyval) (k : string) (default : pyval) : pyval :=
  match dict_get d k with
  | Some v => v
  | None => default
  end.

Definition get_none (d : dict pyval) (k : string) : pyval := get d k VNone.

(** [d.update(upd)], also [{**d, **upd}]. *)
Definition dict_update (d upd : dict pyval) : dict pyval :=
  fold_left (fun acc kv => dict_set acc (fst kv) (snd kv)) upd d.

(** The agent methods the orchestrator calls, with the dictionary passed. *)
Inductive agent_call : Type :=
| research_precedents (research_data : dict pyval)
| agent_analyze_contract (contract_data : dict pyval)
| agent_assess_compliance (compliance_data : dict pyval)
| draft_legal_memo (kwargs : dict pyval)
| draft_motion (kwargs : dict pyval)
| draft_demand_letter (kwargs : dict pyval)
| draft_contract_clause (kwargs : dict pyval)
| analyze_case_strategy (case_data : dict pyval).

Inductive level : Type := INFO | ERROR.

(** What one run does to the outside, in order. *)
Inductive event : Type :=
| Log (lvl : level) (msg : string)
| Select (table column : string) (key : pyval)
| AgentCall (c : agent_call) (outcome : result string)
| Insert (table : string) (data : row) (outcome : result Z).

(** The tables of [utils/database.py] the orchestrator touches.  A row is the
    [dict(row)] of a [SELECT *]. *)
Record database : Type := mk_database {
  lawyers : list row;
  cases : list row;
  legal_documents : list row;
  research_sessions : list row;
  analysis_results : list row
}.

(** What the code does not decide: the text an agent returns or the error it
    raises, whether the engine accepts an [INSERT], the order [ORDER BY
    creation_date DESC] gives, the clock, and [repr] of a list.  Each may
    depend on everything that happened before.  Reads are taken to succeed:
    only a write can be refused.

    [agent] is the whole agent method, the code it runs before it generates
    included: [research_precedents] of [agents/case_law_research_agent.py]
    slices the legal issue for a log line first and raises there on [None].
    A property stated for every [env] holds for such an agent too; a run in
    which an agent returns text for an input its method refuses is a run of
    the orchestrator with another agent. *)
Record env : Type := mk_env {
  agent : list event -> agent_call -> result string;
  insert_fault : list event -> string -> row -> option string;
  order_by_creation_date_desc : list row -> list row;
  now : list event -> datetime;
  repr_list : list pyval -> string
}.

(** [str(v)] inside an f-string. *)
Definition py_str (E : env) (v : pyval) : string :=
  match v with
  | VNone => "None"
  | VInt z => str_of_int z
  | VStr s => s
  | VList l => repr_list E l
  end.

Definition exn_str (e : exn) : string :=
  match e with
  | ValueError m | TypeError m | AttributeError m
  | AgentError m | DatabaseError m => m
  end.

(** *** The monad: database state, the history read by the environment, and
    the events emitted *)

Definition M (A : Type) : Type :=
  database -> list event -> result A * database * list event.

Definition ret {A : Type} (a : A) : M A :=
  fun db _ => (Ok a, db, []).

Definition raise {A : Type} (e : exn) : M A :=
  fun db _ => (Raise e, db, []).

Definition bind {A B : Type} (m : M A) (f : A -> M B) : M B :=
  fun db h =>
    match m db h with
    | (Ok a, db1, out1) =>
        match f a db1 (h ++ out1)%list with
        | (r, db2, out2) => (r, db2, (out1 ++ out2)%list)
        end
    | (Raise e, db1, out1) => (Raise e, db1, out1)
    end.

Notation "x <- m ;; k" := (bind m (fun x => k))
  (at level 61, m at next level, right associativity).
Notation "m ;;; k" := (bind m (fun _ => k))
  (at level 61, right associativity).

Definition emit (e : event) : M unit :=
  fun db _ => (Ok tt, db, [e]).

Definition log (lvl : level) (msg : string) : M unit := emit (Log lvl msg).

(** [try: body / except Exception as e: logger.error(f"{label}{str(e)}"); raise] *)
Definition try_except {A : Type} (label : string) (body : M A) : M A :=
  fun db h =>
    match body db h with
    | (Raise e, db1, out1) =>
        (Raise e, db1, (out1 ++ [Log ERROR (label ++ exn_str e)])%list)
    | ok => ok
    end.

Definition call_agent (E : env) (c : agent_call) : M string :=
  fun db h => let r := agent E h c in (r, db, [AgentCall c r]).

Definition clock (E : env) : M datetime :=
  fun db h => (Ok (now E h), db, []).

(** *** [utils/database.py] *)

Definition row_id (r : row) : Z :=
  match dict_get r "id" with
  | Some (VInt i) => i
  | _ => 0
  end.

Definition column_is (column : string) (key : pyval) (r : row) : bool :=
  match key, dict_get r column with
  | VInt z, Some (VInt i) => (i =? z)%Z
  | _, _ => false
  end.

(** [results[0] if results else None] of [SELECT * FROM table WHERE id = ?].
    Keys are [int]s at every call site; another key matches no row here. *)
Definition select_by_id (table : string) (rows : database -> list row)
    (key : pyval) : M (option row) :=
  fun db _ => (Ok (find (column_is "id" key) (rows db)), db, [Select table "id" key]).

Definition get_lawyer_by_id : pyval -> M (option row) :=
  select_by_id "lawyers" lawyers.
Definition get_case_by_id : pyval -> M (option row) :=
  select_by_id "cases" cases.
Definition get_document_by_id : pyval -> M (option row) :=
  select_by_id "legal_documents" legal_documents.

Definition get_case_documents (E : env) (case_id : pyval) : M (list row) :=
  fun db _ =>
    (Ok (order_by_creation_date_desc E
           (filter (column_is "case_id" case_id) (legal_documents db))),
     db, [Select "legal_documents" "case_id" case_id]).

Definition next_id (rows : list row) : Z :=
  1 + fold_left Z.max (map row_id rows) 0.

(** [execute_insert]: on a fault the connection rolls back, logs and
    re-raises; otherwise the row is stored under a fresh id, which is
    returned.  Columns the statement leaves out are not materialised: the
    orchestrator reads none of them back. *)
Definition execute_insert (E : env) (table : string)
    (rows : database -> list row) (store : database -> list row -> database)
    (data : row) : M Z :=
  fun db h =>
    match insert_fault E h table data with
    | Some msg =>
        (Raise (DatabaseError msg), db,
         [Insert table data (Raise (DatabaseError msg));
          Log ERROR ("Database error: " ++ msg)])
    | None =>
        let new_id := next_id (rows db) in
        (Ok new_id,
         store db (rows db ++ [dict_set data "id" (VInt new_id)])%list,
         [Insert table data (Ok new_id)])
    end.

Definition add_document (E : env) : row -> M Z :=
  execute_insert E "legal_documents" legal_documents
    (fun db t => mk_database (lawyers db) (cases db) t
                             (research_sessions db) (analysis_results db)).

Definition add_research_session (E : env) : row -> M Z :=
  execute_insert E "research_sessions" research_sessions
    (fun db t => mk_database (lawyers db) (cases db) (legal_documents db)
                             t (analysis_results db)).

Definition save_analysis_result (E : env) : row -> M Z :=
  execute_insert E "analysis_results" analysis_results
    (fun db t => mk_database (lawyers db) (cases db) (legal_documents db)
                             (research_sessions db) t).

(** *** Helpers for the bodies *)

(** [if not r: raise e], for the result of a lookup. *)
Definition require_row (r : option row) (e : exn) : M row :=
  match r with
  | Some (kv :: r') => ret (kv :: r')
  | _ => raise e
  end.

(** [v[:n]]; [None] and [int]s are not subscriptable. *)
Definition slice_prefix (n : nat) (v : pyval) : M pyval :=
  match v with
  | VStr s => ret (VStr (str_prefix n s))
  | VList l => ret (VList (firstn n l))
  | VNone => raise (TypeError "'NoneType' object is not subscriptable")
  | VInt _ => raise (TypeError "'int' object is not subscriptable")
  end.

(** [r.get(k)] on the result of a lookup that was not checked. *)
Definition attr_get (r : option row) (k : string) : M pyval :=
  match r with
  | Some r' => ret (get_none r' k)
  | None => raise (AttributeError "'NoneType' object has no attribute 'get'")
  end.

Definition lawyer_not_found (lawyer_id : Z) : exn :=
  ValueError ("Lawyer with ID " ++ str_of_int lawyer_id ++ " not found").

Definition case_not_found (case_id : Z) : exn :=
  ValueError ("Case with ID " ++ str_of_int case_id ++ " not found").

Definition analysis_record (analysis_type entity_type : string)
    (entity_id lawyer_id : Z) (result : string) : row :=
  [("analysis_type", VStr analysis_type);
   ("entity_type", VStr entity_type);
   ("entity_id", VInt entity_id);
   ("lawyer_id", VInt lawyer_id);
   ("result_summary", VStr (str_prefix 500 result));
   ("detailed_analysis", VStr result)].

(** *** The task operations of [LegalOrchestrator] *)

Definition research_case_law (E : env) (lawyer_id : Z) (kwargs : dict pyval)
  : M string :=
  log INFO ("Starting case law research for lawyer " ++ str_of_int lawyer_id) ;;;
  try_except "Case law research failed: "
    (found <- get_lawyer_by_id (VInt lawyer_id) ;;
     lawyer <- require_row found (lawyer_not_found lawyer_id) ;;
     let research_data : dict pyval :=
       [("legal_issue", get_none kwargs "legal_issue");
        ("jurisdiction",
         get kwargs "jurisdiction" (get lawyer "jurisdiction" (VStr "Not specified")));
        ("practice_area",
         get kwargs "practice_area" (get lawyer "practice_areas" (VStr "General")));
        ("current_facts", get_none kwargs "current_facts");
        ("precedents", get kwargs "precedents" (VList []))] in
     research_data <-
       (if dict_contains kwargs "case_id" && truthy (get_none kwargs "case_id") then
          case <- get_case_by_id (get_none kwargs "case_id") ;;
          match case with
          | Some (kv :: c) =>
              ret (dict_set research_data "current_facts"
                     (get_none (kv :: c) "case_summary"))
          | _ => ret research_data
          end
        else ret research_data) ;;
     result <- call_agent E (research_precedents research_data) ;;
     issue <- slice_prefix 50 (get research_data "legal_issue" (VStr "Unknown")) ;;
     add_research_session E
       [("session_name", VStr ("Case Law Research - " ++ py_str E issue));
        ("lawyer_id", VInt lawyer_id);
        ("case_id", get_none kwargs "case_id");
        ("research_query", get_none research_data "legal_issue");
        ("practice_area", get_none research_data "practice_area");
        ("jurisdiction", get_none research_data "jurisdiction");
        ("findings", VStr (str_prefix 1000 result))] ;;;
     log INFO "Case law research completed successfully" ;;;
     ret result).

Definition analyze_contract (E : env) (lawyer_id : Z) (contract_id : option Z)
    (kwargs : dict pyval) : M string :=
  log INFO ("Analyzing contract for lawyer " ++ str_of_int lawyer_id) ;;;
  try_except "Contract analysis failed: "
    (let contract_data := kwargs in
     contract_data <-
       (match contract_id with
        | Some cid =>
            if (cid =? 0)%Z then ret contract_data
            else
              contract <- get_document_by_id (VInt cid) ;;
              title <- attr_get contract "title" ;;
              text <- attr_get contract "document_content" ;;
              type <- attr_get contract "document_type" ;;
              ret (dict_update contract_data
                     [("contract_name", title);
                      ("contract_text", text);
                      ("contract_type", type)])
        | None => ret contract_data
        end) ;;
     result <- call_agent E (agent_analyze_contract contract_data) ;;
     save_analysis_result E
       (analysis_record "contract_analysis" "contract"
          (match contract_id with Some cid => cid | None => 0 end)
          lawyer_id result) ;;;
     log INFO "Contract analysis completed successfully" ;;;
     ret result).

Definition assess_compliance (E : env) (lawyer_id : Z) (kwargs : dict pyval)
  : M string :=
  log INFO ("Assessing compliance for lawyer " ++ str_of_int lawyer_id) ;;;
  try_except "Compliance assessment failed: "
    (found <- get_lawyer_by_id (VInt lawyer_id) ;;
     lawyer <- require_row found (lawyer_not_found lawyer_id) ;;
     let compliance_data : dict pyval :=
       [("organization",
         get kwargs "organization" (get lawyer "firm" (VStr "Not specified")));
        ("industry", get_none kwargs "industry");
        ("jurisdictions",
         get kwargs "jurisdictions"
           (VList [get lawyer "jurisdiction" (VStr "Not specified")]));
        ("frameworks", get kwargs "frameworks" (VList []));
        ("current_practices", get_none kwargs "current_practices");
        ("scope", get kwargs "scope" (VList []))] in
     result <- call_agent E (agent_assess_compliance compliance_data) ;;
     save_analysis_result E
       (analysis_record "compliance_assessment" "organization" 0 lawyer_id result) ;;;
     log INFO "Compliance assessment completed successfully" ;;;
     ret result).

(** The drafting method for a supported [document_type], with
    [document_type.title()]. *)
Definition drafting_method (document_type : string)
  : option ((dict pyval -> agent_call) * string) :=
  if String.eqb document_type "memo" then Some (draft_legal_memo, "Memo")
  else if String.eqb document_type "motion" then Some (draft_motion, "Motion")
  else if String.eqb document_type "demand_letter" then
    Some (draft_demand_letter, "Demand_Letter")
  else if String.eqb document_type "contract_clause" then
    Some (draft_contract_clause, "Contract_Clause")
  else None.

Definition strftime_Y_m_d (d : datetime) : string :=
  fmt4 (year d) ++ "-" ++ fmt2 (month d) ++ "-" ++ fmt2 (day d).

Definition draft_legal_document (E : env) (lawyer_id : Z) (document_type : string)
    (kwargs : dict pyval) : M string :=
  log INFO ("Drafting " ++ document_type ++ " for lawyer " ++ str_of_int lawyer_id) ;;;
  try_except "Document drafting failed: "
    (match drafting_method document_type with
     | None => raise (ValueError ("Unsupported document type: " ++ document_type))
     | Some (method, titled) =>
         result <- call_agent E (method kwargs) ;;
         today <- clock E ;;
         doc_id <- add_document E
           [("document_type", VStr document_type);
            ("title", get kwargs "title" (VStr (titled ++ " Draft")));
            ("case_id", get_none kwargs "case_id");
            ("lawyer_id", VInt lawyer_id);
            ("document_content", VStr result);
            ("status", VStr "draft");
            ("creation_date", VStr (strftime_Y_m_d today))] ;;
         log INFO ("Document drafting completed successfully (ID: "
                   ++ str_of_int doc_id ++ ")") ;;;
         ret result
     end).

Definition develop_litigation_strategy (E : env) (lawyer_id case_id : Z)
    (kwargs : dict pyval) : M string :=
  log INFO ("Developing litigation strategy for case " ++ str_of_int case_id) ;;;
  try_except "Litigation strategy development failed: "
    (found_case <- get_case_by_id (VInt case_id) ;;
     case <- require_row found_case (case_not_found case_id) ;;
     found <- get_lawyer_by_id (VInt lawyer_id) ;;
     lawyer <- require_row found (lawyer_not_found lawyer_id) ;;
     let case_data : dict pyval :=
       dict_update
         [("case_name", get case "title" (VStr "Unknown"));
          ("case_type", get case "case_type" (VStr "Civil"));
          ("client_position", get kwargs "client_position" (VStr "plaintiff"));
          ("case_stage", get case "status" (VStr "active"));
          ("facts", get case "case_summary" (VStr "Not provided"));
          ("legal_issues", get case "key_issues" (VStr "Not specified"));
          ("client_info",
           get kwargs "client_info" (get case "client_name" (VStr "Client")));
          ("objectives", get_none kwargs "objectives")]
         kwargs in
     result <- call_agent E (analyze_case_strategy case_data) ;;
     save_analysis_result E
       (analysis_record "litigation_strategy" "case" case_id lawyer_id result) ;;;
     log INFO "Litigation strategy completed successfully" ;;;
     ret result).

(** *** [comprehensive_case_analysis] *)

Definition is_contract_document (doc : row) : bool :=
  match get_none doc "document_type" with
  | VStr t => String.eqb t "contract" || String.eqb t "agreement"
  | _ => false
  end.

(** [contract_id=doc.get('id')] *)
Definition document_id (doc : row) : option Z :=
  match get_none doc "id" with
  | VInt i => Some i
  | _ => None
  end.

(** The body of [for doc in ...:], with the analyses appended so far. *)
Fixpoint analyze_each (E : env) (lawyer_id : Z) (docs : list row)
    (document_analyses : list string) : M (list string) :=
  match docs with
  | [] => ret document_analyses
  | doc :: rest =>
      if is_contract_document doc then
        analysis <- analyze_contract E lawyer_id (document_id doc) [] ;;
        analyze_each E lawyer_id rest (document_analyses ++ [analysis])%list
      else analyze_each E lawyer_id rest document_analyses
  end.

(** [if documents: ... for doc in documents[:3]: ...]; [None] when the key
    ['document_analyses'] is not created. *)
Definition analyze_case_documents (E : env) (lawyer_id : Z) (documents : list row)
  : M (option (list string)) :=
  match documents with
  | [] => ret None
  | _ :: _ =>
      log INFO "Analyzing case documents..." ;;;
      analyses <- analyze_each E lawyer_id (firstn 3 documents) [] ;;
      ret (Some analyses)
  end.

Record analysis_bundle : Type := mk_bundle {
  case_law_research : string;
  litigation_strategy : string;
  document_analyses : option (list string)
}.

Definition comprehensive_case_analysis (E : env) (lawyer_id case_id : Z)
  : M analysis_bundle :=
  log INFO ("Starting comprehensive analysis for case " ++ str_of_int case_id) ;;;
  try_except "Comprehensive analysis failed: "
    (case <- get_case_by_id (VInt case_id) ;;
     log INFO "Running case law research..." ;;;
     key_issues <- attr_get case "key_issues" ;;
     practice_area <- attr_get case "practice_area" ;;
     research <- research_case_law E lawyer_id
       [("case_id", VInt case_id);
        ("legal_issue", key_issues);
        ("practice_area", practice_area)] ;;
     log INFO "Developing litigation strategy..." ;;;
     strategy <- develop_litigation_strategy E lawyer_id case_id [] ;;
     documents <- get_case_documents E (VInt case_id) ;;
     analyses <- analyze_case_documents E lawyer_id documents ;;
     log INFO "Comprehensive analysis completed successfully" ;;;
     ret (mk_bundle research strategy analyses)).

(** *** One type for the five task kinds *)

Inductive task : Type :=
| ResearchCaseLaw (lawyer_id : Z) (kwargs : dict pyval)
| AnalyzeContract (lawyer_id : Z) (contract_id : option Z) (kwargs : dict pyval)
| AssessCompliance (lawyer_id : Z) (kwargs : dict pyval)
| DraftDocument (lawyer_id : Z) (document_type : string) (kwargs : dict pyval)
| DevelopLitigationStrategy (lawyer_id case_id : Z) (kwargs : dict pyval).

Definition run_task (E : env) (t : task) : M string :=
  match t with
  | ResearchCaseLaw l kw => research_case_law E l kw
  | AnalyzeContract l c kw => analyze_contract E l c kw
  | AssessCompliance l kw => assess_compliance E l kw
  | DraftDocument l ty kw => draft_legal_document E l ty kw
  | DevelopLitigationStrategy l c kw => develop_litigation_strategy E l c kw
  end.

Definition requester_of (t : task) : Z :=
  match t with
  | ResearchCaseLaw l _ | AnalyzeContract l _ _ | AssessCompliance l _
  | DraftDocument l _ _ | DevelopLitigationStrategy l _ _ => l
  end.

Definition is_agent_call (e : event) : bool :=
  match e with AgentCall _ _ => true | _ => false end.

Definition is_insert (e : event) : bool :=
  match e with Insert _ _ _ => true | _ => false end.

(** A generation call that returned text, and a write the engine refused. *)
Definition agent_returned (text : string) (e : event) : Prop :=
  exists c, e = AgentCall c (Ok text).

Definition insert_refused (err : exn) (e : event) : Prop :=
  exists table data, e = Insert table data (Raise err).

Definition is_lawyer_lookup (e : event) : bool :=
  match e with Select table _ _ => String.eqb table "lawyers" | _ => false end.

(** The document id a stored contract analysis is filed under. *)
Definition contract_analysis_of (e : event) : option Z :=
  match e with
  | Insert table data (Ok _) =>
      if String.eqb table "analysis_results" then
        match get_none data "analysis_type", get_none data "entity_id" with
        | VStr ty, VInt i =>
            if String.eqb ty "contract_analysis" then Some i else None
        | _, _ => None
        end
      else None
  | _ => None
  end.

Fixpoint contract_analyses (out : list event) : list Z :=
  match out with
  | [] => []
  | e :: out' =>
      match contract_analysis_of e with
      | Some i => i :: contract_analyses out'
      | None => contract_analyses out'
      end
  end.

(** No handler swallows a refused write: when the run emitted one, the run
    ends in the error of that write. *)
Definition raises_through {A : Type} (m : M A) : Prop :=
  forall db h r db' out e,
    m db h = (r, db', out) ->
    Exists (insert_refused e) out ->
    r = Raise e.

(** The label of the [except] handler of each task operation. *)
Definition task_label (t : task) : string :=
  match t with
  | ResearchCaseLaw _ _ => "Case law research failed: "
  | AnalyzeContract _ _ _ => "Contract analysis failed: "
  | AssessCompliance _ _ => "Compliance assessment failed: "
  | DraftDocument _ _ _ => "Document drafting failed: "
  | DevelopLitigationStrategy _ _ _ => "Litigation strategy development failed: "
  end.

(** The task operations whose body looks the requester up. *)
Definition checks_requester (t : task) : bool :=
  match t with
  | ResearchCaseLaw _ _ | AssessCompliance _ _
  | DevelopLitigationStrategy _ _ _ => true
  | AnalyzeContract _ _ _ | DraftDocument _ _ _ => false
  end.

Definition lookup_lawyer (db : database) (lawyer_id : Z) : option row :=
  find (column_is "id" (VInt lawyer_id)) (lawyers db).

(** *** More of [utils/database.py] *)

Definition add_lawyer (E : env) : row -> M Z :=
  execute_insert E "lawyers" lawyers
    (fun db t => mk_database t (cases db) (legal_documents db)
                             (research_sessions db) (analysis_results db)).

Definition add_case (E : env) : row -> M Z :=
  execute_insert E "cases" cases
    (fun db t => mk_database (lawyers db) t (legal_documents db)
                             (research_sessions db) (analysis_results db)).

(** The orders [ORDER BY filing_date DESC] and [ORDER BY session_date DESC]
    give, decided by the engine like [order_by_creation_date_desc]. *)
Record orderings : Type := mk_orderings {
  order_by_filing_date_desc : list row -> list row;
  order_by_session_date_desc : list row -> list row
}.

Definition get_lawyer_cases (O : orderings) (lawyer_id : pyval) : M (list row) :=
  fun db _ =>
    (Ok (order_by_filing_date_desc O
           (filter (column_is "lawyer_id" lawyer_id) (cases db))),
     db, [Select "cases" "lawyer_id" lawyer_id]).

Definition get_lawyer_research_sessions (O : orderings) (lawyer_id : pyval)
  : M (list row) :=
  fun db _ =>
    (Ok (order_by_session_date_desc O
           (filter (column_is "lawyer_id" lawyer_id) (research_sessions db))),
     db, [Select "research_sessions" "lawyer_id" lawyer_id]).

(** *** [get_lawyer_summary] *)

(** [v in [s1, s2, ...]] for a list of strings. *)
Definition value_in (v : pyval) (options : list string) : bool :=
  match v with
  | VStr s => existsb (String.eqb s) options
  | _ => false
  end.

(** [r.get(k, default)] on the result of a lookup that was not checked. *)
Definition attr_get_default (r : option row) (k : string) (default : pyval)
  : M pyval :=
  match r with
  | Some r' => ret (get r' k default)
  | None => raise (AttributeError "'NoneType' object has no attribute 'get'")
  end.

Record lawyer_summary : Type := mk_lawyer_summary {
  summary_lawyer : option row;
  total_cases : Z;
  active_cases : Z;
  closed_cases : Z;
  win_rate : FeedbackHandler.number;
  summary_research_sessions : Z;
  years_experience : pyval;
  specializations : pyval;
  recent_cases : list row
}.

Definition is_closed (c : row) : bool :=
  value_in (get_none c "status") ["closed"; "settled"; "dismissed"].

Definition is_won (c : row) : bool :=
  value_in (get_none c "outcome") ["won"; "favorable"; "settled"].

Definition is_active (c : row) : bool :=
  match get_none c "status" with
  | VStr s => String.eqb s "active"
  | _ => false
  end.

Definition get_lawyer_summary (O : orderings) (lawyer_id : Z) : M lawyer_summary :=
  try_except "Failed to get lawyer summary: "
    (lawyer <- get_lawyer_by_id (VInt lawyer_id) ;;
     cases <- get_lawyer_cases O (VInt lawyer_id) ;;
     sessions <- get_lawyer_research_sessions O (VInt lawyer_id) ;;
     let closed := filter is_closed cases in
     let won := filter is_won closed in
     years <- attr_get_default lawyer "years_experience" (VInt 0) ;;
     specs <- attr_get_default lawyer "specializations" (VStr "") ;;
     ret {| summary_lawyer := lawyer;
            total_cases := FeedbackHandler.len cases;
            active_cases := FeedbackHandler.len (filter is_active cases);
            closed_cases := FeedbackHandler.len closed;
            win_rate :=
              match closed with
              | [] => FeedbackHandler.Int 0
              | _ :: _ =>
                  FeedbackHandler.Float
                    (PrimFloat.mul
                       (FeedbackHandler.int_truediv (FeedbackHandler.len won)
                                                    (FeedbackHandler.len closed))
                       (FeedbackHandler.float_of_int 100))
              end;
            summary_research_sessions := FeedbackHandler.len sessions;
            years_experience := years;
            specializations := specs;
            recent_cases := firstn 5 cases |}).

(** *** Notions used to state properties of runs *)

Definition count_events (p : event -> bool) (out : list event) : nat :=
  List.length (filter p out).

Definition agent_failed (err : exn) (e : event) : Prop :=
  exists c, e = AgentCall c (Raise err).

(** The rows of a table by its name. *)
Definition table_rows (table : string) (db : database) : list row :=
  if String.eqb table "lawyers" then lawyers db
  else if String.eqb table "cases" then cases db
  else if String.eqb table "legal_documents" then legal_documents db
  else if String.eqb table "research_sessions" then research_sessions db
  else if String.eqb table "analysis_results" then analysis_results db
  else [].

(** [db'] has every row of [db], in place, and maybe more at the end of a
    table; the lawyers and the cases are the same. *)
Definition extends (db db' : database) : Prop :=
  lawyers db' = lawyers db /\
  cases db' = cases db /\
  (exists added, legal_documents db' = (legal_documents db ++ added)%list) /\
  (exists added, research_sessions db' = (research_sessions db ++ added)%list) /\
  (exists added, analysis_results db' = (analysis_results db ++ added)%list).

(** What a run leaves behind: the database it ends in extends the one it
    started from and holds the row of every write that was accepted. *)
Definition durable {A : Type} (m : M A) : Prop :=
  forall db h r db' out,
    m db h = (r, db', out) ->
    extends db db' /\
    forall table data new_id,
      In (Insert table data (Ok new_id)) out ->
      In (dict_set data "id" (VInt new_id)) (table_rows table db').

(** At most [k] events of a kind in any run, and exactly [k] in a run that
    returns. *)
Definition emits {A : Type} (p : event -> bool) (k : nat) (m : M A) : Prop :=
  forall db h r db' out,
    m db h = (r, db', out) ->
    (count_events p out <= k)%nat /\
    (forall a, r = Ok a -> count_events p out = k).

(** A failed agent call ends the run in the agent's error. *)
Definition agent_error_raised {A : Type} (m : M A) : Prop :=
  forall db h r db' out e,
    m db h = (r, db', out) ->
    Exists (agent_failed e) out ->
    r = Raise e.

(** A run that wrote, or tried to, had got text from an agent. *)
Definition writes_follow_generation {A : Type} (m : M A) : Prop :=
  forall db h r db' out,
    m db h = (r, db', out) ->
    (1 <= count_events is_insert out)%nat ->
    exists text, Exists (agent_returned text) out.

(** The database changes only through accepted writes. *)
Definition changes_by_writes_only {A : Type} (m : M A) : Prop :=
  forall db h r db' out,
    m db h = (r, db', out) ->
    count_events is_insert out = 0%nat -> db' = db.

(** At most [hi] events of a kind in any run, and at least [lo] in a run
    that returns. *)
Definition emits_between {A : Type} (p : event -> bool) (lo hi : nat) (m : M A)
  : Prop :=
  forall db h r db' out,
    m db h = (r, db', out) ->
    (count_events p out <= hi)%nat /\
    (forall a, r = Ok a -> (lo <= count_events p out)%nat).

(** What reaches an agent: the dictionary of every call made in a run. *)
Definition agent_inputs (out : list event) : list agent_call :=
  flat_map (fun e => match e with AgentCall c _ => [c] | _ => [] end) out.

(** Started in [db], every run of [m] ends in a result, a database and
    events that satisfy [Q]. *)
Definition ensures {A : Type} (db : database) (m : M A)
    (Q : result A -> database -> list event -> Prop) : Prop :=
  forall h r db' out, m db h = (r, db', out) -> Q r db' out.

(** A run that files no contract analysis and leaves the documents table as
    it was. *)
Definition files_no_contract_analysis {A : Type} (m : M A) : Prop :=
  forall db h r db' out,
    m db h = (r, db', out) ->
    contract_analyses out = [] /\ legal_documents db' = legal_documents db.

End Orchestrator.

(** ** [api_server.py]: the endpoints that call the orchestrator *)

Module ApiServer.

Import Orchestrator.
Local Open Scope string_scope.

(** The response: the body of a 200, or the [HTTPException] raised. *)
Inductive response (A : Type) : Type :=
| Http200 (body : A)
| HttpError (status_code : Z) (detail : string).
Arguments Http200 {A} body.
Arguments HttpError {A} status_code detail.

Definition endpoint (A : Type) : Type :=
  database -> list event -> response A * database * list event.

(** [try: ... return {...: result} / except Exception as e:
    raise HTTPException(status_code=500, detail=str(e))] *)
Definition respond {A : Type} (m : M A) : endpoint A :=
  fun db h =>
    match m db h with
    | (Ok result, db', out) => (Http200 result, db', out)
    | (Raise e, db', out) => (HttpError 500 (exn_str e), db', out)
    end.

Definition opt_str (o : option string) : pyval :=
  match o with Some s => VStr s | None => VNone end.

Definition opt_int (o : option Z) : pyval :=
  match o with Some z => VInt z | None => VNone end.

Record CaseLawResearchRequest : Type := mk_research_request {
  lawyer_id : Z;
  legal_issue : string;
  jurisdiction : option string;
  practice_area : option string;
  current_facts : option string;
  case_id : option Z
}.

(** Every field of the request is passed as a keyword argument, set or not. *)
Definition research_kwargs (request : CaseLawResearchRequest) : dict pyval :=
  [("legal_issue", VStr (legal_issue request));
   ("jurisdiction", opt_str (jurisdiction request));
   ("practice_area", opt_str (practice_area request));
   ("current_facts", opt_str (current_facts request));
   ("case_id", opt_int (case_id request))].

Definition research_case_law (E : env) (request : CaseLawResearchRequest)
  : endpoint string :=
  respond (Orchestrator.research_case_law E (lawyer_id request)
             (research_kwargs request)).

Definition develop_litigation_strategy (E : env) (case_id lawyer_id : Z)
  : endpoint string :=
  respond (Orchestrator.develop_litigation_strategy E lawyer_id case_id []).

Definition comprehensive_case_analysis (E : env) (case_id lawyer_id : Z)
  : endpoint analysis_bundle :=
  respond (Orchestrator.comprehensive_case_analysis E lawyer_id case_id).

Definition get_lawyer_summary (O : orderings) (lawyer_id : Z)
  : endpoint lawyer_summary :=
  respond (Orchestrator.get_lawyer_summary O lawyer_id).

(** [GET /lawyers/{lawyer_id}]: the one endpoint with a 404 of its own. *)
Definition get_lawyer (lawyer_id : Z) : endpoint row :=
  fun db h =>
    match get_lawyer_by_id (VInt lawyer_id) db h with
    | (Ok (Some (kv :: r)), db', out) => (Http200 (kv :: r), db', out)
    | (Ok _, db', out) => (HttpError 404 "Lawyer not found", db', out)
    | (Raise e, db', out) => (HttpError 500 (exn_str e), db', out)
    end.

End ApiServer.

(** ** Concrete inputs used by the examples and counterexamples below *)

Module Examples.

Local Open Scope string_scope.

(** Two clock readings inside the same second, and one a minute later. *)
Definition t0 : datetime := mk_datetime 2024 3 15 10 30 0 100.
Definition t0' : datetime := mk_datetime 2024 3 15 10 30 0 900.
Definition t1 : datetime := mk_datetime 2024 3 15 10 31 0 0.
Definition t2 : datetime := mk_datetime 2024 3 15 10 32 0 0.

(** *** Approval manager *)

Definition request_1 : string * ApprovalManager.manager :=
  ApprovalManager.request_approval ApprovalManager.init
    "document" "first draft" [] 7 t0 t0.

(** The same type and requester again, later in the same second. *)
Definition request_2 : string * ApprovalManager.manager :=
  ApprovalManager.request_approval (snd request_1)
    "document" "second draft" [] 7 t0' t0'.

Definition after_reject : ApprovalManager.manager :=
  snd (ApprovalManager.reject (snd request_1) (fst request_1) 2 "too vague" t1).

(** One pending request of requester 0 and one of requester 7. *)
Definition two_requesters : ApprovalManager.manager :=
  snd (ApprovalManager.request_approval
         (snd (ApprovalManager.request_approval ApprovalManager.init
                 "document" "memo" [] 0 t0 t0))
         "strategy" "plan" [] 7 t0 t0).


(** *** Feedback handler *)

Definition submit (rating : Z) : FeedbackHandler.call :=
  FeedbackHandler.SubmitFeedback "analysis-1" "contract_analysis" 7 rating
    None None t0 t0.

(** Five accepted submissions rated 5, 5, 4, 2 and 1. *)
Definition five_ratings : FeedbackHandler.handler :=
  FeedbackHandler.run [submit 5; submit 5; submit 4; submit 2; submit 1].

(** *** Orchestrator *)

Definition lawyer_1 : Orchestrator.row :=
  [("id", Orchestrator.VInt 1);
   ("name", Orchestrator.VStr "A. Counsel");
   ("firm", Orchestrator.VStr "Counsel and Partners");
   ("practice_areas", Orchestrator.VStr "Corporate Law");
   ("jurisdiction", Orchestrator.VStr "Federal")].

Definition case_10 : Orchestrator.row :=
  [("id", Orchestrator.VInt 10);
   ("title", Orchestrator.VStr "Test Corp v. Sample Inc");
   ("case_type", Orchestrator.VStr "Civil");
   ("practice_area", Orchestrator.VStr "Contract Law");
   ("status", Orchestrator.VStr "active");
   ("lawyer_id", Orchestrator.VInt 1);
   ("client_name", Orchestrator.VStr "Test Corp");
   ("case_summary", Orchestrator.VStr "Supply agreement dispute");
   ("key_issues", Orchestrator.VStr "breach of contract")].

Definition document (doc_id : Z) (document_type : string) : Orchestrator.row :=
  [("id", Orchestrator.VInt doc_id);
   ("document_type", Orchestrator.VStr document_type);
   ("title", Orchestrator.VStr "Exhibit");
   ("case_id", Orchestrator.VInt 10);
   ("lawyer_id", Orchestrator.VInt 1);
   ("document_content", Orchestrator.VStr "text of the exhibit")].

(** Three documents that are no contracts come first, four contract-type
    documents follow. *)
Definition documents_of_case_10 : list Orchestrator.row :=
  [document 1 "memo"; document 2 "motion"; document 3 "letter";
   document 4 "contract"; document 5 "contract"; document 6 "agreement";
   document 7 "contract"].

Definition db0 : Orchestrator.database :=
  Orchestrator.mk_database [lawyer_1] [case_10] documents_of_case_10 [] [].

(** Every agent call returns text and every write is accepted. *)
Definition env_ok : Orchestrator.env :=
  Orchestrator.mk_env
    (fun _ _ => Ok "generated text")
    (fun _ _ _ => None)
    (fun rows => rows)
    (fun _ => t0)
    (fun _ => "[]").

(** Every agent call returns text and every write is refused. *)
Definition env_no_writes : Orchestrator.env :=
  Orchestrator.mk_env
    (fun _ _ => Ok "generated text")
    (fun _ _ _ => Some "database is locked")
    (fun rows => rows)
    (fun _ => t0)
    (fun _ => "[]").

Definition research_task : Orchestrator.task :=
  Orchestrator.ResearchCaseLaw 1
    [("legal_issue", Orchestrator.VStr "breach of contract")].

Definition contract_task : Orchestrator.task :=
  Orchestrator.AnalyzeContract 1 (Some 4) [].

(** Requester 99 is not in the lawyers table of [db0]. *)
Definition orphan_contract_task : Orchestrator.task :=
  Orchestrator.AnalyzeContract 99 None
    [("contract_text", Orchestrator.VStr "The parties agree ...")].

Definition orphan_draft_task : Orchestrator.task :=
  Orchestrator.DraftDocument 99 "memo" [("title", Orchestrator.VStr "Memo on venue")].

(** A contract first, then a memo, an agreement and another contract. *)
Definition mixed_documents : list Orchestrator.row :=
  [document 4 "contract"; document 1 "memo"; document 6 "agreement";
   document 7 "contract"].

(** *** Further inputs *)

(** Approved once, with a replacement text. *)
Definition approved_with_revision : ApprovalManager.manager :=
  ApprovalManager.run
    [ApprovalManager.RequestApproval "document" "first draft" [] 7 t0 t0;
     ApprovalManager.Approve "document_20240315103000_7" 2 (Some "ok")
       (Some "revised draft") t1].


(** Two poor ratings of contract analyses, one good rating of a memo. *)
Definition rated_handler : FeedbackHandler.handler :=
  FeedbackHandler.run
    [FeedbackHandler.SubmitFeedback "analysis-1" "contract_analysis" 7 1
       (Some "misses the indemnity clause") (Some ["vague"; "too long"]) t0 t0;
     FeedbackHandler.SubmitFeedback "analysis-2" "contract_analysis" 8 2
       None (Some ["vague"]) t1 t1;
     FeedbackHandler.SubmitFeedback "memo-1" "memo" 7 5 (Some "good") None t2 t2].

(** The agents answer, except the litigation agent, whose call fails. *)
Definition env_strategy_down : Orchestrator.env :=
  Orchestrator.mk_env
    (fun _ c =>
       match c with
       | Orchestrator.analyze_case_strategy _ => Raise (AgentError "model unavailable")
       | _ => Ok "generated text"
       end)
    (fun _ _ _ => None)
    (fun rows => rows)
    (fun _ => t0)
    (fun _ => "[]").

(** No agent answers. *)
Definition env_agent_down : Orchestrator.env :=
  Orchestrator.mk_env
    (fun _ _ => Raise (AgentError "model unavailable"))
    (fun _ _ _ => None)
    (fun rows => rows)
    (fun _ => t0)
    (fun _ => "[]").

Definition case_of_lawyer_1 (case_id : Z) (status outcome : string)
  : Orchestrator.row :=
  [("id", Orchestrator.VInt case_id);
   ("title", Orchestrator.VStr "Matter");
   ("status", Orchestrator.VStr status);
   ("outcome", Orchestrator.VStr outcome);
   ("lawyer_id", Orchestrator.VInt 1)].

(** Lawyer 1 with one active case, two closed ones of which one was won, and
    a case of another lawyer. *)
Definition db_with_cases : Orchestrator.database :=
  Orchestrator.mk_database [lawyer_1]
    [case_of_lawyer_1 10 "active" "";
     case_of_lawyer_1 11 "closed" "won";
     case_of_lawyer_1 12 "dismissed" "lost";
     [("id", Orchestrator.VInt 13); ("status", Orchestrator.VStr "closed");
      ("lawyer_id", Orchestrator.VInt 2)]]
    [] [] [].

(** An engine that returns the rows in table order. *)
Definition table_order : Orchestrator.orderings :=
  Orchestrator.mk_orderings (fun rows => rows) (fun rows => rows).

(** A research request that leaves every optional field unset. *)
Definition bare_request : ApiServer.CaseLawResearchRequest :=
  ApiServer.mk_research_request 1 "breach of contract" None None None None.

(** The documents table holds a contract of case 11 first, then the mixed
    documents of case 10. *)
Definition db_mixed : Orchestrator.database :=
  Orchestrator.mk_database [lawyer_1] [case_10]
    ([("id", Orchestrator.VInt 9);
      ("document_type", Orchestrator.VStr "contract");
      ("case_id", Orchestrator.VInt 11)] :: mixed_documents)
    [] [].

(** The research agent as [agents/case_law_research_agent.py] has it:
    [research_precedents] slices the legal issue for its own log line before
    it generates, so a legal issue that is [None] or an [int] makes the call
    raise; every other call returns text. *)
Definition env_research_logs_issue : Orchestrator.env :=
  Orchestrator.mk_env
    (fun _ c =>
       match c with
       | Orchestrator.research_precedents research_data =>
           match Orchestrator.get research_data "legal_issue"
                   (Orchestrator.VStr "Unknown") with
           | Orchestrator.VNone =>
               Raise (TypeError "'NoneType' object is not subscriptable")
           | Orchestrator.VInt _ =>
               Raise (TypeError "'int' object is not subscriptable")
           | _ => Ok "generated text"
           end
       | _ => Ok "generated text"
       end)
    (fun _ _ _ => None)
    (fun rows => rows)
    (fun _ => t0)
    (fun _ => "[]").

End Examples.

(** * Properties *)

(** ** Strings, identifiers and dictionaries *)

Module PyFacts.

Local Open Scope string_scope.

Lemma append_assoc (a b c : string) : (a ++ b) ++ c = a ++ (b ++ c).
Proof.
  induction a as [|x a IH]; simpl; [reflexivity | now rewrite IH].
Qed.

Lemma length_append (a b : string) :
  String.length (a ++ b) = (String.length a + String.length b)%nat.
Proof.
  induction a as [|x a IH]; simpl; [reflexivity | now rewrite IH].
Qed.

(** Two concatenations with right parts of equal length agree part by part. *)
Lemma append_inj_same_length (a1 a2 b1 b2 : string) :
  String.length b1 = String.length b2 ->
  a1 ++ b1 = a2 ++ b2 -> a1 = a2 /\ b1 = b2.
Proof.
  revert a2. induction a1 as [|x a1 IH]; intros [|y a2] Hlen Heq; simpl in Heq.
  - now split.
  - exfalso. subst b1. simpl in Hlen. rewrite length_append in Hlen. lia.
  - exfalso. subst b2. simpl in Hlen. rewrite length_append in Hlen. lia.
  - injection Heq as -> Heq. destruct (IH a2 Hlen Heq) as [-> ->]. now split.
Qed.

Lemma contains_char_append (c : ascii) (a b : string) :
  contains_char c (a ++ b) = contains_char c a || contains_char c b.
Proof.
  induction a as [|x a IH]; simpl; [reflexivity|].
  destruct (Ascii.eqb x c); [reflexivity | exact IH].
Qed.

(** Splitting at the last occurrence of a separator is unambiguous. *)
Lemma split_at_last (c : ascii) (a1 a2 b1 b2 : string) :
  contains_char c b1 = false -> contains_char c b2 = false ->
  a1 ++ String c b1 = a2 ++ String c b2 -> a1 = a2 /\ b1 = b2.
Proof.
  intros H1 H2. revert a2.
  induction a1 as [|x a1 IH]; intros [|y a2] Heq; simpl in Heq.
  - injection Heq as ->. now split.
  - exfalso. injection Heq as <- ->.
    rewrite contains_char_append in H1. simpl in H1.
    rewrite Ascii.eqb_refl in H1. rewrite orb_true_r in H1. discriminate.
  - exfalso. injection Heq as -> <-.
    rewrite contains_char_append in H2. simpl in H2.
    rewrite Ascii.eqb_refl in H2. rewrite orb_true_r in H2. discriminate.
  - injection Heq as -> Heq. destruct (IH a2 Heq) as [-> ->]. now split.
Qed.

Lemma string_of_uint_no_underscore (d : uint) :
  contains_char "_" (NilEmpty.string_of_uint d) = false.
Proof.
  induction d; simpl; auto.
Qed.

(** [str] of an [int] has digits and a sign only. *)
Lemma str_of_int_no_underscore (z : Z) :
  contains_char "_" (str_of_int z) = false.
Proof.
  unfold str_of_int.
  destruct (Z.to_int z) as [d|d]; simpl;
    destruct d; simpl; auto using string_of_uint_no_underscore.
Qed.

Lemma str_of_int_inj (a b : Z) : str_of_int a = str_of_int b -> a = b.
Proof.
  unfold str_of_int. intros H.
  apply DecimalZ.to_int_inj.
  assert (Hs : forall z, NilZero.int_of_string (NilZero.string_of_int (Z.to_int z))
                         = Some (Z.to_int z)).
  { intros z. apply NilZero.isi.
    - destruct z; simpl; try discriminate.
      intros [= E]. now apply Unsigned.to_uint_nonnil in E.
    - destruct z; simpl; try discriminate.
      intros [= E]. now apply Unsigned.to_uint_nonnil in E. }
  pose proof (Hs a) as Ha. rewrite H, Hs in Ha. now injection Ha.
Qed.

Lemma length_strftime (d : datetime) :
  String.length (strftime_YmdHMS d) = 14%nat.
Proof. reflexivity. Qed.

Section Dict.
Context {V : Type}.
Implicit Types (d : dict V) (k : string) (v : V).

Lemma dict_get_set_same d k v : dict_get (dict_set d k v) k = Some v.
Proof.
  induction d as [|[k' v'] d IH]; simpl.
  - now rewrite String.eqb_refl.
  - destruct (String.eqb k k') eqn:E; simpl; rewrite E; auto.
Qed.

Lemma dict_get_set_other d k k' v :
  k' <> k -> dict_get (dict_set d k v) k' = dict_get d k'.
Proof.
  intros Hne. induction d as [|[k0 v0] d IH]; simpl.
  - apply String.eqb_neq in Hne. now rewrite Hne.
  - destruct (String.eqb k k0) eqn:E; simpl.
    + apply String.eqb_eq in E. subst k0.
      apply String.eqb_neq in Hne. now rewrite Hne.
    + now rewrite IH.
Qed.

Lemma length_dict_set_present d k v v0 :
  dict_get d k = Some v0 -> List.length (dict_set d k v) = List.length d.
Proof.
  induction d as [|[k' v'] d IH]; simpl; [discriminate|].
  destruct (String.eqb k k'); simpl; auto.
Qed.

Lemma length_dict_set_absent d k v :
  dict_get d k = None -> List.length (dict_set d k v) = S (List.length d).
Proof.
  induction d as [|[k' v'] d IH]; simpl; [reflexivity|].
  destruct (String.eqb k k'); simpl; [discriminate | auto].
Qed.

Lemma dict_keys_set_present d k v v0 :
  dict_get d k = Some v0 -> dict_keys (dict_set d k v) = dict_keys d.
Proof.
  unfold dict_keys.
  induction d as [|[k' v'] d IH]; simpl; [discriminate|].
  destruct (String.eqb k k'); simpl; [reflexivity|].
  intros H. now rewrite IH.
Qed.

Lemma dict_keys_set_absent d k v :
  dict_get d k = None -> dict_keys (dict_set d k v) = (dict_keys d ++ [k])%list.
Proof.
  unfold dict_keys.
  induction d as [|[k' v'] d IH]; simpl; [reflexivity|].
  destruct (String.eqb k k'); simpl; [discriminate|].
  intros H. now rewrite IH.
Qed.

Lemma dict_get_None_iff d k : dict_get d k = None <-> ~ In k (dict_keys d).
Proof.
  unfold dict_keys.
  induction d as [|[k' v'] d IH]; simpl; [tauto|].
  destruct (String.eqb k k') eqn:E.
  - apply String.eqb_eq in E. subst. split; [discriminate | tauto].
  - apply String.eqb_neq in E. rewrite IH. split; intros H.
    + intros [H1 | H1]; [now apply E | tauto].
    + tauto.
Qed.
End Dict.

End PyFacts.

(** ** The approval workflow *)

Module ApprovalFacts.

Import ApprovalManager PyFacts.
Local Open Scope string_scope.

(** *** Identifiers *)

(** Two identifiers agree exactly when the approval type, the clock second and
    the requester agree. *)
Lemma approval_id_of_inj (ty1 ty2 : string) (n1 n2 : datetime) (r1 r2 : Z) :
  approval_id_of ty1 n1 r1 = approval_id_of ty2 n2 r2 <->
  ty1 = ty2 /\ strftime_YmdHMS n1 = strftime_YmdHMS n2 /\ r1 = r2.
Proof.
  unfold approval_id_of. split.
  - intros H.
    assert (H' : (ty1 ++ "_" ++ strftime_YmdHMS n1) ++ String "_" (str_of_int r1)
               = (ty2 ++ "_" ++ strftime_YmdHMS n2) ++ String "_" (str_of_int r2)).
    { rewrite !append_assoc. exact H. }
    apply split_at_last in H'; try apply str_of_int_no_underscore.
    destruct H' as [Hl Hr]. apply str_of_int_inj in Hr.
    rewrite <- !append_assoc in Hl.
    apply append_inj_same_length in Hl; [|now rewrite !length_strftime].
    destruct Hl as [Hl Hts].
    apply append_inj_same_length in Hl; [|reflexivity].
    tauto.
  - intros (-> & -> & ->). reflexivity.
Qed.

(** *** [request_approval] *)

Lemma request_approval_id (self : manager) ty c md r n1 n2 :
  fst (request_approval self ty c md r n1 n2) = approval_id_of ty n1 r.
Proof. reflexivity. Qed.

(** *** [get_pending_approvals] *)

Lemma get_pending_approvals_no_filter (self : manager) :
  get_pending_approvals self None =
  filter (fun a => status_eqb (status a) pending)
         (dict_values (pending_approvals self)).
Proof. reflexivity. Qed.

Lemma get_pending_approvals_nonzero (self : manager) (r : Z) :
  r <> 0 ->
  get_pending_approvals self (Some r) =
  filter (fun a => (requester_id a =? r)%Z)
    (filter (fun a => status_eqb (status a) pending)
            (dict_values (pending_approvals self))).
Proof.
  intros Hr. unfold get_pending_approvals. simpl.
  apply Z.eqb_neq in Hr. now rewrite Hr.
Qed.

(** A requester id of 0 is falsy, so the filter is skipped. *)
Lemma get_pending_approvals_zero (self : manager) :
  get_pending_approvals self (Some 0) = get_pending_approvals self None.
Proof. reflexivity. Qed.

(** *** Claims *)

(** C3, as amended: the identifier returned by [request_approval] is
    [type_YYYYMMDDHHMMSS_requester]; it equals the identifier of another
    request exactly when approval type, clock second and requester all agree.
    The new record is stored as Pending under that identifier and every
    record under another identifier is kept; a record already stored under
    the same identifier is replaced, and otherwise the store grows by one. *)
Theorem request_approval_identifier_and_store
    (self : manager) (ty c : string) (md : dict string) (r : Z)
    (now_id now_created : datetime) :
  let out := request_approval self ty c md r now_id now_created in
  let store := pending_approvals self in
  let store' := pending_approvals (snd out) in
  fst out = approval_id_of ty now_id r /\
  (forall ty' now' r',
      approval_id_of ty' now' r' = fst out <->
      ty' = ty /\ strftime_YmdHMS now' = strftime_YmdHMS now_id /\ r' = r) /\
  (exists a,
      dict_get store' (fst out) = Some a /\
      id a = fst out /\ status a = pending /\ content a = c /\
      requester_id a = r /\ approved_by a = None /\ approved_at a = None /\
      comments a = None /\ rejection_reason a = None) /\
  (forall k, k <> fst out -> dict_get store' k = dict_get store k) /\
  (dict_get store (fst out) = None ->
   List.length store' = S (List.length store)) /\
  (forall old, dict_get store (fst out) = Some old ->
   List.length store' = List.length store /\ dict_keys store' = dict_keys store).
Proof.
  cbv zeta. simpl fst. simpl snd. simpl pending_approvals.
  repeat split.
  - apply approval_id_of_inj in H. tauto.
  - apply approval_id_of_inj in H. tauto.
  - apply approval_id_of_inj in H. tauto.
  - intros (-> & Hts & ->). apply approval_id_of_inj. tauto.
  - eexists. split; [apply dict_get_set_same|]. simpl. tauto.
  - intros k Hk. now apply dict_get_set_other.
  - apply length_dict_set_absent.
  - eapply length_dict_set_present; eassumption.
  - eapply dict_keys_set_present; eassumption.
Qed.

(** C3, as stated, fails: two requests of the same type by the same requester
    within one clock second get the same identifier, and the second record
    displaces the first. *)
Lemma request_approval_same_second_collides :
  fst Examples.request_2 = fst Examples.request_1 /\
  In (fst Examples.request_2) (dict_keys (pending_approvals (snd Examples.request_1))) /\
  List.length (pending_approvals (snd Examples.request_2)) = 1%nat /\
  option_map content
    (dict_get (pending_approvals (snd Examples.request_1)) (fst Examples.request_1))
  = Some "first draft" /\
  option_map content
    (dict_get (pending_approvals (snd Examples.request_2)) (fst Examples.request_1))
  = Some "second draft".
Proof.
  vm_compute. repeat split; auto.
Qed.

(** C2, as amended: [approve] and [reject] succeed on every stored request,
    whatever its status, and fail only on an id that is not stored.
    [approve] sets the status to Approved and overwrites approver, decision
    time and comments, leaving the rejection reason as it was; [reject] sets
    the status to Rejected and overwrites approver, decision time and
    rejection reason, leaving the comments as they were.  Neither sets the
    status back to Pending, and a decision on another id leaves the record as
    it is.  The one call that makes a decided record Pending again is a
    [request_approval] whose identifier is the one of the record: it replaces
    the record by the new request; under any other identifier it leaves the
    record as it is. *)
Theorem approve_reject_overwrite
    (self : manager) (approval_id : string) (a : approval_request)
    (Hstored : dict_get (pending_approvals self) approval_id = Some a) :
  (forall approver cm mods now,
      exists a',
        fst (approve self approval_id approver cm mods now) = Ok a' /\
        dict_get (pending_approvals (snd (approve self approval_id approver cm mods now)))
                 approval_id = Some a' /\
        status a' = approved /\ approved_by a' = Some approver /\
        approved_at a' = Some now /\ comments a' = cm /\
        rejection_reason a' = rejection_reason a) /\
  (forall approver reason now,
      exists a',
        fst (reject self approval_id approver reason now) = Ok a' /\
        dict_get (pending_approvals (snd (reject self approval_id approver reason now)))
                 approval_id = Some a' /\
        status a' = rejected /\ approved_by a' = Some approver /\
        approved_at a' = Some now /\ rejection_reason a' = Some reason /\
        comments a' = comments a) /\
  (forall other,
      dict_get (pending_approvals self) other = None ->
      forall approver cm reason mods now,
        approve self other approver cm mods now
        = (Raise (ValueError ("Approval request " ++ other ++ " not found")), self) /\
        reject self other approver reason now
        = (Raise (ValueError ("Approval request " ++ other ++ " not found")), self)) /\
  (forall c : call,
      exists a',
        dict_get (pending_approvals (step self c)) approval_id = Some a' /\
        match c with
        | Approve k _ _ _ _ =>
            if String.eqb k approval_id then status a' = approved else a' = a
        | Reject k _ _ _ =>
            if String.eqb k approval_id then status a' = rejected else a' = a
        | RequestApproval ty ct md r now_id now_created =>
            if String.eqb (approval_id_of ty now_id r) approval_id then
              a' = mk_request approval_id ty ct md r pending now_created
                     None None None None None None
            else a' = a
        end).
Proof.
  split; [|split; [|split]].
  - intros. unfold approve. rewrite Hstored. cbn [fst snd pending_approvals].
    eexists. split; [reflexivity|]. split; [apply dict_get_set_same|].
    cbn. tauto.
  - intros. unfold reject. rewrite Hstored. cbn [fst snd pending_approvals].
    eexists. split; [reflexivity|]. split; [apply dict_get_set_same|].
    cbn. tauto.
  - intros other Hother approver cm reason mods now.
    unfold approve, reject. rewrite Hother. split; reflexivity.
  - intros [ty ct md r now_id now_created | k ap cm mods now | k ap rs now];
      cbn [step].
    + cbn [request_approval snd pending_approvals].
      destruct (String.eqb_spec (approval_id_of ty now_id r) approval_id) as [-> | Hne].
      * eexists. split; [apply dict_get_set_same | reflexivity].
      * exists a. split; [|reflexivity].
        rewrite dict_get_set_other; [exact Hstored | congruence].
    + unfold approve.
      destruct (String.eqb_spec k approval_id) as [-> | Hne].
      * rewrite Hstored. cbn [snd pending_approvals].
        eexists. split; [apply dict_get_set_same | reflexivity].
      * exists a. split; [|reflexivity].
        destruct (dict_get (pending_approvals self) k); cbn [snd pending_approvals];
          [rewrite dict_get_set_other; [exact Hstored | congruence] | exact Hstored].
    + unfold reject.
      destruct (String.eqb_spec k approval_id) as [-> | Hne].
      * rewrite Hstored. cbn [snd pending_approvals].
        eexists. split; [apply dict_get_set_same | reflexivity].
      * exists a. split; [|reflexivity].
        destruct (dict_get (pending_approvals self) k); cbn [snd pending_approvals];
          [rewrite dict_get_set_other; [exact Hstored | congruence] | exact Hstored].
Qed.

(** On a request that was rejected before: [approve] overwrites the decision,
    and a new request of the same type and requester within the second of the
    first one puts a Pending record in its place. *)
Lemma approve_reject_overwrite_rejected :
  (exists a,
      dict_get (pending_approvals Examples.after_reject) (fst Examples.request_1) = Some a /\
      status a = rejected) /\
  (forall approver cm mods now,
      exists a',
        fst (approve Examples.after_reject (fst Examples.request_1) approver cm mods now)
        = Ok a' /\
        status a' = approved /\ approved_by a' = Some approver /\
        approved_at a' = Some now /\ comments a' = cm) /\
  (exists a',
      dict_get
        (pending_approvals
           (step Examples.after_reject
              (RequestApproval "document" "second draft" [] 7 Examples.t0' Examples.t0')))
        (fst Examples.request_1) = Some a' /\
      status a' = pending /\ content a' = "second draft" /\ approved_by a' = None).
Proof.
  pose proof (approve_reject_overwrite Examples.after_reject (fst Examples.request_1)
                _ eq_refl) as (Happ & _ & _ & Hstep).
  split; [|split].
  - eexists. split; reflexivity.
  - intros approver cm mods now.
    destruct (Happ approver cm mods now) as (a' & H1 & _ & H3 & H4 & H5 & H6 & _).
    exists a'. tauto.
  - destruct (Hstep (RequestApproval "document" "second draft" [] 7
                       Examples.t0' Examples.t0')) as (a' & Hget & Ha').
    exists a'. split; [exact Hget|].
    change (String.eqb (approval_id_of "document" Examples.t0' 7) (fst Examples.request_1))
      with true in Ha'.
    cbv iota in Ha'. rewrite Ha'. repeat split.
Defined.

(** C2, as stated, fails: approving a request that is already Rejected
    succeeds and changes status, approver, decision time and comments. *)
Lemma approve_after_reject_changes_record :
  option_map status
    (dict_get (pending_approvals Examples.after_reject) (fst Examples.request_1))
  = Some rejected /\
  option_map approved_by
    (dict_get (pending_approvals Examples.after_reject) (fst Examples.request_1))
  = Some (Some 2) /\
  (let out := approve Examples.after_reject (fst Examples.request_1)
                3 (Some "looks fine") None Examples.t2 in
   let stored := dict_get (pending_approvals (snd out)) (fst Examples.request_1) in
   option_map status stored = Some approved /\
   option_map approved_by stored = Some (Some 3) /\
   option_map approved_at stored = Some (Some Examples.t2) /\
   option_map comments stored = Some (Some "looks fine") /\
   get_approval_status (snd out) (fst Examples.request_1) = "approved").
Proof.
  vm_compute. repeat split; auto.
Qed.

(** C9 at requester id 0: the manager holds one pending request of requester
    0 and one of requester 7, and asking for the pending requests of
    requester 0 returns both. *)
Theorem get_pending_approvals_requester_zero :
  map requester_id (get_pending_approvals Examples.two_requesters (Some 0)) = [0; 7] /\
  map requester_id (get_pending_approvals Examples.two_requesters (Some 7)) = [7] /\
  get_pending_approvals Examples.two_requesters (Some 0)
  = get_pending_approvals Examples.two_requesters None.
Proof.
  vm_compute. repeat split; auto.
Qed.

End ApprovalFacts.

(** ** The feedback handler *)

Module FeedbackFacts.

Import FeedbackHandler PyFacts.

(** *** The rating check *)

Lemma rating_rejected_iff (r : Z) :
  (r <? 1) || (r >? 5) = true <-> r < 1 \/ r > 5.
Proof.
  destruct (Z.ltb_spec r 1), (Z.gtb_spec r 5); simpl; split; intros; try lia; auto.
Qed.

Lemma rating_accepted_iff (r : Z) :
  (r <? 1) || (r >? 5) = false <-> 1 <= r <= 5.
Proof.
  destruct (Z.ltb_spec r 1), (Z.gtb_spec r 5); simpl; split; intros;
    try lia; try discriminate; auto.
Qed.

(** *** Identifiers *)

Lemma feedback_id_of_inj (c1 c2 : Z) (n1 n2 : datetime) :
  feedback_id_of c1 n1 = feedback_id_of c2 n2 ->
  c1 = c2 /\ strftime_YmdHMS n1 = strftime_YmdHMS n2.
Proof.
  unfold feedback_id_of. simpl. intros H. injection H as H.
  assert (H' : ((str_of_int c1 ++ "_") ++ strftime_YmdHMS n1
              = (str_of_int c2 ++ "_") ++ strftime_YmdHMS n2)%string).
  { rewrite !append_assoc. exact H. }
  apply append_inj_same_length in H'; [|now rewrite !length_strftime].
  destruct H' as [Hc Hts].
  apply append_inj_same_length in Hc; [|reflexivity].
  split; [apply str_of_int_inj; tauto | exact Hts].
Qed.

(** *** The invariant holds after every history of calls *)

Lemma in_keys_dict_set {V : Type} (d : dict V) (k0 k : string) (v : V) :
  In k (dict_keys (dict_set d k0 v)) -> In k (dict_keys d) \/ k = k0.
Proof.
  unfold dict_keys. induction d as [|[k' v'] d IH]; simpl.
  - intros [<- | []]. now right.
  - destruct (String.eqb k0 k'); simpl; intros [H | H]; auto.
    destruct (IH H); auto.
Qed.

Lemma keys_below_counter_init : keys_below_counter init.
Proof. split; [simpl; lia | intros k []]. Qed.

Lemma keys_below_counter_step (self : handler) (c : call) :
  keys_below_counter self -> keys_below_counter (step self c).
Proof.
  intros [Hpos Hinv]. destruct c as [cid cty uid r cm si n1 n2 | fid fu n]; simpl.
  - unfold submit_feedback.
    destruct ((r <? 1) || (r >? 5)); simpl; (split; [simpl; lia|]);
      intros k Hk; simpl in Hk.
    + destruct (Hinv k Hk) as (c & now & -> & Hc).
      exists c, now. split; [reflexivity | simpl; lia].
    + apply in_keys_dict_set in Hk. destruct Hk as [Hk | ->].
      * destruct (Hinv k Hk) as (c & now & -> & Hc).
        exists c, now. split; [reflexivity | simpl; lia].
      * exists (feedback_counter self + 1), n1.
        split; [reflexivity | simpl; lia].
  - unfold mark_addressed.
    destruct (dict_get (feedback_store self) fid) as [f|] eqn:E; simpl.
    + split; [simpl; lia|]. intros k Hk. simpl in Hk.
      rewrite (dict_keys_set_present _ _ _ _ E) in Hk. now apply Hinv.
    + now split.
Qed.

Lemma keys_below_counter_fold (calls : list call) (self : handler) :
  keys_below_counter self -> keys_below_counter (fold_left step calls self).
Proof.
  revert self. induction calls as [|c calls IH]; intros self H; simpl.
  - exact H.
  - apply IH. now apply keys_below_counter_step.
Qed.

Lemma keys_below_counter_run (calls : list call) : keys_below_counter (run calls).
Proof. apply keys_below_counter_fold, keys_below_counter_init. Qed.

(** Under the invariant the next identifier is not a key of the store. *)
Lemma next_id_fresh (self : handler) (now : datetime) :
  keys_below_counter self ->
  dict_get (feedback_store self) (feedback_id_of (feedback_counter self + 1) now) = None.
Proof.
  intros [_ Hinv]. apply dict_get_None_iff. intros Hin.
  destruct (Hinv _ Hin) as (c & now' & Heq & Hc).
  apply feedback_id_of_inj in Heq. lia.
Qed.

(** *** Claims *)

(** C8: after any history of calls, [submit_feedback] raises the rating error
    exactly when the rating is below 1 or above 5; for a rating from 1 to 5 it
    returns an identifier that was not a key of the store and under which the
    new record, with that rating, is now stored. *)
Theorem submit_feedback_rating_check
    (calls : list call) (cid cty : string) (uid r : Z) (cm : option string)
    (si : option (list string)) (n1 n2 : datetime) :
  let self := run calls in
  let out := submit_feedback self cid cty uid r cm si n1 n2 in
  (fst out = Raise rating_error <-> r < 1 \/ r > 5) /\
  (1 <= r <= 5 ->
   exists fid,
     fst out = Ok fid /\
     dict_get (feedback_store self) fid = None /\
     exists f, dict_get (feedback_store (snd out)) fid = Some f /\
               id f = fid /\ rating f = r).
Proof.
  cbv zeta. unfold submit_feedback.
  destruct ((r <? 1) || (r >? 5)) eqn:E; simpl.
  - apply rating_rejected_iff in E. split; [tauto | lia].
  - apply rating_accepted_iff in E. split.
    + split; [discriminate | lia].
    + intros _. eexists. split; [reflexivity|]. split.
      * apply next_id_fresh, keys_below_counter_run.
      * eexists. split; [apply dict_get_set_same|]. split; reflexivity.
Qed.

(** Ratings 0 and 6 are refused, ratings 1 and 5 are stored under a fresh
    identifier, here after five earlier submissions. *)
Lemma submit_feedback_rating_check_boundaries :
  fst (submit_feedback Examples.five_ratings "a" "memo" 7 0 None None Examples.t1 Examples.t1)
  = Raise rating_error /\
  fst (submit_feedback Examples.five_ratings "a" "memo" 7 6 None None Examples.t1 Examples.t1)
  = Raise rating_error /\
  (exists fid,
      fst (submit_feedback Examples.five_ratings "a" "memo" 7 1 None None
             Examples.t1 Examples.t1) = Ok fid /\
      dict_get (feedback_store Examples.five_ratings) fid = None) /\
  (exists fid,
      fst (submit_feedback Examples.five_ratings "a" "memo" 7 5 None None
             Examples.t1 Examples.t1) = Ok fid /\
      dict_get (feedback_store Examples.five_ratings) fid = None).
Proof.
  pose proof (fun r => submit_feedback_rating_check
    [Examples.submit 5; Examples.submit 5; Examples.submit 4;
     Examples.submit 2; Examples.submit 1]
    "a" "memo" 7 r None None Examples.t1 Examples.t1) as H.
  cbv zeta in H. fold Examples.five_ratings in H.
  split; [apply (H 0); lia|].
  split; [apply (H 6); lia|].
  split.
  - destruct (H 1) as [_ H1]. destruct H1 as (fid & Hok & Hfresh & _); [lia|].
    exists fid. now split.
  - destruct (H 5) as [_ H5]. destruct H5 as (fid & Hok & Hfresh & _); [lia|].
    exists fid. now split.
Defined.

(** [submit_feedback] with a rating from 1 to 5: the id carries the counter
    plus one, and the counter has advanced by one. *)
Lemma accepted_submission_advances_counter
    (self : handler) (cid cty : string) (uid r : Z) (cm : option string)
    (si : option (list string)) (n1 n2 : datetime) :
  1 <= r <= 5 ->
  fst (submit_feedback self cid cty uid r cm si n1 n2)
  = Ok (feedback_id_of (feedback_counter self + 1) n1) /\
  feedback_counter (snd (submit_feedback self cid cty uid r cm si n1 n2))
  = feedback_counter self + 1.
Proof.
  intros Hr. apply rating_accepted_iff in Hr.
  unfold submit_feedback. rewrite Hr. split; reflexivity.
Qed.

(** C10: a submission refused for its rating leaves the store as it was and
    still advances the counter by one, as an accepted submission does.  So
    the next accepted submission is numbered two above the counter, where it
    would have been numbered one above without the refusal; and of two
    accepted submissions with the refused one between them, the first is
    numbered one above the counter and the second three above: the numbers of
    the assigned ids skip the one the refusal consumed. *)
Theorem refused_submission_consumes_counter
    (self : handler) (cid cty : string) (uid r : Z) (cm : option string)
    (si : option (list string)) (n1 n2 : datetime)
    (Hbad : r < 1 \/ r > 5) :
  let out := submit_feedback self cid cty uid r cm si n1 n2 in
  fst out = Raise rating_error /\
  feedback_store (snd out) = feedback_store self /\
  feedback_counter (snd out) = feedback_counter self + 1 /\
  (forall cid' cty' uid' r' cm' si' n1' n2',
      1 <= r' <= 5 ->
      let direct := submit_feedback self cid' cty' uid' r' cm' si' n1' n2' in
      let late := submit_feedback (snd out) cid' cty' uid' r' cm' si' n1' n2' in
      fst direct = Ok (feedback_id_of (feedback_counter self + 1) n1') /\
      feedback_counter (snd direct) = feedback_counter self + 1 /\
      fst late = Ok (feedback_id_of (feedback_counter self + 2) n1') /\
      feedback_counter (snd late) = feedback_counter self + 2) /\
  (forall cid1 cty1 uid1 r1 cm1 si1 a1 b1 cid2 cty2 uid2 r2 cm2 si2 a2 b2,
      1 <= r1 <= 5 -> 1 <= r2 <= 5 ->
      let first := submit_feedback self cid1 cty1 uid1 r1 cm1 si1 a1 b1 in
      let refused := submit_feedback (snd first) cid cty uid r cm si n1 n2 in
      let second := submit_feedback (snd refused) cid2 cty2 uid2 r2 cm2 si2 a2 b2 in
      fst first = Ok (feedback_id_of (feedback_counter self + 1) a1) /\
      fst refused = Raise rating_error /\
      feedback_store (snd refused) = feedback_store (snd first) /\
      fst second = Ok (feedback_id_of (feedback_counter self + 3) a2) /\
      feedback_counter (snd second) = feedback_counter self + 3).
Proof.
  assert (Hrefused : forall s,
            fst (submit_feedback s cid cty uid r cm si n1 n2) = Raise rating_error /\
            feedback_store (snd (submit_feedback s cid cty uid r cm si n1 n2))
            = feedback_store s /\
            feedback_counter (snd (submit_feedback s cid cty uid r cm si n1 n2))
            = feedback_counter s + 1).
  { intros s. apply rating_rejected_iff in Hbad.
    unfold submit_feedback. rewrite Hbad. repeat split. }
  cbv zeta. destruct (Hrefused self) as (Hr & Hs & Hc).
  split; [exact Hr|]. split; [exact Hs|]. split; [exact Hc|]. split.
  - intros cid' cty' uid' r' cm' si' n1' n2' Hr'.
    destruct (accepted_submission_advances_counter self cid' cty' uid' r' cm' si'
                n1' n2' Hr') as [Hd1 Hd2].
    destruct (accepted_submission_advances_counter
                (snd (submit_feedback self cid cty uid r cm si n1 n2))
                cid' cty' uid' r' cm' si' n1' n2' Hr') as [Hl1 Hl2].
    rewrite Hc in Hl1, Hl2.
    replace (feedback_counter self + 1 + 1) with (feedback_counter self + 2)
      in Hl1, Hl2 by lia.
    auto.
  - intros cid1 cty1 uid1 r1 cm1 si1 a1 b1 cid2 cty2 uid2 r2 cm2 si2 a2 b2 Hr1 Hr2.
    destruct (accepted_submission_advances_counter self cid1 cty1 uid1 r1 cm1 si1
                a1 b1 Hr1) as [Hf1 Hf2].
    set (first := submit_feedback self cid1 cty1 uid1 r1 cm1 si1 a1 b1) in *.
    destruct (Hrefused (snd first)) as (Hr' & Hs' & Hc').
    set (refused := submit_feedback (snd first) cid cty uid r cm si n1 n2) in *.
    destruct (accepted_submission_advances_counter (snd refused) cid2 cty2 uid2 r2
                cm2 si2 a2 b2 Hr2) as [Hs1 Hs2].
    rewrite Hc', Hf2 in Hs1, Hs2.
    replace (feedback_counter self + 1 + 1 + 1) with (feedback_counter self + 3)
      in Hs1, Hs2 by lia.
    auto 6.
Qed.

(** On a new handler: an accepted submission gets number 1, the refused one
    that follows leaves the store as it was, and the next accepted submission
    gets number 3; a refused submission coming first makes the first accepted
    one number 2. *)
Lemma refused_submission_consumes_counter_gap :
  let first := submit_feedback init "a" "memo" 7 4 None None Examples.t0 Examples.t0 in
  let refused := submit_feedback (snd first) "a" "memo" 7 0 None None
                   Examples.t0 Examples.t0 in
  let second := submit_feedback (snd refused) "a" "memo" 7 5 None None
                  Examples.t1 Examples.t1 in
  (0 < 1 \/ 0 > 5) /\
  fst first = Ok "feedback_1_20240315103000"%string /\
  fst refused = Raise rating_error /\
  feedback_store (snd refused) = feedback_store (snd first) /\
  fst second = Ok "feedback_3_20240315103100"%string /\
  fst (submit_feedback init "a" "memo" 7 0 None None Examples.t0 Examples.t0)
  = Raise rating_error /\
  feedback_store (snd (submit_feedback init "a" "memo" 7 0 None None Examples.t0 Examples.t0))
  = [] /\
  fst (submit_feedback
         (snd (submit_feedback init "a" "memo" 7 0 None None Examples.t0 Examples.t0))
         "a" "memo" 7 4 None None Examples.t1 Examples.t1)
  = Ok "feedback_2_20240315103100"%string.
Proof.
  cbv zeta.
  pose proof (refused_submission_consumes_counter init "a" "memo" 7 0 None None
                Examples.t0 Examples.t0 (or_introl eq_refl)) as H.
  cbv zeta in H. destruct H as (H1 & H2 & _ & H4 & H5).
  split; [left; lia|].
  destruct (H5 "a"%string "memo"%string 7 4 None None Examples.t0 Examples.t0
               "a"%string "memo"%string 7 5 None None Examples.t1 Examples.t1)
    as (G1 & G2 & G3 & G4 & _); [lia | lia |].
  split; [rewrite G1; reflexivity|]. split; [exact G2|]. split; [exact G3|].
  split; [rewrite G4; reflexivity|].
  split; [exact H1|]. split; [exact H2|].
  destruct (H4 "a"%string "memo"%string 7 4 None None Examples.t1 Examples.t1)
    as (_ & _ & H6 & _); [lia|].
  rewrite H6. reflexivity.
Defined.

(** C5 on the empty store, and under a filter matching nothing: the summary
    carries zero totals and empty collections and no ['percentage_positive']
    entry at all. *)
Theorem get_feedback_summary_empty_has_no_percentage :
  get_feedback_summary init None = mk_summary 0 (Int 0) [] [] None /\
  get_feedback_summary Examples.five_ratings (Some "memo"%string)
  = mk_summary 0 (Int 0) [] [] None /\
  percentage_positive (get_feedback_summary init None) <> Some (Int 0).
Proof.
  split; [reflexivity|]. split; [reflexivity|]. discriminate.
Qed.

(** The early return, for every handler and filter with nothing in scope. *)
Lemma get_feedback_summary_nothing_in_scope (self : handler) (t : string) :
  t <> EmptyString ->
  (forall f, In f (dict_values (feedback_store self)) -> content_type f <> t) ->
  get_feedback_summary self (Some t) = mk_summary 0 (Int 0) [] [] None.
Proof.
  intros Ht Hnone. unfold get_feedback_summary.
  destruct t as [|c t]; [contradiction|]. cbn [is_nonempty_str].
  assert (E : filter (fun f => String.eqb (content_type f) (String c t))
                     (dict_values (feedback_store self)) = []).
  { induction (dict_values (feedback_store self)) as [|f l IH]; [reflexivity|].
    simpl. destruct (String.eqb_spec (content_type f) (String c t)) as [Heq | Hne].
    - exfalso. apply (Hnone f); [now left | exact Heq].
    - apply IH. intros g Hg. apply Hnone. now right. }
  now rewrite E.
Qed.

(** C7, as amended: with the ratings 5, 5, 4, 2, 1 in the store and no
    filter, the summary counts 5 records, averages 17/5 = 3.4 as a binary64
    float, reports 60.0 percent positive (three of the five ratings are at
    least 4) and the distribution 1:1, 2:1, 3:0, 4:1, 5:2. *)
#[warnings="-inexact-float"] Theorem get_feedback_summary_five_ratings
    (self : handler)
    (Hratings : map rating (dict_values (feedback_store self)) = [5; 5; 4; 2; 1]) :
  let s := get_feedback_summary self None in
  total_feedback s = 5 /\
  average_rating s = Float 3.4%float /\
  average_rating s = Float (int_truediv 17 5) /\
  percentage_positive s = Some (Float 60%float) /\
  rating_distribution s = [(1, 1); (2, 1); (3, 0); (4, 1); (5, 2)].
Proof.
  cbv zeta. unfold get_feedback_summary. cbn [is_nonempty_str].
  assert (Hlen : List.length (dict_values (feedback_store self)) = 5%nat).
  { rewrite <- (length_map rating), Hratings. reflexivity. }
  destruct (dict_values (feedback_store self)) as [|f l] eqn:E; [discriminate|].
  cbn [total_feedback average_rating percentage_positive rating_distribution].
  rewrite Hratings. unfold len. rewrite Hlen.
  repeat split; vm_compute; reflexivity.
Qed.

Lemma get_feedback_summary_five_ratings_example :
  total_feedback (get_feedback_summary Examples.five_ratings None) = 5 /\
  percentage_positive (get_feedback_summary Examples.five_ratings None)
  = Some (Float 60%float).
Proof.
  pose proof (get_feedback_summary_five_ratings Examples.five_ratings eq_refl) as H.
  cbv zeta in H. tauto.
Defined.

(** C7, as stated, fails: five records rated 5, 5, 4, 2, 1 give 60.0 percent
    positive, which is not 40.0. *)
Lemma five_ratings_percentage_is_not_40 :
  map rating (dict_values (feedback_store Examples.five_ratings)) = [5; 5; 4; 2; 1] /\
  List.length (filter (fun r => r >=? 4) [5; 5; 4; 2; 1]) = 3%nat /\
  percentage_positive (get_feedback_summary Examples.five_ratings None)
  = Some (Float 60%float) /\
  PrimFloat.eqb 60 40 = false.
Proof.
  vm_compute. repeat split; reflexivity.
Qed.

End FeedbackFacts.

(** ** The orchestrator *)

Module OrchestratorFacts.

Import Orchestrator PyFacts.

(** *** Inversion of runs *)

Lemma bind_inv {A B : Type} (m : M A) (f : A -> M B) db h r db' out :
  bind m f db h = (r, db', out) ->
  (exists e, m db h = (Raise e, db', out) /\ r = Raise e) \/
  (exists a db1 out1 out2,
      m db h = (Ok a, db1, out1) /\
      f a db1 (h ++ out1)%list = (r, db', out2) /\
      out = (out1 ++ out2)%list).
Proof.
  unfold bind. destruct (m db h) as [[[a | e] db1] out1].
  - destruct (f a db1 (h ++ out1)%list) as [[r2 db2] out2] eqn:Ef.
    intros [= <- <- <-]. right. exists a, db1, out1, out2. auto.
  - intros [= <- <- <-]. left. exists e. auto.
Qed.

Lemma try_except_inv {A : Type} (label : string) (body : M A) db h r db' out :
  try_except label body db h = (r, db', out) ->
  (exists a, body db h = (Ok a, db', out) /\ r = Ok a) \/
  (exists e out1,
      body db h = (Raise e, db', out1) /\ r = Raise e /\
      out = (out1 ++ [Log ERROR (label ++ exn_str e)])%list).
Proof.
  unfold try_except. destruct (body db h) as [[[a | e] db1] out1].
  - intros [= <- <- <-]. left. exists a. auto.
  - intros [= <- <- <-]. right. exists e, out1. auto.
Qed.

Lemma execute_insert_inv (E : env) table rows store data db h r db' out :
  execute_insert E table rows store data db h = (r, db', out) ->
  (exists msg,
      insert_fault E h table data = Some msg /\
      r = Raise (DatabaseError msg) /\ db' = db /\
      out = [Insert table data (Raise (DatabaseError msg));
             Log ERROR ("Database error: " ++ msg)]) \/
  (insert_fault E h table data = None /\
   r = Ok (next_id (rows db)) /\
   db' = store db (rows db ++ [dict_set data "id" (VInt (next_id (rows db)))])%list /\
   out = [Insert table data (Ok (next_id (rows db)))]).
Proof.
  unfold execute_insert. destruct (insert_fault E h table data) as [msg|].
  - intros [= <- <- <-]. left. exists msg. auto.
  - intros [= <- <- <-]. right. auto.
Qed.

(** One step of inversion on a hypothesis that describes a run. *)
Ltac invert_run :=
  match goal with
  | H : bind _ _ _ _ = (_, _, _) |- _ =>
      let e := fresh "e" in let a := fresh "a" in
      let db1 := fresh "db" in let o1 := fresh "out" in let o2 := fresh "out" in
      let H1 := fresh "Hrun" in let Hr := fresh "Hr" in let Ho := fresh "Ho" in
      apply bind_inv in H;
      destruct H as [(e & H & Hr) | (a & db1 & o1 & o2 & H1 & H & Ho)];
      [try discriminate Hr | cbv beta in H]
  | H : try_except _ _ _ _ = (_, _, _) |- _ =>
      let e := fresh "e" in let a := fresh "a" in let o1 := fresh "out" in
      let Hr := fresh "Hr" in let Ho := fresh "Ho" in
      apply try_except_inv in H;
      destruct H as [(a & H & Hr) | (e & o1 & H & Hr & Ho)];
      try discriminate Hr
  | H : execute_insert _ _ _ _ _ _ _ = (_, _, _) |- _ =>
      let msg := fresh "msg" in let Hf := fresh "Hfault" in
      let Hr := fresh "Hr" in let Hd := fresh "Hd" in let Ho := fresh "Ho" in
      apply execute_insert_inv in H;
      destruct H as [(msg & Hf & Hr & Hd & Ho) | (Hf & Hr & Hd & Ho)];
      try discriminate Hr
  | H : ret _ _ _ = (_, _, _) |- _ => inversion H; clear H
  | H : raise _ _ _ = (_, _, _) |- _ => inversion H; clear H
  | H : log _ _ _ _ = (_, _, _) |- _ => inversion H; clear H
  | H : clock _ _ _ = (_, _, _) |- _ => inversion H; clear H
  | H : call_agent _ _ _ _ = (_, _, _) |- _ => inversion H; clear H
  | H : select_by_id _ _ _ _ _ = (_, _, _) |- _ => inversion H; clear H
  | H : get_case_documents _ _ _ _ = (_, _, _) |- _ => inversion H; clear H
  end.

(** *** Refused writes are never swallowed *)

Section RaisesThrough.
Context {A B : Type}.

Lemma rt_ret (a : A) : raises_through (ret a).
Proof. intros db h r db' out e [= <- <- <-] Hex. inversion Hex. Qed.

Lemma rt_raise (x : exn) : raises_through (@raise A x).
Proof. intros db h r db' out e [= <- <- <-] Hex. inversion Hex. Qed.

Lemma rt_bind (m : M A) (f : A -> M B) :
  raises_through m -> (forall a, raises_through (f a)) -> raises_through (bind m f).
Proof.
  unfold raises_through. intros Hm Hf db h r db' out e Hrun Hex.
  apply bind_inv in Hrun.
  destruct Hrun as [(x & Hrun & ->) | (a & db1 & out1 & out2 & Hrun1 & Hrun2 & ->)].
  - specialize (Hm _ _ _ _ _ _ Hrun Hex). now injection Hm as ->.
  - apply Exists_app in Hex. destruct Hex as [Hex | Hex].
    + specialize (Hm _ _ _ _ _ _ Hrun1 Hex). discriminate.
    + eapply Hf; eassumption.
Qed.

Lemma rt_try_except (label : string) (body : M A) :
  raises_through body -> raises_through (try_except label body).
Proof.
  unfold raises_through. intros Hb db h r db' out e Hrun Hex.
  apply try_except_inv in Hrun.
  destruct Hrun as [(a & Hrun & ->) | (x & out1 & Hrun & -> & ->)].
  - eapply Hb; eassumption.
  - apply Exists_app in Hex. destruct Hex as [Hex | Hex].
    + eapply Hb; eassumption.
    + inversion Hex as [? ? (t & d & Heq) | ? ? Hnil]; [discriminate | inversion Hnil].
Qed.

End RaisesThrough.

Lemma rt_log (lvl : level) (msg : string) : raises_through (log lvl msg).
Proof.
  intros db h r db' out e [= <- <- <-] Hex.
  inversion Hex as [? ? (t & d & Heq) | ? ? Hnil]; [discriminate | inversion Hnil].
Qed.

Lemma rt_clock (E : env) : raises_through (clock E).
Proof. intros db h r db' out e [= <- <- <-] Hex. inversion Hex. Qed.

Lemma rt_call_agent (E : env) (c : agent_call) : raises_through (call_agent E c).
Proof.
  intros db h r db' out e [= <- <- <-] Hex.
  inversion Hex as [? ? (t & d & Heq) | ? ? Hnil]; [discriminate | inversion Hnil].
Qed.

Lemma rt_select_by_id table rows key : raises_through (select_by_id table rows key).
Proof.
  intros db h r db' out e [= <- <- <-] Hex.
  inversion Hex as [? ? (t & d & Heq) | ? ? Hnil]; [discriminate | inversion Hnil].
Qed.

Lemma rt_get_case_documents (E : env) key : raises_through (get_case_documents E key).
Proof.
  intros db h r db' out e [= <- <- <-] Hex.
  inversion Hex as [? ? (t & d & Heq) | ? ? Hnil]; [discriminate | inversion Hnil].
Qed.

Lemma rt_execute_insert (E : env) table rows store data :
  raises_through (execute_insert E table rows store data).
Proof.
  intros db h r db' out e Hrun Hex.
  apply execute_insert_inv in Hrun.
  destruct Hrun as [(msg & _ & -> & _ & ->) | (_ & -> & _ & ->)].
  - inversion Hex as [? ? (t & d & Heq) | ? ? Htl]; subst.
    + now injection Heq as _ _ ->.
    + inversion Htl as [? ? (t & d & Heq) | ? ? Hnil]; [discriminate | inversion Hnil].
  - inversion Hex as [? ? (t & d & Heq) | ? ? Hnil]; [discriminate | inversion Hnil].
Qed.

(** Proves [raises_through] by following the shape of the operation. *)
Ltac raises_through_tac :=
  repeat first
    [ apply rt_bind; [|intros]
    | apply rt_try_except
    | apply rt_ret
    | apply rt_raise
    | apply rt_log
    | apply rt_clock
    | apply rt_call_agent
    | apply rt_select_by_id
    | apply rt_get_case_documents
    | apply rt_execute_insert
    | match goal with
      | |- raises_through (match ?x with _ => _ end) => destruct x
      end ].

Lemma rt_run_task (E : env) (t : task) : raises_through (run_task E t).
Proof.
  destruct t; simpl;
    unfold research_case_law, analyze_contract, assess_compliance,
      draft_legal_document, develop_litigation_strategy,
      get_lawyer_by_id, get_case_by_id, get_document_by_id,
      add_research_session, save_analysis_result, add_document,
      require_row, attr_get, slice_prefix;
    raises_through_tac.
Qed.

(** *** A failed task logs its error last *)

Lemma guarded_failure_is_logged {A : Type} lvl msg label (body : M A) db h e db' out :
  bind (log lvl msg) (fun _ => try_except label body) db h = (Raise e, db', out) ->
  exists out0, out = (out0 ++ [Log ERROR (label ++ exn_str e)])%list.
Proof.
  intros H. apply bind_inv in H.
  destruct H as [(x & H & _) | (a & db1 & out1 & out2 & _ & H & ->)].
  - discriminate H.
  - apply try_except_inv in H.
    destruct H as [(b & _ & Hr) | (x & out3 & _ & Hr & ->)]; [discriminate Hr|].
    injection Hr as <-. exists (out1 ++ out3)%list. now rewrite app_assoc.
Qed.

Lemma failed_task_is_logged (E : env) (t : task) db h e db' out :
  run_task E t db h = (Raise e, db', out) ->
  exists out0, out = (out0 ++ [Log ERROR (task_label t ++ exn_str e)])%list.
Proof.
  destruct t; cbn [run_task task_label]; intros H;
    exact (guarded_failure_is_logged _ _ _ _ _ _ _ _ _ H).
Qed.

Ltac find_event :=
  repeat first
    [ apply Exists_cons_hd; repeat eexists; reflexivity
    | apply Exists_cons_tl ].

(** *** Claims *)

(** C1, as amended: for each of the five task operations, when the
    generation call returned text and the write that follows is refused, the
    operation does not return the text: the error of the write is logged by
    the operation's handler and raised to the caller. *)
Theorem refused_write_fails_the_task
    (E : env) (t : task) (db : database) (h : list event)
    (r : result string) (db' : database) (out : list event)
    (text : string) (e : exn)
    (Hrun : run_task E t db h = (r, db', out))
    (Hgen : Exists (agent_returned text) out)
    (Hins : Exists (insert_refused e) out) :
  r = Raise e /\
  r <> Ok text /\
  exists out0, out = (out0 ++ [Log ERROR (task_label t ++ exn_str e)])%list.
Proof.
  assert (Hr : r = Raise e) by (eapply rt_run_task; eassumption).
  subst r. split; [reflexivity|]. split; [discriminate|].
  eapply failed_task_is_logged; exact Hrun.
Qed.

(** Case-law research with a known lawyer, a generation call that returns
    text, and a database that refuses the write. *)
Lemma refused_write_fails_research :
  fst (fst (run_task Examples.env_no_writes Examples.research_task Examples.db0 []))
  = Raise (DatabaseError "database is locked").
Proof.
  destruct (run_task Examples.env_no_writes Examples.research_task Examples.db0 [])
    as [[r db'] out] eqn:Hrun.
  simpl.
  refine (proj1 (refused_write_fails_the_task _ _ _ _ _ _ _ "generated text"%string
                   _ Hrun _ _));
    vm_compute in Hrun; injection Hrun as <- <- <-; find_event.
Defined.

(** C1, as stated, fails: both for case-law research and for contract
    analysis the generation call returns text, the write is refused, and the
    caller gets the database error instead of the text. *)
Lemma refused_write_is_visible_to_caller :
  (let run := run_task Examples.env_no_writes Examples.research_task Examples.db0 [] in
   Exists (agent_returned "generated text"%string) (snd run) /\
   Exists (insert_refused (DatabaseError "database is locked")) (snd run) /\
   fst (fst run) = Raise (DatabaseError "database is locked")) /\
  (let run := run_task Examples.env_no_writes Examples.contract_task Examples.db0 [] in
   Exists (agent_returned "generated text"%string) (snd run) /\
   Exists (insert_refused (DatabaseError "database is locked")) (snd run) /\
   fst (fst run) = Raise (DatabaseError "database is locked")).
Proof.
  cbv zeta. split; (split; [|split]); vm_compute; try reflexivity; find_event.
Qed.

(** The three operations that look the requester up stop at the lookup: an
    unknown requester (or, for the litigation strategy, an unknown case
    before it) raises the not-found error with no agent call, no write and
    the database as it was. *)
Lemma unknown_requester_fails_fast
    (E : env) (t : task) (db : database) (h : list event)
    (Hchk : checks_requester t = true)
    (Hunk : lookup_lawyer db (requester_of t) = None) :
  exists e out,
    run_task E t db h = (Raise e, db, out) /\
    (e = lawyer_not_found (requester_of t) \/ exists c, e = case_not_found c) /\
    existsb is_agent_call out = false /\
    existsb is_insert out = false.
Proof.
  unfold lookup_lawyer in Hunk.
  destruct t as [l kw | l c kw | l kw | l ty kw | l c kw]; try discriminate Hchk;
    cbn [requester_of] in Hunk; cbn [run_task requester_of].
  - unfold research_case_law, bind, try_except, log, emit, get_lawyer_by_id,
      select_by_id, require_row, raise. rewrite Hunk.
    do 2 eexists. split; [reflexivity|]. split; [now left|]. split; reflexivity.
  - unfold assess_compliance, bind, try_except, log, emit, get_lawyer_by_id,
      select_by_id, require_row, raise. rewrite Hunk.
    do 2 eexists. split; [reflexivity|]. split; [now left|]. split; reflexivity.
  - unfold develop_litigation_strategy, bind, try_except, log, emit,
      get_lawyer_by_id, get_case_by_id, select_by_id, require_row, raise, ret.
    destruct (find (column_is "id" (VInt c)) (cases db)) as [[|kv row]|].
    + do 2 eexists. split; [reflexivity|]. split; [right; now exists c|].
      split; reflexivity.
    + rewrite Hunk.
      do 2 eexists. split; [reflexivity|]. split; [now left|]. split; reflexivity.
    + do 2 eexists. split; [reflexivity|]. split; [right; now exists c|].
      split; reflexivity.
Qed.

(** C4 for contract analysis and document drafting: with a requester that is
    not in the lawyers table, agents that return text and a database that
    accepts writes, both operations never look the requester up, call the
    agent, store a record under the unknown requester and return the text. *)
Theorem unchecked_requester_reaches_generation
    (E : env) (lawyer_id : Z) (kwargs : dict pyval) (db : database)
    (h : list event) (text : string)
    (Hgen : forall h' c, agent E h' c = Ok text)
    (Hdb : forall h' table data, insert_fault E h' table data = None)
    (Hunk : lookup_lawyer db lawyer_id = None) :
  (exists db' out,
      run_task E (AnalyzeContract lawyer_id None kwargs) db h = (Ok text, db', out) /\
      existsb is_lawyer_lookup out = false /\
      Exists (agent_returned text) out /\
      Exists (fun r => get_none r "lawyer_id" = VInt lawyer_id) (analysis_results db')) /\
  (exists db' out,
      run_task E (DraftDocument lawyer_id "memo" kwargs) db h = (Ok text, db', out) /\
      existsb is_lawyer_lookup out = false /\
      Exists (agent_returned text) out /\
      Exists (fun r => get_none r "lawyer_id" = VInt lawyer_id) (legal_documents db')).
Proof.
  split.
  - cbn [run_task].
    unfold analyze_contract, bind, try_except, log, emit, ret, call_agent,
      save_analysis_result, execute_insert.
    rewrite Hgen, Hdb.
    do 2 eexists. split; [reflexivity|]. split; [reflexivity|]. split.
    + find_event.
    + cbn [analysis_results]. apply Exists_app. right.
      apply Exists_cons_hd. reflexivity.
  - cbn [run_task].
    unfold draft_legal_document, bind, try_except, log, emit, ret, call_agent,
      clock, add_document, execute_insert.
    cbn [drafting_method String.eqb Ascii.eqb Bool.eqb].
    rewrite Hgen, Hdb.
    do 2 eexists. split; [reflexivity|]. split; [reflexivity|]. split.
    + find_event.
    + cbn [legal_documents]. apply Exists_app. right.
      apply Exists_cons_hd. reflexivity.
Qed.

(** Requester 99 is unknown to [db0]; contract analysis and drafting return
    the generated text all the same. *)
Lemma unchecked_requester_99 :
  lookup_lawyer Examples.db0 99 = None /\
  fst (fst (run_task Examples.env_ok Examples.orphan_contract_task Examples.db0 []))
  = Ok "generated text"%string /\
  fst (fst (run_task Examples.env_ok Examples.orphan_draft_task Examples.db0 []))
  = Ok "generated text"%string.
Proof.
  split; [reflexivity|].
  destruct (unchecked_requester_reaches_generation Examples.env_ok 99
              [("contract_text"%string, VStr "The parties agree ...")]
              Examples.db0 [] "generated text"%string
              (fun _ _ => eq_refl) (fun _ _ _ => eq_refl) eq_refl)
    as [(db1 & out1 & H1 & _) _].
  destruct (unchecked_requester_reaches_generation Examples.env_ok 99
              [("title"%string, VStr "Memo on venue")]
              Examples.db0 [] "generated text"%string
              (fun _ _ => eq_refl) (fun _ _ _ => eq_refl) eq_refl)
    as [_ (db2 & out2 & H2 & _)].
  unfold Examples.orphan_contract_task, Examples.orphan_draft_task.
  rewrite H1, H2. split; reflexivity.
Defined.

(** *** The document step of the comprehensive analysis *)

Lemma contract_analyses_app (a b : list event) :
  contract_analyses (a ++ b) = (contract_analyses a ++ contract_analyses b)%list.
Proof.
  induction a as [|e a IH]; simpl; [reflexivity|].
  destruct (contract_analysis_of e); simpl; now rewrite IH.
Qed.

(** A contract analysis that returns has filed exactly one record, under the
    contract id it was given (0 for none). *)
Lemma analyze_contract_files_one_record
    (E : env) (lawyer_id : Z) (contract_id : option Z) (kwargs : dict pyval)
    db h text db' out :
  analyze_contract E lawyer_id contract_id kwargs db h = (Ok text, db', out) ->
  contract_analyses out = [match contract_id with Some c => c | None => 0 end].
Proof.
  intros H. unfold analyze_contract, save_analysis_result in H.
  repeat invert_run.
  destruct contract_id as [cid|]; [destruct (cid =? 0)|];
    unfold get_document_by_id, attr_get in *;
    repeat first
      [ invert_run
      | match goal with
        | H : (match ?x with _ => _ end) _ _ = (_, _, _) |- _ => destruct x
        end ];
    subst; reflexivity.
Qed.

(** A contract analysis that raises has filed no record. *)
Lemma failed_analyze_contract_files_nothing
    (E : env) (lawyer_id : Z) (contract_id : option Z) (kwargs : dict pyval)
    db h e db' out :
  analyze_contract E lawyer_id contract_id kwargs db h = (Raise e, db', out) ->
  contract_analyses out = [].
Proof.
  intros H. unfold analyze_contract, save_analysis_result in H.
  repeat invert_run;
    (destruct contract_id as [cid|]; [destruct (cid =? 0)|]);
    unfold get_document_by_id, attr_get in *;
    repeat first
      [ invert_run
      | match goal with
        | H : (match ?x with _ => _ end) _ _ = (_, _, _) |- _ => destruct x
        end ];
    subst; try discriminate; reflexivity.
Qed.

Lemma document_id_or_zero (doc : row) :
  match document_id doc with Some c => c | None => 0 end = row_id doc.
Proof.
  unfold document_id, row_id, get_none, get.
  destruct (dict_get doc "id") as [[] |]; reflexivity.
Qed.

(** The loop files one record per contract-type document of its list, in
    order, and stops at the first analysis that raises. *)
Lemma analyze_each_files_in_order (E : env) (lawyer_id : Z) (docs : list row) :
  forall acc db h r db' out,
    analyze_each E lawyer_id docs acc db h = (r, db', out) ->
    let selected := filter is_contract_document docs in
    match r with
    | Ok analyses =>
        contract_analyses out = map row_id selected /\
        exists new, analyses = (acc ++ new)%list /\
                    List.length new = List.length selected
    | Raise _ =>
        exists n, (n < List.length selected)%nat /\
                  contract_analyses out = firstn n (map row_id selected)
    end.
Proof.
  induction docs as [|doc rest IH]; intros acc db h r db' out H; cbn [analyze_each] in H.
  - injection H as <- <- <-. cbn. split; [reflexivity|].
    exists []. now rewrite app_nil_r.
  - cbn [filter]. destruct (is_contract_document doc).
    + apply bind_inv in H.
      destruct H as [(e & H & ->) | (a & db1 & out1 & out2 & H1 & H2 & ->)].
      * apply failed_analyze_contract_files_nothing in H.
        exists 0%nat. cbn. split; [lia | exact H].
      * apply analyze_contract_files_one_record in H1.
        rewrite document_id_or_zero in H1.
        apply IH in H2. cbv zeta in H2. rewrite contract_analyses_app, H1.
        destruct r as [analyses | e].
        -- destruct H2 as (Hout & new & -> & Hlen). split.
           ++ cbn. now rewrite Hout.
           ++ exists (a :: new). split; [now rewrite <- app_assoc | cbn; now rewrite Hlen].
        -- destruct H2 as (n & Hn & Hout). exists (S n). split; [cbn; lia|].
           cbn. now rewrite Hout.
    + exact (IH _ _ _ _ _ _ H).
Qed.

(** *** Research and strategy file no contract analysis *)

Section NoContractAnalysis.
Context {A B : Type}.

Lemma nc_ret (a : A) : files_no_contract_analysis (ret a).
Proof. intros db h r db' out [= <- <- <-]. now split. Qed.

Lemma nc_raise (x : exn) : files_no_contract_analysis (@raise A x).
Proof. intros db h r db' out [= <- <- <-]. now split. Qed.

Lemma nc_bind (m : M A) (f : A -> M B) :
  files_no_contract_analysis m ->
  (forall a, files_no_contract_analysis (f a)) ->
  files_no_contract_analysis (bind m f).
Proof.
  intros Hm Hf db h r db' out Hrun. apply bind_inv in Hrun.
  destruct Hrun as [(x & Hrun & ->) | (a & db1 & out1 & out2 & Hrun1 & Hrun2 & ->)].
  - exact (Hm _ _ _ _ _ Hrun).
  - destruct (Hm _ _ _ _ _ Hrun1) as [Ho1 Hd1].
    destruct (Hf _ _ _ _ _ _ Hrun2) as [Ho2 Hd2].
    rewrite contract_analyses_app, Ho1, Ho2, Hd2, Hd1. now split.
Qed.

Lemma nc_try_except (label : string) (body : M A) :
  files_no_contract_analysis body ->
  files_no_contract_analysis (try_except label body).
Proof.
  intros Hb db h r db' out Hrun. apply try_except_inv in Hrun.
  destruct Hrun as [(a & Hrun & ->) | (x & out1 & Hrun & -> & ->)].
  - exact (Hb _ _ _ _ _ Hrun).
  - destruct (Hb _ _ _ _ _ Hrun) as [Ho Hd].
    rewrite contract_analyses_app, Ho. now split.
Qed.

End NoContractAnalysis.

Lemma nc_log (lvl : level) (msg : string) : files_no_contract_analysis (log lvl msg).
Proof. intros db h r db' out [= <- <- <-]. now split. Qed.

Lemma nc_call_agent (E : env) (c : agent_call) :
  files_no_contract_analysis (call_agent E c).
Proof. intros db h r db' out [= <- <- <-]. now split. Qed.

Lemma nc_select_by_id table rows key :
  files_no_contract_analysis (select_by_id table rows key).
Proof. intros db h r db' out [= <- <- <-]. now split. Qed.

(** A write files no contract analysis when its record is not one, and
    keeps the documents when it goes to another table. *)
Lemma nc_execute_insert (E : env) table rows store data :
  (forall new_id, contract_analysis_of (Insert table data (Ok new_id)) = None) ->
  (forall db t, legal_documents (store db t) = legal_documents db) ->
  files_no_contract_analysis (execute_insert E table rows store data).
Proof.
  intros Hrecord Hstore db h r db' out Hrun. apply execute_insert_inv in Hrun.
  destruct Hrun as [(msg & _ & _ & -> & ->) | (_ & _ & -> & ->)].
  - now split.
  - cbn [contract_analyses]. rewrite Hrecord, Hstore. now split.
Qed.

Ltac no_contract_analysis_tac :=
  repeat match goal with
    | |- files_no_contract_analysis (bind _ _) => apply nc_bind; [|intros ?]
    | |- files_no_contract_analysis (try_except _ _) => apply nc_try_except
    | |- files_no_contract_analysis (ret _) => apply nc_ret
    | |- files_no_contract_analysis (raise _) => apply nc_raise
    | |- files_no_contract_analysis (log _ _) => apply nc_log
    | |- files_no_contract_analysis (call_agent _ _) => apply nc_call_agent
    | |- files_no_contract_analysis (select_by_id _ _ _) => apply nc_select_by_id
    | |- files_no_contract_analysis (execute_insert _ _ _ _ _) =>
        apply nc_execute_insert; intros; reflexivity
    | |- files_no_contract_analysis (require_row ?x _) => unfold require_row
    | |- files_no_contract_analysis (slice_prefix _ ?x) => unfold slice_prefix
    | |- files_no_contract_analysis (match ?x with _ => _ end) => destruct x
    | |- files_no_contract_analysis (if ?x then _ else _) => destruct x
    | |- _ => progress cbv beta zeta
    end.

Lemma nc_research_case_law (E : env) (lawyer_id : Z) (kwargs : dict pyval) :
  files_no_contract_analysis (research_case_law E lawyer_id kwargs).
Proof.
  unfold research_case_law, get_lawyer_by_id, get_case_by_id, add_research_session.
  no_contract_analysis_tac.
Qed.

Lemma nc_develop_litigation_strategy (E : env) (lawyer_id case_id : Z)
    (kwargs : dict pyval) :
  files_no_contract_analysis (develop_litigation_strategy E lawyer_id case_id kwargs).
Proof.
  unfold develop_litigation_strategy, get_lawyer_by_id, get_case_by_id,
    save_analysis_result.
  no_contract_analysis_tac.
Qed.

(** The document step on the list it is given. *)
Lemma analyze_case_documents_files_in_order
    (E : env) (lawyer_id : Z) (documents : list row) db h r db' out :
  analyze_case_documents E lawyer_id documents db h = (r, db', out) ->
  let selected := filter is_contract_document (firstn 3 documents) in
  match r with
  | Ok None => documents = [] /\ contract_analyses out = map row_id selected
  | Ok (Some analyses) =>
      documents <> [] /\ contract_analyses out = map row_id selected /\
      List.length analyses = List.length selected
  | Raise _ => exists n, contract_analyses out = firstn n (map row_id selected)
  end.
Proof.
  cbv zeta. unfold analyze_case_documents. intros Hrun.
  destruct documents as [|doc rest].
  - injection Hrun as <- <- <-. now split.
  - apply bind_inv in Hrun.
    destruct Hrun as [(e & Hrun & _) | (u & db1 & out1 & out2 & Hlog & Hrun & ->)];
      [discriminate Hrun|].
    injection Hlog as _ <- <-.
    apply bind_inv in Hrun.
    destruct Hrun as [(e & Hrun & ->) | (a & db2 & out3 & out4 & Hrun & Hret & ->)].
    + apply analyze_each_files_in_order in Hrun. cbv zeta in Hrun.
      destruct Hrun as (n & _ & Hout). exists n. exact Hout.
    + injection Hret as <- <- <-.
      apply analyze_each_files_in_order in Hrun. cbv zeta in Hrun.
      destruct Hrun as (Hout & new & -> & Hlen).
      rewrite app_nil_r. cbn [Datatypes.app contract_analyses contract_analysis_of].
      split; [discriminate|]. split; [exact Hout | exact Hlen].
Qed.

(** C6, as amended: the comprehensive analysis reads the documents attached
    to the referenced case as [get_case_documents] returns them on the
    database it starts from (in the order of the engine, newest first), takes
    the first 3 of them and analyses those of the 3 that are
    contract-type documents ('contract' or 'agreement'), in order.  There are
    at most 3 such analyses.  When the operation returns, one contract
    analysis has been filed for each of these documents and for no other, and
    the bundle holds as many analyses (no list at all when the case has no
    document); when it raises, the analyses filed are the first few of
    these. *)
Theorem document_step_covers_contracts_among_first_three
    (E : env) (lawyer_id case_id : Z) (db : database) (h : list event)
    (r : result analysis_bundle) (db' : database) (out : list event)
    (Hrun : comprehensive_case_analysis E lawyer_id case_id db h = (r, db', out)) :
  let attached :=
    filter (column_is "case_id" (VInt case_id)) (legal_documents db) in
  let documents := order_by_creation_date_desc E attached in
  let selected := filter is_contract_document (firstn 3 documents) in
  (forall h', fst (fst (get_case_documents E (VInt case_id) db h')) = Ok documents) /\
  (List.length selected <= 3)%nat /\
  match r with
  | Ok bundle =>
      contract_analyses out = map row_id selected /\
      match document_analyses bundle with
      | None => documents = []
      | Some analyses =>
          documents <> [] /\ List.length analyses = List.length selected
      end
  | Raise _ => exists n, contract_analyses out = firstn n (map row_id selected)
  end.
Proof.
  cbv zeta. split; [reflexivity|]. split.
  { etransitivity; [apply filter_length_le|]. apply firstn_le_length. }
  unfold comprehensive_case_analysis, get_case_by_id in Hrun.
  repeat invert_run; subst;
    repeat match goal with
           | H : attr_get ?c _ _ _ = _ |- _ => destruct c; cbn [attr_get] in H
           end;
    repeat invert_run; subst.
  all: repeat match goal with
       | H : research_case_law _ _ _ _ _ = _ |- _ =>
           apply nc_research_case_law in H; destruct H as [? ?]
       | H : develop_litigation_strategy _ _ _ _ _ _ = _ |- _ =>
           apply nc_develop_litigation_strategy in H; destruct H as [? ?]
       | H : analyze_case_documents _ _ _ _ _ = _ |- _ =>
           apply analyze_case_documents_files_in_order in H; cbv zeta in H
       end.
  all: rewrite ?contract_analyses_app;
    repeat match goal with
           | H : contract_analyses _ = [] |- _ => rewrite H; clear H
           | H : legal_documents _ = legal_documents _ |- _ =>
               rewrite H in *; clear H
           end;
    cbn [contract_analyses contract_analysis_of Datatypes.app document_analyses];
    rewrite ?app_nil_r.
  all: try (exists 0%nat; reflexivity).
  - match goal with
    | H : match ?a with Some _ => _ | None => _ end |- _ => destruct a; tauto
    end.
  - assumption.
Qed.

(** The documents table holds a contract of another case, then a contract, a
    memo, an agreement and another contract of case 10: the comprehensive
    analysis of case 10 files the analyses of documents 4 and 6 and returns
    two analyses. *)
Lemma document_step_on_mixed_documents :
  let run := comprehensive_case_analysis Examples.env_ok 1 10 Examples.db_mixed [] in
  (exists bundle,
      fst (fst run) = Ok bundle /\
      option_map (@List.length string) (document_analyses bundle) = Some 2%nat) /\
  contract_analyses (snd run) = [4; 6].
Proof.
  cbv zeta.
  destruct (comprehensive_case_analysis Examples.env_ok 1 10 Examples.db_mixed [])
    as [[r db'] out] eqn:Hrun.
  assert (Hok : exists bundle, r = Ok bundle).
  { vm_compute in Hrun. injection Hrun as <- _ _. eexists. reflexivity. }
  destruct Hok as [bundle ->].
  pose proof (document_step_covers_contracts_among_first_three _ _ _ _ _ _ _ _ Hrun) as H.
  cbv zeta in H. destruct H as (_ & _ & Hfiled & Hbundle).
  cbn [fst snd]. split; [|exact Hfiled].
  exists bundle. split; [reflexivity|].
  destruct (document_analyses bundle) as [analyses|]; [|discriminate Hbundle].
  destruct Hbundle as [_ Hlen]. cbn [option_map]. rewrite Hlen. reflexivity.
Defined.

(** C6, as stated, fails: the case has four contract-type documents, listed
    after three other documents; the comprehensive analysis returns with an
    empty list of analyses and files no contract analysis, although the first
    three contract-type documents are 4, 5 and 6. *)
Lemma contracts_after_third_document_are_skipped :
  map row_id (firstn 3 (filter is_contract_document Examples.documents_of_case_10))
  = [4; 5; 6] /\
  (exists research strategy,
      fst (fst (comprehensive_case_analysis Examples.env_ok 1 10 Examples.db0 []))
      = Ok (mk_bundle research strategy (Some []))) /\
  contract_analyses
    (snd (comprehensive_case_analysis Examples.env_ok 1 10 Examples.db0 []))
  = [].
Proof.
  split; [reflexivity|]. split.
  - do 2 eexists. vm_compute. reflexivity.
  - vm_compute. reflexivity.
Qed.

End OrchestratorFacts.

(** * Further properties of the modelled code *)

(** ** [sorted] and the order of [datetime] values *)

Module SortFacts.

Section Sort.
Context {A : Type} (leb : A -> A -> bool).

Lemma insert_sorted_perm (x : A) (l : list A) :
  Permutation (insert_sorted leb x l) (x :: l).
Proof.
  induction l as [|y l IH]; simpl; [apply Permutation_refl|].
  destruct (leb x y); [apply Permutation_refl|].
  eapply perm_trans; [apply perm_skip, IH | apply perm_swap].
Qed.

Lemma sorted_by_perm (l : list A) : Permutation (sorted_by leb l) l.
Proof.
  induction l as [|x l IH]; simpl; [constructor|].
  eapply perm_trans; [apply insert_sorted_perm | now apply perm_skip].
Qed.

Lemma in_sorted_by (l : list A) (a : A) : In a (sorted_by leb l) <-> In a l.
Proof.
  split; apply Permutation_in;
    [apply sorted_by_perm | apply Permutation_sym, sorted_by_perm].
Qed.

Lemma length_sorted_by (l : list A) : List.length (sorted_by leb l) = List.length l.
Proof. apply Permutation_length, sorted_by_perm. Qed.

Hypothesis leb_total : forall a b, leb a b = true \/ leb b a = true.
Hypothesis leb_trans : forall a b c, leb a b = true -> leb b c = true -> leb a c = true.

Lemma insert_sorted_sorted (x : A) (l : list A) :
  StronglySorted (fun a b => leb a b = true) l ->
  StronglySorted (fun a b => leb a b = true) (insert_sorted leb x l).
Proof.
  induction 1 as [|y l Hs IH Hall]; simpl.
  - repeat constructor.
  - destruct (leb x y) eqn:E.
    + constructor; [now constructor|].
      constructor; [exact E|].
      eapply Forall_impl; [|exact Hall]. intros z Hz. eapply leb_trans; eassumption.
    + constructor; [exact IH|].
      apply Forall_forall. intros z Hz.
      apply (Permutation_in _ (insert_sorted_perm x l)) in Hz.
      destruct Hz as [<- | Hz].
      * destruct (leb_total x y) as [H | H]; [congruence | exact H].
      * rewrite Forall_forall in Hall. now apply Hall.
Qed.

Lemma sorted_by_sorted (l : list A) :
  StronglySorted (fun a b => leb a b = true) (sorted_by leb l).
Proof.
  induction l as [|x l IH]; simpl; [constructor | now apply insert_sorted_sorted].
Qed.

End Sort.

(** Elements that may stand before one another keep the order they had. *)
Lemma sorted_by_stable {A : Type} (leb : A -> A -> bool) (p : A -> bool) (l : list A) :
  (forall x y, p x = true -> p y = true -> leb x y = true) ->
  filter p (sorted_by leb l) = filter p l.
Proof.
  intros Hp.
  assert (Hins : forall x l', filter p (insert_sorted leb x l') = filter p (x :: l')).
  { intros x l'. induction l' as [|y l' IH]; [reflexivity|].
    cbn [insert_sorted]. destruct (leb x y) eqn:E; [reflexivity|].
    cbn [filter] in *. destruct (p y) eqn:Py, (p x) eqn:Px; rewrite IH; try reflexivity.
    rewrite (Hp x y Px Py) in E. discriminate. }
  induction l as [|x l IH]; [reflexivity|].
  cbn [sorted_by fold_right]. fold (sorted_by leb l).
  rewrite Hins. cbn [filter]. now rewrite IH.
Qed.

Lemma lex_leb_total (a b : list Z) : lex_leb a b = true \/ lex_leb b a = true.
Proof.
  revert b. induction a as [|x a IH]; intros [|y b]; simpl; auto.
  destruct (Z.ltb_spec x y), (Z.ltb_spec y x), (Z.eqb_spec x y), (Z.eqb_spec y x);
    auto; lia.
Qed.

Lemma lex_leb_trans (a b c : list Z) :
  lex_leb a b = true -> lex_leb b c = true -> lex_leb a c = true.
Proof.
  revert b c. induction a as [|x a IH]; intros [|y b] [|z c]; simpl; auto;
    try discriminate.
  destruct (Z.ltb_spec x y), (Z.ltb_spec y z), (Z.ltb_spec x z),
    (Z.eqb_spec x y), (Z.eqb_spec y z), (Z.eqb_spec x z);
    try discriminate; try lia; auto.
  apply IH.
Qed.

Lemma datetime_leb_total (a b : datetime) :
  datetime_leb a b = true \/ datetime_leb b a = true.
Proof. apply lex_leb_total. Qed.

Lemma datetime_leb_trans (a b c : datetime) :
  datetime_leb a b = true -> datetime_leb b c = true -> datetime_leb a c = true.
Proof. apply lex_leb_trans. Qed.

Lemma strongly_sorted_weaken {A : Type} (R R' : A -> A -> Prop) (l : list A) :
  (forall a b, R a b -> R' a b) -> StronglySorted R l -> StronglySorted R' l.
Proof.
  intros Himp. induction 1 as [|x l Hs IH Hall]; constructor; auto.
  eapply Forall_impl; [|exact Hall]. intros b. apply Himp.
Qed.

Lemma strongly_sorted_app_inv {A : Type} (R : A -> A -> Prop) (l1 l2 : list A) :
  StronglySorted R (l1 ++ l2) ->
  StronglySorted R l1 /\ forall a b, In a l1 -> In b l2 -> R a b.
Proof.
  induction l1 as [|x l1 IH]; cbn [Datatypes.app]; intros H.
  - split; [constructor | intros a b []].
  - inversion H as [|? ? Hs Hall]; subst. destruct (IH Hs) as [Hs1 Hcross].
    rewrite Forall_app in Hall. destruct Hall as [Hall1 Hall2].
    split; [now constructor|].
    intros a b [<- | Ha] Hb; [|auto].
    rewrite Forall_forall in Hall2. auto.
Qed.

End SortFacts.

(** ** More on the approval workflow *)

Module ApprovalExtra.

Import ApprovalManager PyFacts SortFacts.

(** *** Association lists under [dict_set] *)

Lemma in_keys_of_in {V : Type} (d : dict V) (k : string) (a : V) :
  In (k, a) d -> In k (dict_keys d).
Proof. intros H. apply (in_map fst) in H. exact H. Qed.

Lemma in_dict_set_inv {V : Type} (d : dict V) (k k' : string) (v a : V) :
  NoDup (dict_keys d) ->
  In (k', a) (dict_set d k v) ->
  (k' = k /\ a = v) \/ (k' <> k /\ In (k', a) d).
Proof.
  induction d as [|[k0 v0] d IH]; simpl; intros Hnd.
  - intros [[= <- <-] | []]. now left.
  - inversion Hnd as [|? ? Hnotin Hnd']; subst.
    destruct (String.eqb_spec k k0) as [-> | Hne]; simpl.
    + intros [[= <- <-] | H]; [now left|].
      right. split; [|now right].
      intros ->. apply Hnotin. eapply in_keys_of_in; eassumption.
    + intros [[= <- <-] | H].
      * right. split; [congruence | now left].
      * destruct (IH Hnd' H) as [? | [? ?]]; [now left | right; split; auto].
Qed.

Lemma in_dict_set_other {V : Type} (d : dict V) (k k' : string) (v a : V) :
  k' <> k -> In (k', a) d -> In (k', a) (dict_set d k v).
Proof.
  intros Hne. induction d as [|[k0 v0] d IH]; simpl; [tauto|].
  destruct (String.eqb_spec k k0) as [-> | Hne0]; simpl.
  - intros [[= -> ->] | H]; [congruence | now right].
  - intros [H | H]; [now left | right; auto].
Qed.

Lemma in_of_dict_get {V : Type} (d : dict V) (k : string) (a : V) :
  dict_get d k = Some a -> In (k, a) d.
Proof.
  induction d as [|[k0 v0] d IH]; simpl; [discriminate|].
  destruct (String.eqb_spec k k0) as [-> | Hne].
  - intros [= ->]. now left.
  - intros H. right. auto.
Qed.

Lemma in_values_iff {V : Type} (d : dict V) (a : V) :
  In a (dict_values d) <-> exists k, In (k, a) d.
Proof.
  unfold dict_values. rewrite in_map_iff. split.
  - intros ([k v] & <- & H). now exists k.
  - intros (k & H). now exists (k, a).
Qed.

Lemma nodup_keys_dict_set {V : Type} (d : dict V) (k : string) (v : V) :
  NoDup (dict_keys d) -> NoDup (dict_keys (dict_set d k v)).
Proof.
  intros Hnd. destruct (dict_get d k) as [v0|] eqn:E.
  - now rewrite (dict_keys_set_present _ _ _ _ E).
  - rewrite (dict_keys_set_absent _ _ _ E).
    apply NoDup_app; [exact Hnd | repeat constructor; tauto |].
    intros x Hx [<- | []]. now apply dict_get_None_iff in E.
Qed.

(** *** The store stays well keyed *)

Lemma well_keyed_set (self : manager) (k : string) (v : approval_request) :
  well_keyed self -> id v = k ->
  well_keyed (mk_manager (dict_set (pending_approvals self) k v)).
Proof.
  intros [Hnd Hid] Hv. split; cbn [pending_approvals].
  - now apply nodup_keys_dict_set.
  - intros k' a Hin. apply (in_dict_set_inv _ _ _ _ _ Hnd) in Hin.
    destruct Hin as [[-> ->] | [_ Hin]]; auto.
Qed.

Lemma well_keyed_init : well_keyed init.
Proof. split; [constructor | intros k a []]. Qed.

Lemma well_keyed_step (self : manager) (c : call) :
  well_keyed self -> well_keyed (step self c).
Proof.
  intros Hwk. destruct c as [ty ct md r n1 n2 | aid ap cm mods n | aid ap rs n];
    cbn [step].
  - apply well_keyed_set; [exact Hwk | reflexivity].
  - unfold approve. destruct (dict_get (pending_approvals self) aid) as [a|] eqn:E;
      cbn [snd]; [|exact Hwk].
    apply well_keyed_set; [exact Hwk|]. cbn [id].
    destruct Hwk as [_ Hid]. apply Hid. now apply in_of_dict_get.
  - unfold reject. destruct (dict_get (pending_approvals self) aid) as [a|] eqn:E;
      cbn [snd]; [|exact Hwk].
    apply well_keyed_set; [exact Hwk|]. cbn [id].
    destruct Hwk as [_ Hid]. apply Hid. now apply in_of_dict_get.
Qed.

Lemma well_keyed_fold (calls : list call) (self : manager) :
  well_keyed self -> well_keyed (fold_left step calls self).
Proof.
  revert self. induction calls as [|c calls IH]; intros self H; simpl; auto.
  apply IH. now apply well_keyed_step.
Qed.

Lemma well_keyed_run (calls : list call) : well_keyed (run calls).
Proof. apply well_keyed_fold, well_keyed_init. Qed.

(** Replacing the record under [k] by one that is not pending removes [k]
    from the pending records and keeps the others. *)
Lemma pending_after_set (self : manager) (k : string) (v : approval_request) :
  well_keyed self -> status v <> pending ->
  forall a,
    In a (get_pending_approvals
            (mk_manager (dict_set (pending_approvals self) k v)) None) <->
    In a (get_pending_approvals self None) /\ id a <> k.
Proof.
  intros [Hnd Hid] Hv a. unfold get_pending_approvals. cbn [truthy_int pending_approvals].
  rewrite !filter_In, !in_values_iff. split.
  - intros [(k' & Hin) Hst].
    apply (in_dict_set_inv _ _ _ _ _ Hnd) in Hin.
    destruct Hin as [[-> ->] | [Hne Hin]].
    + destruct (status v); try discriminate. contradiction.
    + split; [split; [now exists k' | exact Hst]|].
      rewrite (Hid _ _ Hin). exact Hne.
  - intros [[(k' & Hin) Hst] Hne]. split; [|exact Hst].
    exists k'. apply in_dict_set_other; [|exact Hin].
    rewrite <- (Hid _ _ Hin). exact Hne.
Qed.

(** *** Properties *)

(** X1: [approve] and [reject] on an id that is not stored raise the
    not-found [ValueError] and leave the manager as it was;
    [get_approval_status] answers ["not_found"] for such an id. *)
Theorem decision_on_unknown_id_changes_nothing
    (self : manager) (approval_id : string)
    (Hunknown : dict_get (pending_approvals self) approval_id = None) :
  (forall approver cm mods now,
      approve self approval_id approver cm mods now
      = (Raise (ValueError ("Approval request " ++ approval_id ++ " not found")), self)) /\
  (forall approver reason now,
      reject self approval_id approver reason now
      = (Raise (ValueError ("Approval request " ++ approval_id ++ " not found")), self)) /\
  get_approval_status self approval_id = "not_found"%string.
Proof.
  unfold approve, reject, get_approval_status. rewrite Hunknown. auto.
Qed.

Lemma decision_on_unknown_id_example :
  fst (approve (snd Examples.request_1) "strategy_1" 2 None None Examples.t1)
  = Raise (ValueError "Approval request strategy_1 not found") /\
  snd (reject (snd Examples.request_1) "strategy_1" 2 "no" Examples.t1)
  = snd Examples.request_1.
Proof.
  destruct (decision_on_unknown_id_changes_nothing (snd Examples.request_1)
              "strategy_1" eq_refl) as (Ha & Hr & _).
  rewrite Ha, Hr. split; reflexivity.
Defined.

(** X2: [approve] never touches the original content, type, metadata,
    requester or creation time of the request.  A non-empty replacement text
    is stored beside the content with [content_modified] true; with no
    replacement text, or an empty one, [content_modified] is false and a
    replacement text stored by an earlier approval stays in the record. *)
Theorem approve_keeps_content_and_flags_modifications
    (self : manager) (approval_id : string) (a : approval_request)
    (Hstored : dict_get (pending_approvals self) approval_id = Some a)
    (approver : Z) (cm mods : option string) (now : datetime) :
  exists a',
    fst (approve self approval_id approver cm mods now) = Ok a' /\
    id a' = id a /\ type a' = type a /\ content a' = content a /\
    metadata a' = metadata a /\ requester_id a' = requester_id a /\
    created_at a' = created_at a /\
    content_modified a' = Some (truthy_str mods) /\
    (truthy_str mods = true -> modified_content a' = mods) /\
    (truthy_str mods = false -> modified_content a' = modified_content a).
Proof.
  unfold approve. rewrite Hstored. eexists. split; [reflexivity|].
  cbn. repeat split; intros H; now rewrite H.
Qed.

(** A second approval without replacement text: the flag is false, the
    earlier replacement text is still there. *)
Lemma approve_without_text_keeps_earlier_revision :
  exists a',
    fst (approve Examples.approved_with_revision "document_20240315103000_7"
           3 None None Examples.t2) = Ok a' /\
    content a' = "first draft"%string /\
    content_modified a' = Some false /\
    modified_content a' = Some "revised draft"%string.
Proof.
  destruct (approve_keeps_content_and_flags_modifications
              Examples.approved_with_revision "document_20240315103000_7"
              _ eq_refl 3 None None Examples.t2)
    as (a' & H1 & _ & _ & H4 & _ & _ & _ & H8 & _ & H10).
  exists a'. split; [exact H1|]. split; [exact H4|]. split; [exact H8|].
  rewrite H10; reflexivity.
Defined.

(** X3: right after [request_approval] the status of the returned id is
    ["pending"] and the requester's history holds the new record with no
    approver, decision time, comments or rejection reason; approving the id
    then makes the status ["approved"], rejecting it ["rejected"]. *)
Theorem request_then_decide_status
    (self : manager) (ty c : string) (md : dict string) (r : Z)
    (n1 n2 : datetime) :
  let out := request_approval self ty c md r n1 n2 in
  get_approval_status (snd out) (fst out) = "pending"%string /\
  (exists a,
      In a (get_approval_history (snd out) r) /\
      id a = fst out /\ status a = pending /\ approved_by a = None /\
      approved_at a = None /\ comments a = None /\ rejection_reason a = None /\
      modified_content a = None) /\
  (forall approver cm mods now,
      get_approval_status (snd (approve (snd out) (fst out) approver cm mods now))
        (fst out) = "approved"%string) /\
  (forall approver reason now,
      get_approval_status (snd (reject (snd out) (fst out) approver reason now))
        (fst out) = "rejected"%string).
Proof.
  cbv zeta. cbn [fst snd request_approval].
  set (k := approval_id_of ty n1 r).
  set (a := mk_request k ty c md r pending n2 None None None None None None).
  assert (Hget : dict_get (dict_set (pending_approvals self) k a) k = Some a)
    by apply dict_get_set_same.
  split; [|split; [|split]].
  - unfold get_approval_status. cbn [pending_approvals]. now rewrite Hget.
  - exists a. split; [|cbn; tauto].
    unfold get_approval_history. apply in_sorted_by. apply filter_In. split.
    + apply in_values_iff. exists k. cbn [pending_approvals]. now apply in_of_dict_get.
    + cbn. apply Z.eqb_refl.
  - intros. unfold approve, get_approval_status. cbn [pending_approvals].
    rewrite Hget. cbn [snd pending_approvals]. now rewrite dict_get_set_same.
  - intros. unfold reject, get_approval_status. cbn [pending_approvals].
    rewrite Hget. cbn [snd pending_approvals]. now rewrite dict_get_set_same.
Qed.

(** X4: after any history of calls, approving or rejecting a stored request
    removes exactly that request from the pending list: the pending requests
    afterwards are the pending requests before whose id is another one. *)
Theorem decided_request_leaves_pending_list
    (calls : list call) (approval_id : string) (a : approval_request)
    (Hstored : dict_get (pending_approvals (run calls)) approval_id = Some a) :
  (forall approver cm mods now x,
      In x (get_pending_approvals
              (snd (approve (run calls) approval_id approver cm mods now)) None) <->
      In x (get_pending_approvals (run calls) None) /\ id x <> approval_id) /\
  (forall approver reason now x,
      In x (get_pending_approvals
              (snd (reject (run calls) approval_id approver reason now)) None) <->
      In x (get_pending_approvals (run calls) None) /\ id x <> approval_id).
Proof.
  pose proof (well_keyed_run calls) as Hwk.
  split; intros; unfold approve, reject; rewrite Hstored; cbn [snd];
    apply pending_after_set; auto; discriminate.
Qed.

Lemma decided_request_leaves_pending_list_example :
  get_pending_approvals
    (snd (approve (run [RequestApproval "document" "first draft" [] 7
                          Examples.t0 Examples.t0])
            "document_20240315103000_7" 2 None None Examples.t1)) None
  = [].
Proof.
  destruct (get_pending_approvals _ None) as [|x l] eqn:E; [reflexivity|].
  exfalso.
  destruct (decided_request_leaves_pending_list
              [RequestApproval "document" "first draft" [] 7 Examples.t0 Examples.t0]
              "document_20240315103000_7" _ eq_refl) as [H _].
  specialize (H 2 None None Examples.t1 x).
  rewrite E in H. destruct H as [H _].
  destruct (H (or_introl eq_refl)) as [Hin Hne].
  vm_compute in Hin. destruct Hin as [<- | []]. now apply Hne.
Defined.

(** X5: [get_approval_history] returns the requests of the requester, of any
    status, each once, ordered by creation time with the newest first; a
    requester id of 0 is filtered like any other. *)
Theorem approval_history_newest_first (self : manager) (requester : Z) :
  Permutation (get_approval_history self requester)
    (filter (fun a => requester_id a =? requester)
            (dict_values (pending_approvals self))) /\
  StronglySorted (fun a b => datetime_leb (created_at b) (created_at a) = true)
    (get_approval_history self requester) /\
  (forall a, In a (get_approval_history self requester) <->
             In a (dict_values (pending_approvals self)) /\ requester_id a = requester).
Proof.
  unfold get_approval_history. split; [apply sorted_by_perm|]. split.
  - apply (sorted_by_sorted newer_first).
    + intros a b. apply datetime_leb_total.
    + intros a b c Hab Hbc. unfold newer_first in *.
      eapply datetime_leb_trans; eassumption.
  - intros a. rewrite in_sorted_by, filter_In, Z.eqb_eq. tauto.
Qed.

(** X6: no call removes a stored id, but a request can be replaced.
    [approve] and [reject] keep the list of stored ids, leave every record
    under another id untouched and keep id, type, content, metadata,
    requester and creation time of the record they decide.
    [request_approval] leaves every record under another id untouched and
    stores its new Pending record under the generated id: on a fresh id the
    id is appended, while a request already stored under that id, decided or
    not, is replaced in place, so the list of ids stays and the earlier
    request is lost. *)
Theorem stored_ids_stay_and_collisions_replace (self : manager) (c : call) :
  (forall k, In k (dict_keys (pending_approvals self)) ->
             In k (dict_keys (pending_approvals (step self c)))) /\
  match c with
  | RequestApproval ty ct md r now_id now_created =>
      let new_id := approval_id_of ty now_id r in
      (forall k, k <> new_id ->
         dict_get (pending_approvals (step self c)) k
         = dict_get (pending_approvals self) k) /\
      dict_get (pending_approvals (step self c)) new_id
      = Some (mk_request new_id ty ct md r pending now_created
                None None None None None None) /\
      dict_keys (pending_approvals (step self c))
      = match dict_get (pending_approvals self) new_id with
        | Some _ => dict_keys (pending_approvals self)
        | None => (dict_keys (pending_approvals self) ++ [new_id])%list
        end
  | Approve aid _ _ _ _ | Reject aid _ _ _ =>
      dict_keys (pending_approvals (step self c)) = dict_keys (pending_approvals self) /\
      (forall k, k <> aid ->
         dict_get (pending_approvals (step self c)) k
         = dict_get (pending_approvals self) k) /\
      match dict_get (pending_approvals self) aid with
      | Some a =>
          exists a',
            dict_get (pending_approvals (step self c)) aid = Some a' /\
            id a' = id a /\ type a' = type a /\ content a' = content a /\
            metadata a' = metadata a /\ requester_id a' = requester_id a /\
            created_at a' = created_at a
      | None => step self c = self
      end
  end.
Proof.
  assert (Hset : forall k0 v k,
             In k (dict_keys (pending_approvals self)) ->
             In k (dict_keys (dict_set (pending_approvals self) k0 v))).
  { intros k0 v k Hk. destruct (dict_get (pending_approvals self) k0) eqn:E.
    - now rewrite (dict_keys_set_present _ _ _ _ E).
    - rewrite (dict_keys_set_absent _ _ _ E). apply in_or_app. now left. }
  destruct c as [ty ct md r n1 n2 | aid ap cm mods n | aid ap rs n]; cbn [step].
  - cbv zeta. cbn [request_approval snd pending_approvals].
    split; [intros k Hk; now apply Hset|].
    split; [intros k Hk; now apply dict_get_set_other|].
    split; [apply dict_get_set_same|].
    destruct (dict_get (pending_approvals self) (approval_id_of ty n1 r)) eqn:E.
    + eapply dict_keys_set_present; eassumption.
    + now apply dict_keys_set_absent.
  - unfold approve. destruct (dict_get (pending_approvals self) aid) eqn:E; cbn [snd].
    + cbn [pending_approvals]. rewrite (dict_keys_set_present _ _ _ _ E).
      split; [auto|]. split; [reflexivity|].
      split; [intros k Hk; now apply dict_get_set_other|].
      eexists. split; [apply dict_get_set_same|]. cbn. tauto.
    + auto.
  - unfold reject. destruct (dict_get (pending_approvals self) aid) eqn:E; cbn [snd].
    + cbn [pending_approvals]. rewrite (dict_keys_set_present _ _ _ _ E).
      split; [auto|]. split; [reflexivity|].
      split; [intros k Hk; now apply dict_get_set_other|].
      eexists. split; [apply dict_get_set_same|]. cbn. tauto.
    + auto.
Qed.

End ApprovalExtra.

(** ** More on the feedback handler *)

Module FeedbackExtra.

Import FeedbackHandler PyFacts SortFacts FeedbackFacts.
Import ApprovalExtra.

(** *** The store stays well formed *)

Lemma well_formed_init : well_formed init.
Proof. split; [constructor | intros k f []]. Qed.

Lemma well_formed_step (self : handler) (c : call) :
  well_formed self -> well_formed (step self c).
Proof.
  intros [Hnd Hall]. destruct c as [cid cty uid r cm si n1 n2 | fid fu n]; cbn [step].
  - unfold submit_feedback. destruct ((r <? 1) || (r >? 5)) eqn:E; cbn [snd].
    + split; assumption.
    + apply rating_accepted_iff in E. split; cbn [feedback_store].
      * now apply nodup_keys_dict_set.
      * intros k f Hin. apply (in_dict_set_inv _ _ _ _ _ Hnd) in Hin.
        destruct Hin as [[-> ->] | [_ Hin]]; [cbn; split; [reflexivity | lia] | auto].
  - unfold mark_addressed.
    destruct (dict_get (feedback_store self) fid) as [f0|] eqn:E; cbn [snd].
    + split; cbn [feedback_store].
      * now apply nodup_keys_dict_set.
      * intros k f Hin. apply (in_dict_set_inv _ _ _ _ _ Hnd) in Hin.
        destruct Hin as [[-> ->] | [_ Hin]]; [|auto].
        cbn. apply in_of_dict_get in E. exact (Hall _ _ E).
    + split; assumption.
Qed.

Lemma well_formed_fold (calls : list call) (self : handler) :
  well_formed self -> well_formed (fold_left step calls self).
Proof.
  revert self. induction calls as [|c calls IH]; intros self H; simpl; auto.
  apply IH. now apply well_formed_step.
Qed.

Lemma well_formed_run (calls : list call) : well_formed (run calls).
Proof. apply well_formed_fold, well_formed_init. Qed.

Lemma run_app (calls more : list call) :
  run (calls ++ more) = fold_left step more (run calls).
Proof. unfold run. apply fold_left_app. Qed.

(** One call keeps a stored record, its rating and what was submitted with
    it, and does not clear [addressed]. *)
Lemma step_keeps_feedback (self : handler) (c : call) (fid : string) (f : feedback) :
  keys_below_counter self ->
  get_feedback self fid = Some f ->
  exists f',
    get_feedback (step self c) fid = Some f' /\
    rating f' = rating f /\ content_id f' = content_id f /\
    content_type f' = content_type f /\ user_id f' = user_id f /\
    comments f' = comments f /\ specific_issues f' = specific_issues f /\
    submitted_at f' = submitted_at f /\
    (addressed f = true -> addressed f' = true).
Proof.
  intros Hinv Hget. unfold get_feedback in *.
  destruct c as [cid cty uid r cm si n1 n2 | fid0 fu n]; cbn [step].
  - unfold submit_feedback. destruct ((r <? 1) || (r >? 5)); cbn [snd feedback_store].
    + exists f. tauto.
    + exists f. split; [|tauto].
      rewrite dict_get_set_other; [exact Hget|].
      intros ->. rewrite (next_id_fresh self n1 Hinv) in Hget. discriminate.
  - unfold mark_addressed.
    destruct (dict_get (feedback_store self) fid0) as [f0|] eqn:E; cbn [snd].
    + cbn [feedback_store]. destruct (String.eqb_spec fid fid0) as [-> | Hne].
      * rewrite dict_get_set_same. rewrite E in Hget. injection Hget as ->.
        eexists. split; [reflexivity|]. cbn. tauto.
      * rewrite dict_get_set_other by exact Hne. exists f. tauto.
    + exists f. tauto.
Qed.

(** The counter and the size of the store after a history of calls. *)
Lemma counter_and_size_fold (calls : list call) (self : handler) :
  keys_below_counter self ->
  feedback_counter (fold_left step calls self)
  = feedback_counter self + len (filter is_submission calls) /\
  len (feedback_store (fold_left step calls self))
  = len (feedback_store self) + len (filter is_accepted_submission calls).
Proof.
  revert self. induction calls as [|c calls IH]; intros self Hinv.
  - cbn. unfold len. cbn. lia.
  - cbn [fold_left].
    destruct (IH (step self c) (keys_below_counter_step self c Hinv)) as [Hc Hs].
    rewrite Hc, Hs. clear IH Hc Hs.
    destruct c as [cid cty uid r cm si n1 n2 | fid fu n];
      cbn [step filter is_submission is_accepted_submission].
    + unfold submit_feedback. destruct ((r <? 1) || (r >? 5)) eqn:E;
        cbn [snd negb feedback_counter feedback_store]; unfold len; cbn [List.length].
      * lia.
      * rewrite length_dict_set_absent by (apply next_id_fresh; exact Hinv). lia.
    + unfold mark_addressed.
      destruct (dict_get (feedback_store self) fid) as [f0|] eqn:E;
        cbn [snd feedback_counter feedback_store]; unfold len.
      * rewrite (length_dict_set_present _ _ _ _ E). lia.
      * lia.
Qed.

(** *** Properties *)

(** X7: [mark_addressed] on an id that is not stored returns [False] and
    leaves the handler as it was.  On a stored id it returns [True], sets
    [addressed], stores the follow-up text and the time, and changes nothing
    else: the record keeps its rating and submitted data, every other record,
    the list of ids and the counter stay as they were. *)
Theorem mark_addressed_effect
    (self : handler) (fid fu : string) (now : datetime) :
  let out := mark_addressed self fid fu now in
  match get_feedback self fid with
  | None => out = (false, self)
  | Some f =>
      fst out = true /\
      feedback_counter (snd out) = feedback_counter self /\
      dict_keys (feedback_store (snd out)) = dict_keys (feedback_store self) /\
      (forall k, k <> fid -> get_feedback (snd out) k = get_feedback self k) /\
      exists f',
        get_feedback (snd out) fid = Some f' /\
        addressed f' = true /\ follow_up f' = Some fu /\ addressed_at f' = Some now /\
        id f' = id f /\ rating f' = rating f /\ content_id f' = content_id f /\
        content_type f' = content_type f /\ user_id f' = user_id f /\
        comments f' = comments f /\ specific_issues f' = specific_issues f /\
        submitted_at f' = submitted_at f
  end.
Proof.
  cbv zeta. unfold get_feedback, mark_addressed.
  destruct (dict_get (feedback_store self) fid) as [f|] eqn:E; [|reflexivity].
  cbn [fst snd feedback_counter feedback_store].
  split; [reflexivity|]. split; [reflexivity|].
  split; [eapply dict_keys_set_present; exact E|].
  split; [intros k Hk; now apply dict_get_set_other|].
  eexists. split; [apply dict_get_set_same|]. cbn. tauto.
Qed.

(** X8: after any history of calls every stored record has a rating from 1
    to 5 and is stored under its own id, and no id is stored twice. *)
Theorem stored_ratings_are_in_range (calls : list call) :
  NoDup (dict_keys (feedback_store (run calls))) /\
  (forall k f, In (k, f) (feedback_store (run calls)) ->
               id f = k /\ 1 <= rating f <= 5) /\
  (forall f, In f (dict_values (feedback_store (run calls))) -> 1 <= rating f <= 5).
Proof.
  destruct (well_formed_run calls) as [Hnd Hall].
  split; [exact Hnd|]. split; [exact Hall|].
  intros f Hf. apply in_values_iff in Hf. destruct Hf as [k Hk].
  now apply (Hall k f).
Qed.

(** X9: after any history of calls the counter is the number of
    [submit_feedback] calls made, accepted or refused, and the store holds
    one record per accepted call; [mark_addressed] changes neither. *)
Theorem counter_counts_every_submission (calls : list call) :
  feedback_counter (run calls) = len (filter is_submission calls) /\
  len (feedback_store (run calls)) = len (filter is_accepted_submission calls) /\
  len (feedback_store (run calls)) <= feedback_counter (run calls).
Proof.
  destruct (counter_and_size_fold calls init keys_below_counter_init) as [Hc Hs].
  fold (run calls) in Hc, Hs. cbn in Hc, Hs.
  split; [exact Hc|]. split; [exact Hs|].
  rewrite Hc, Hs. unfold len. apply inj_le.
  clear. induction calls as [|c calls IH]; [apply le_n|].
  cbn [filter]. destruct c as [? ? ? r ? ? ? ? | ? ? ?]; cbn [is_submission is_accepted_submission].
  - destruct (negb _); cbn [List.length]; lia.
  - exact IH.
Qed.

(** X10: a stored record is never removed or re-rated: whatever calls
    follow, the id still leads to a record with the same rating, content id,
    content type, user, comments, issues and submission time, and a record
    that was addressed stays addressed. *)
Theorem feedback_is_never_lost_or_rerated
    (calls more : list call) (fid : string) (f : feedback)
    (Hstored : get_feedback (run calls) fid = Some f) :
  exists f',
    get_feedback (run (calls ++ more)) fid = Some f' /\
    rating f' = rating f /\ content_id f' = content_id f /\
    content_type f' = content_type f /\ user_id f' = user_id f /\
    comments f' = comments f /\ specific_issues f' = specific_issues f /\
    submitted_at f' = submitted_at f /\
    (addressed f = true -> addressed f' = true).
Proof.
  rewrite run_app.
  pose proof (keys_below_counter_run calls) as Hinv.
  revert Hinv Hstored. generalize (run calls) as self. revert f.
  induction more as [|c more IH]; intros f self Hinv Hstored; cbn [fold_left].
  - exists f. tauto.
  - destruct (step_keeps_feedback self c fid f Hinv Hstored)
      as (f1 & Hget1 & Hr & Hci & Hct & Hu & Hcm & Hsi & Hsa & Had).
    destruct (IH f1 (step self c) (keys_below_counter_step self c Hinv) Hget1)
      as (f2 & Hget2 & Hr2 & Hci2 & Hct2 & Hu2 & Hcm2 & Hsi2 & Hsa2 & Had2).
    exists f2. split; [exact Hget2|].
    repeat split; try congruence. auto.
Qed.

Lemma feedback_is_never_lost_or_rerated_example :
  exists f',
    get_feedback
      (run ([Examples.submit 2]
            ++ [MarkAddressed "feedback_1_20240315103000" "called the client" Examples.t1;
                Examples.submit 5; Examples.submit 9])%list)
      "feedback_1_20240315103000" = Some f' /\
    rating f' = 2.
Proof.
  destruct (feedback_is_never_lost_or_rerated [Examples.submit 2]
              [MarkAddressed "feedback_1_20240315103000" "called the client" Examples.t1;
               Examples.submit 5; Examples.submit 9]
              "feedback_1_20240315103000" _ eq_refl)
    as (f' & Hget & Hr & _).
  exists f'. split; [exact Hget | exact Hr].
Defined.

(** X11: [get_low_rated_content] returns the stored records rated below the
    threshold (3 when omitted), each once, ordered by rating with the worst
    first; records with the same rating keep the order of the store. *)
Theorem low_rated_content_worst_first (self : handler) (threshold : option Z) :
  let t := match threshold with Some t => t | None => 3 end in
  let low := filter (fun f => rating f <? t) (dict_values (feedback_store self)) in
  Permutation (get_low_rated_content self threshold) low /\
  (forall f, In f (get_low_rated_content self threshold) <->
             In f (dict_values (feedback_store self)) /\ rating f < t) /\
  StronglySorted (fun a b => rating a <= rating b)
    (get_low_rated_content self threshold) /\
  (forall r, filter (fun f => rating f =? r) (get_low_rated_content self threshold)
             = filter (fun f => rating f =? r) low).
Proof.
  cbv zeta. unfold get_low_rated_content.
  split; [apply sorted_by_perm|]. split; [|split].
  - intros f. rewrite in_sorted_by, filter_In, Z.ltb_lt. tauto.
  - apply (strongly_sorted_weaken (fun a b => (rating a <=? rating b) = true));
      [|apply sorted_by_sorted].
    + intros a b H. now apply Z.leb_le.
    + intros a b. destruct (Z.leb_spec (rating a) (rating b)); [now left|].
      right. apply Z.leb_le. lia.
    + intros a b c Hab Hbc. apply Z.leb_le. apply Z.leb_le in Hab, Hbc. lia.
  - intros r. apply sorted_by_stable.
    intros x y Hx Hy. apply Z.eqb_eq in Hx, Hy. apply Z.leb_le. lia.
Qed.

(** X12: [get_content_feedback], [get_user_feedback] and
    [get_feedback_by_type] return the stored records with the given content
    id, user or content type, each once, ordered by submission time with the
    newest first. *)
Theorem feedback_listings_newest_first
    (self : handler) (cid : string) (uid : Z) (cty : string) :
  let newest := fun a b => datetime_leb (submitted_at b) (submitted_at a) = true in
  let stored := dict_values (feedback_store self) in
  (Permutation (get_content_feedback self cid)
     (filter (fun f => String.eqb (content_id f) cid) stored) /\
   StronglySorted newest (get_content_feedback self cid)) /\
  (Permutation (get_user_feedback self uid)
     (filter (fun f => user_id f =? uid) stored) /\
   StronglySorted newest (get_user_feedback self uid)) /\
  (Permutation (get_feedback_by_type self cty)
     (filter (fun f => String.eqb (content_type f) cty) stored) /\
   StronglySorted newest (get_feedback_by_type self cty)).
Proof.
  cbv zeta.
  assert (Hs : forall l, StronglySorted
                 (fun a b => datetime_leb (submitted_at b) (submitted_at a) = true)
                 (sorted_by newest_first l)).
  { intros l. apply (sorted_by_sorted newest_first).
    - intros a b. apply datetime_leb_total.
    - intros a b c Hab Hbc. unfold newest_first in *.
      eapply datetime_leb_trans; eassumption. }
  unfold get_content_feedback, get_user_feedback, get_feedback_by_type.
  repeat split; try apply sorted_by_perm; apply Hs.
Qed.

(** *** The summary *)

Lemma get_feedback_summary_in_scope (self : handler) (ct : option string) :
  get_feedback_summary self ct =
  match in_scope self ct with
  | [] => mk_summary 0 (Int 0) [] [] None
  | l =>
      mk_summary (len l)
        (Float (int_truediv (sum (map rating l)) (len (map rating l))))
        (map (fun i => (i, count i (map rating l))) [1; 2; 3; 4; 5])
        (firstn 5 (sorted_desc (count_issues (flat_map specific_issues l))))
        (Some (match map rating l with
               | [] => Int 0
               | _ :: _ =>
                   Float (PrimFloat.mul
                            (int_truediv
                               (len (filter (fun r => r >=? 4) (map rating l)))
                               (len (map rating l)))
                            (float_of_int 100))
               end))
  end.
Proof.
  unfold get_feedback_summary, in_scope.
  destruct (is_nonempty_str ct); cbv zeta.
  - destruct (filter _ (dict_values (feedback_store self))); reflexivity.
  - destruct (dict_values (feedback_store self)); reflexivity.
Qed.





(** *** The issue counts of the summary *)

Lemma dict_get_of_in_nodup {V : Type} (d : dict V) (k : string) (a : V) :
  NoDup (dict_keys d) -> In (k, a) d -> dict_get d k = Some a.
Proof.
  induction d as [|[k0 v0] d IH]; cbn; [tauto|].
  intros Hnd Hin. inversion Hnd as [|? ? Hnotin Hnd']; subst.
  destruct Hin as [[= -> ->] | Hin].
  - now rewrite String.eqb_refl.
  - destruct (String.eqb_spec k k0) as [-> | _]; [|auto].
    exfalso. apply Hnotin. eapply in_keys_of_in; eassumption.
Qed.

Lemma count_issues_get_acc (l : list string) :
  forall (acc : dict Z) (x : string),
    dict_get
      (fold_left
         (fun issue_counts issue =>
            dict_set issue_counts issue
              (match dict_get issue_counts issue with
               | Some n => n
               | None => 0
               end + 1))
         l acc) x
    = match dict_get acc x, count_occ string_dec l x with
      | Some m, n => Some (m + Z.of_nat n)
      | None, O => None
      | None, S n => Some (Z.of_nat (S n))
      end.
Proof.
  induction l as [|y l IH]; intros acc x; cbn [fold_left count_occ].
  - destruct (dict_get acc x); [f_equal; lia | reflexivity].
  - rewrite IH. destruct (string_dec y x) as [-> | Hne].
    + rewrite dict_get_set_same.
      destruct (dict_get acc x); f_equal; lia.
    + rewrite dict_get_set_other by congruence. reflexivity.
Qed.

Lemma count_issues_get (l : list string) (x : string) :
  dict_get (count_issues l) x
  = match count_occ string_dec l x with
    | O => None
    | S n => Some (Z.of_nat (S n))
    end.
Proof. unfold count_issues. now rewrite count_issues_get_acc. Qed.

Lemma count_issues_nodup (l : list string) : NoDup (dict_keys (count_issues l)).
Proof.
  unfold count_issues.
  assert (H : forall acc : dict Z, NoDup (dict_keys acc) ->
              NoDup (dict_keys
                (fold_left
                   (fun issue_counts issue =>
                      dict_set issue_counts issue
                        (match dict_get issue_counts issue with
                         | Some n => n
                         | None => 0
                         end + 1)) l acc))).
  { induction l as [|y l IH]; intros acc Hacc; cbn [fold_left]; [exact Hacc|].
    apply IH. now apply nodup_keys_dict_set. }
  apply H. constructor.
Qed.

Lemma sorted_desc_is_sorted_by (l : list (string * Z)) :
  sorted_desc l = sorted_by (fun x y => snd y <=? snd x) l.
Proof.
  unfold sorted_desc, sorted_by. induction l as [|x l IH]; [reflexivity|].
  cbn [fold_right]. rewrite IH.
  generalize (fold_right (insert_sorted (fun x y => snd y <=? snd x)) [] l).
  intros s. induction s as [|y s IHs]; [reflexivity|].
  cbn [insert_desc insert_sorted]. destruct (snd y <=? snd x); [reflexivity|].
  now rewrite IHs.
Qed.

Lemma most_common_issues_in_scope (self : handler) (ct : option string) :
  most_common_issues (get_feedback_summary self ct)
  = firstn 5 (sorted_desc (count_issues (flat_map specific_issues (in_scope self ct)))).
Proof.
  rewrite get_feedback_summary_in_scope.
  destruct (in_scope self ct); reflexivity.
Qed.

(** X14: [most_common_issues] of a summary lists at most five issue labels,
    none twice, each with the number of times it occurs among the issues of
    the records in scope, in order of descending count; no label left out
    occurs more often than a label that is listed. *)
Theorem most_common_issues_are_the_most_frequent
    (self : handler) (ct : option string) :
  let top := most_common_issues (get_feedback_summary self ct) in
  let all_issues := flat_map specific_issues (in_scope self ct) in
  (List.length top <= 5)%nat /\
  NoDup (map fst top) /\
  StronglySorted (fun a b => snd b <= snd a) top /\
  (forall x n, In (x, n) top ->
               n = Z.of_nat (count_occ string_dec all_issues x) /\ 1 <= n) /\
  (forall x n y, In (x, n) top -> In y all_issues -> ~ In y (map fst top) ->
                 Z.of_nat (count_occ string_dec all_issues y) <= n).
Proof.
  cbv zeta. rewrite most_common_issues_in_scope, sorted_desc_is_sorted_by.
  set (all_issues := flat_map specific_issues (in_scope self ct)).
  set (leb := fun x y : string * Z => snd y <=? snd x).
  set (L := sorted_by leb (count_issues all_issues)).
  assert (Hperm : Permutation L (count_issues all_issues)) by apply sorted_by_perm.
  assert (Hsorted : StronglySorted (fun a b => leb a b = true) L).
  { apply sorted_by_sorted; unfold leb.
    - intros a b. destruct (Z.leb_spec (snd b) (snd a)); [now left|].
      right. apply Z.leb_le. lia.
    - intros a b c Hab Hbc. apply Z.leb_le. apply Z.leb_le in Hab, Hbc. lia. }
  assert (Hsplit : L = (firstn 5 L ++ skipn 5 L)%list)
    by (symmetry; apply firstn_skipn).
  assert (Hcount : forall x n, In (x, n) L ->
             n = Z.of_nat (count_occ string_dec all_issues x) /\ 1 <= n).
  { intros x n Hin. apply (Permutation_in _ Hperm) in Hin.
    apply dict_get_of_in_nodup in Hin; [|apply count_issues_nodup].
    rewrite count_issues_get in Hin.
    destruct (count_occ string_dec all_issues x); [discriminate|].
    injection Hin as <-. split; [reflexivity | lia]. }
  rewrite Hsplit in Hsorted. apply strongly_sorted_app_inv in Hsorted.
  destruct Hsorted as [Hs1 Hcross].
  split; [apply firstn_le_length|]. split; [|split; [|split]].
  - assert (Hnd : NoDup (map fst L)).
    { eapply Permutation_NoDup;
        [apply Permutation_sym, Permutation_map, Hperm | apply count_issues_nodup]. }
    rewrite Hsplit, map_app in Hnd. now apply NoDup_app_remove_r in Hnd.
  - eapply strongly_sorted_weaken; [|exact Hs1].
    intros a b H. now apply Z.leb_le.
  - intros x n Hin. apply Hcount. rewrite Hsplit. apply in_or_app. now left.
  - intros x n y Hx Hy Hnot.
    assert (Hy' : In (y, Z.of_nat (count_occ string_dec all_issues y)) L).
    { apply (Permutation_in _ (Permutation_sym Hperm)). apply in_of_dict_get.
      rewrite count_issues_get.
      apply (count_occ_In string_dec) in Hy.
      destruct (count_occ string_dec all_issues y); [lia | reflexivity]. }
    rewrite Hsplit in Hy'. apply in_app_or in Hy'. destruct Hy' as [Hy' | Hy'].
    + exfalso. apply Hnot. apply in_map_iff. now exists (y, Z.of_nat (count_occ string_dec all_issues y)).
    + specialize (Hcross _ _ Hx Hy'). unfold leb in Hcross. cbn in Hcross.
      now apply Z.leb_le.
Qed.

(** *** Improvement areas *)

Lemma in_firstn_in {A : Type} (n : nat) (l : list A) (x : A) :
  In x (firstn n l) -> In x l.
Proof.
  intros H. rewrite <- (firstn_skipn n l). apply in_or_app. now left.
Qed.

Lemma nodup_firstn {A : Type} (n : nat) (l : list A) :
  NoDup l -> NoDup (firstn n l).
Proof.
  intros H. rewrite <- (firstn_skipn n l) in H. now apply NoDup_app_remove_r in H.
Qed.

Lemma in_low_rated_of_type (self : handler) (ct : string) (f : feedback) :
  In f (low_rated_of_type self ct) <->
  In f (dict_values (feedback_store self)) /\ content_type f = ct /\ rating f <= 2.
Proof.
  unfold low_rated_of_type, get_feedback_by_type.
  rewrite filter_In, in_sorted_by, filter_In, Z.leb_le, String.eqb_eq. tauto.
Qed.

Lemma in_issues_and_comments (low_rated : list feedback) (x : string) :
  In x (issues_and_comments low_rated) <->
  exists f, In f low_rated /\
            (In x (specific_issues f) \/ (comments f = Some x /\ x <> EmptyString)).
Proof.
  unfold issues_and_comments. rewrite in_flat_map. split.
  - intros (f & Hf & Hx). exists f. split; [exact Hf|].
    apply in_app_or in Hx. destruct Hx as [Hx | Hx]; [now left|]. right.
    destruct (comments f) as [[|c s]|]; cbn in Hx; try contradiction.
    destruct Hx as [<- | []]. split; [reflexivity | discriminate].
  - intros (f & Hf & [Hx | [Hc Hne]]); exists f; (split; [exact Hf|]);
      apply in_or_app; [now left | right].
    rewrite Hc. destruct x; [contradiction | cbn; now left].
Qed.

Section Areas.
Variable set_order : list string -> list string.
Variable self : handler.

Lemma areas_fold_none (k : string) (cts : list string) :
  low_rated_of_type self k = [] ->
  forall acc,
    dict_get (fold_left (record_areas set_order self) cts acc) k = dict_get acc k.
Proof.
  intros Hnone. induction cts as [|c cts IH]; intros acc; cbn [fold_left];
    [reflexivity|].
  rewrite IH. unfold record_areas.
  destruct (low_rated_of_type self c) eqn:E; [reflexivity|].
  apply dict_get_set_other. intros ->. rewrite Hnone in E. discriminate.
Qed.

Lemma areas_fold_some (k : string) (cts : list string) :
  low_rated_of_type self k <> [] ->
  forall acc,
    In k cts \/
    dict_get acc k
    = Some (firstn 5 (set_order (issues_and_comments (low_rated_of_type self k)))) ->
    dict_get (fold_left (record_areas set_order self) cts acc) k
    = Some (firstn 5 (set_order (issues_and_comments (low_rated_of_type self k)))).
Proof.
  intros Hsome. induction cts as [|c cts IH]; intros acc H; cbn [fold_left].
  - destruct H as [[] | H]. exact H.
  - apply IH. destruct (string_dec c k) as [-> | Hne].
    + right. unfold record_areas.
      destruct (low_rated_of_type self k); [contradiction|].
      apply dict_get_set_same.
    + destruct H as [[-> | H] | H]; [contradiction | now left | right].
      unfold record_areas. destruct (low_rated_of_type self c); [exact H|].
      rewrite dict_get_set_other by congruence. exact H.
Qed.

Lemma identify_improvement_areas_fold :
  identify_improvement_areas set_order self
  = fold_left (record_areas set_order self)
      (set_order (map content_type (dict_values (feedback_store self)))) [].
Proof. reflexivity. Qed.

(** What a key of the result says. *)
Lemma improvement_area_inv (ct : string) (issues : list string) :
  (forall l x, In x (set_order l) <-> In x l) ->
  dict_get (identify_improvement_areas set_order self) ct = Some issues ->
  low_rated_of_type self ct <> [] /\
  issues = firstn 5 (set_order (issues_and_comments (low_rated_of_type self ct))).
Proof.
  intros Hsame H. rewrite identify_improvement_areas_fold in H.
  destruct (low_rated_of_type self ct) as [|f l] eqn:E.
  - rewrite (areas_fold_none ct _ E) in H. discriminate.
  - rewrite <- E in *.
    assert (Hne : low_rated_of_type self ct <> []) by (rewrite E; discriminate).
    split; [exact Hne|].
    rewrite (areas_fold_some ct _ Hne) in H; [congruence|].
    left. apply Hsame. apply in_map_iff. exists f.
    assert (Hf : In f (low_rated_of_type self ct)) by (rewrite E; now left).
    apply in_low_rated_of_type in Hf. tauto.
Qed.

End Areas.

(** X15: [identify_improvement_areas], for any order in which sets are
    iterated: a content type is a key of the result exactly when some stored
    record of that type is rated 2 or less; its list has at most five
    entries, none twice, and every entry is a specific issue or a non-empty
    comment of a record of that type rated 2 or less. *)
Theorem improvement_areas_come_from_low_ratings
    (set_order : list string -> list string) (self : handler)
    (Hnodup : forall l, NoDup (set_order l))
    (Hsame : forall l x, In x (set_order l) <-> In x l) :
  let areas := identify_improvement_areas set_order self in
  let stored := dict_values (feedback_store self) in
  (forall ct,
      (exists issues, dict_get areas ct = Some issues) <->
      (exists f, In f stored /\ content_type f = ct /\ rating f <= 2)) /\
  (forall ct issues,
      dict_get areas ct = Some issues ->
      (List.length issues <= 5)%nat /\ NoDup issues /\
      forall x, In x issues ->
                exists f, In f stored /\ content_type f = ct /\ rating f <= 2 /\
                          (In x (specific_issues f) \/
                           (comments f = Some x /\ x <> EmptyString))).
Proof.
  cbv zeta. split.
  - intros ct. split.
    + intros (issues & H). apply improvement_area_inv in H; [|exact Hsame].
      destruct H as [Hne _].
      destruct (low_rated_of_type self ct) as [|f l] eqn:E; [contradiction|].
      exists f. apply in_low_rated_of_type. rewrite E. now left.
    + intros (f & Hf). apply in_low_rated_of_type in Hf.
      assert (Hne : low_rated_of_type self ct <> [])
        by (intros E; rewrite E in Hf; contradiction).
      eexists. rewrite identify_improvement_areas_fold.
      apply (areas_fold_some set_order self ct _ Hne).
      left. apply Hsame. apply in_map_iff. exists f.
      apply in_low_rated_of_type in Hf. tauto.
  - intros ct issues H. apply improvement_area_inv in H; [|exact Hsame].
    destruct H as [_ ->].
    split; [apply firstn_le_length|]. split; [apply nodup_firstn, Hnodup|].
    intros x Hx. apply in_firstn_in, Hsame, in_issues_and_comments in Hx.
    destruct Hx as (f & Hf & Hx). exists f.
    apply in_low_rated_of_type in Hf. tauto.
Qed.

(** With sets iterated in order of first occurrence: the two poor ratings of
    contract analyses give three improvement areas. *)
Lemma improvement_areas_of_rated_handler :
  exists issues,
    dict_get (identify_improvement_areas (nodup string_dec) Examples.rated_handler)
      "contract_analysis" = Some issues /\
    (List.length issues <= 5)%nat /\ NoDup issues.
Proof.
  eexists. split; [vm_compute; reflexivity|].
  destruct (improvement_areas_come_from_low_ratings (nodup string_dec)
              Examples.rated_handler
              (fun l => NoDup_nodup string_dec l)
              (fun l x => nodup_In string_dec l x)) as [_ H].
  cbv zeta in H.
  destruct (H "contract_analysis"%string _ ltac:(vm_compute; reflexivity))
    as (Hlen & Hnd & _).
  split; assumption.
Defined.

End FeedbackExtra.

(** ** More on the orchestrator *)

Module OrchestratorExtra.

Import Orchestrator PyFacts OrchestratorFacts.

Ltac unfold_bodies :=
  unfold research_case_law, analyze_contract, assess_compliance,
    draft_legal_document, develop_litigation_strategy,
    get_lawyer_by_id, get_case_by_id, get_document_by_id,
    require_row, attr_get, attr_get_default, slice_prefix;
  cbv zeta.

(** *** Counting the events of a run *)

Lemma count_events_app (p : event -> bool) (a b : list event) :
  count_events p (a ++ b) = (count_events p a + count_events p b)%nat.
Proof. unfold count_events. now rewrite filter_app, length_app. Qed.

Section Emits.
Variable p : event -> bool.
Hypothesis p_log : forall lvl msg, p (Log lvl msg) = false.
Hypothesis p_select : forall t c k, p (Select t c k) = false.

Lemma em_ret {A : Type} (a : A) : emits p 0 (ret a).
Proof. intros db h r db' out [= <- <- <-]. split; [apply le_n | reflexivity]. Qed.

Lemma em_raise {A : Type} (k : nat) (e : exn) : emits p k (@raise A e).
Proof.
  intros db h r db' out [= <- <- <-]. split; [apply Nat.le_0_l | discriminate].
Qed.

Lemma em_log (lvl : level) (msg : string) : emits p 0 (log lvl msg).
Proof.
  intros db h r db' out [= <- <- <-]. unfold count_events. cbn. rewrite p_log.
  split; [apply le_n | reflexivity].
Qed.

Lemma em_clock (E : env) : emits p 0 (clock E).
Proof. intros db h r db' out [= <- <- <-]. split; [apply le_n | reflexivity]. Qed.

Lemma em_select_by_id table rows key : emits p 0 (select_by_id table rows key).
Proof.
  intros db h r db' out [= <- <- <-]. unfold count_events. cbn. rewrite p_select.
  split; [apply le_n | reflexivity].
Qed.

Lemma em_get_case_documents (E : env) key : emits p 0 (get_case_documents E key).
Proof.
  intros db h r db' out [= <- <- <-]. unfold count_events. cbn. rewrite p_select.
  split; [apply le_n | reflexivity].
Qed.

Lemma em_bind {A B : Type} (a b k : nat) (m : M A) (f : A -> M B) :
  emits p a m -> (forall x, emits p b (f x)) -> (a + b)%nat = k ->
  emits p k (bind m f).
Proof.
  unfold emits. intros Hm Hf <- db h r db' out Hrun.
  apply bind_inv in Hrun.
  destruct Hrun as [(e & Hrun & ->) | (x & db1 & out1 & out2 & H1 & H2 & ->)].
  - destruct (Hm _ _ _ _ _ Hrun) as [Hle _]. split; [lia | discriminate].
  - destruct (Hm _ _ _ _ _ H1) as [_ Heq]. specialize (Heq x eq_refl).
    destruct (Hf _ _ _ _ _ _ H2) as [Hle2 Heq2].
    rewrite count_events_app, Heq. split; [lia|].
    intros y Hy. now rewrite (Heq2 y Hy).
Qed.

Lemma em_try_except {A : Type} (k : nat) (label : string) (body : M A) :
  emits p k body -> emits p k (try_except label body).
Proof.
  unfold emits. intros Hb db h r db' out Hrun.
  apply try_except_inv in Hrun.
  destruct Hrun as [(a & Hrun & ->) | (e & out1 & Hrun & -> & ->)].
  - exact (Hb _ _ _ _ _ Hrun).
  - destruct (Hb _ _ _ _ _ Hrun) as [Hle _].
    rewrite count_events_app. unfold count_events at 2. cbn. rewrite p_log. cbn.
    split; [lia | discriminate].
Qed.

End Emits.

Lemma em_call_agent_agent (E : env) (c : agent_call) :
  emits is_agent_call 1 (call_agent E c).
Proof. intros db h r db' out [= <- <- <-]. split; [apply le_n | reflexivity]. Qed.

Lemma em_call_agent_insert (E : env) (c : agent_call) :
  emits is_insert 0 (call_agent E c).
Proof. intros db h r db' out [= <- <- <-]. split; [apply le_n | reflexivity]. Qed.

Lemma em_execute_insert_agent (E : env) table rows store data :
  emits is_agent_call 0 (execute_insert E table rows store data).
Proof.
  intros db h r db' out Hrun. apply execute_insert_inv in Hrun.
  destruct Hrun as [(msg & _ & -> & _ & ->) | (_ & -> & _ & ->)];
    (split; [apply le_n | reflexivity]).
Qed.

Lemma em_execute_insert_insert (E : env) table rows store data :
  emits is_insert 1 (execute_insert E table rows store data).
Proof.
  intros db h r db' out Hrun. apply execute_insert_inv in Hrun.
  destruct Hrun as [(msg & _ & -> & _ & ->) | (_ & -> & _ & ->)];
    (split; [apply le_n | reflexivity]).
Qed.

(** Proves [emits] by following the shape of the operation. *)
Ltac emits_tac :=
  repeat first
    [ eapply em_bind; [|intros|]
    | apply em_try_except; [reflexivity|]
    | apply em_ret
    | apply em_log; reflexivity
    | apply em_clock
    | apply em_select_by_id; reflexivity
    | apply em_get_case_documents; reflexivity
    | apply em_call_agent_agent
    | apply em_call_agent_insert
    | apply em_execute_insert_agent
    | apply em_execute_insert_insert
    | match goal with
      | |- emits _ _ (match ?x with _ => _ end) => destruct x
      | |- @eq nat _ _ => reflexivity
      end
    | apply em_raise ].

Lemma em_run_task_agent (E : env) (t : task) : emits is_agent_call 1 (run_task E t).
Proof.
  destruct t; cbn [run_task]; unfold_bodies;
    unfold add_research_session, save_analysis_result, add_document;
    emits_tac.
Qed.

Lemma em_run_task_insert (E : env) (t : task) : emits is_insert 1 (run_task E t).
Proof.
  destruct t; cbn [run_task]; unfold_bodies;
    unfold add_research_session, save_analysis_result, add_document;
    emits_tac.
Qed.

(** *** A failed agent call is never swallowed *)

Ltac not_this_event Hex :=
  let t := fresh in let Heq := fresh in let Hnil := fresh in
  inversion Hex as [? ? (t & Heq) | ? ? Hnil]; [discriminate Heq | inversion Hnil].

Section AgentError.
Context {A B : Type}.

Lemma ae_ret (a : A) : agent_error_raised (ret a).
Proof. intros db h r db' out e [= <- <- <-] Hex. inversion Hex. Qed.

Lemma ae_raise (x : exn) : agent_error_raised (@raise A x).
Proof. intros db h r db' out e [= <- <- <-] Hex. inversion Hex. Qed.

Lemma ae_bind (m : M A) (f : A -> M B) :
  agent_error_raised m -> (forall a, agent_error_raised (f a)) ->
  agent_error_raised (bind m f).
Proof.
  unfold agent_error_raised. intros Hm Hf db h r db' out e Hrun Hex.
  apply bind_inv in Hrun.
  destruct Hrun as [(x & Hrun & ->) | (a & db1 & out1 & out2 & Hrun1 & Hrun2 & ->)].
  - specialize (Hm _ _ _ _ _ _ Hrun Hex). now injection Hm as ->.
  - apply Exists_app in Hex. destruct Hex as [Hex | Hex].
    + specialize (Hm _ _ _ _ _ _ Hrun1 Hex). discriminate.
    + eapply Hf; eassumption.
Qed.

Lemma ae_try_except (label : string) (body : M A) :
  agent_error_raised body -> agent_error_raised (try_except label body).
Proof.
  unfold agent_error_raised. intros Hb db h r db' out e Hrun Hex.
  apply try_except_inv in Hrun.
  destruct Hrun as [(a & Hrun & ->) | (x & out1 & Hrun & -> & ->)].
  - eapply Hb; eassumption.
  - apply Exists_app in Hex. destruct Hex as [Hex | Hex].
    + eapply Hb; eassumption.
    + not_this_event Hex.
Qed.

End AgentError.

Lemma ae_log (lvl : level) (msg : string) : agent_error_raised (log lvl msg).
Proof. intros db h r db' out e [= <- <- <-] Hex. not_this_event Hex. Qed.

Lemma ae_clock (E : env) : agent_error_raised (clock E).
Proof. intros db h r db' out e [= <- <- <-] Hex. inversion Hex. Qed.

Lemma ae_select_by_id table rows key : agent_error_raised (select_by_id table rows key).
Proof. intros db h r db' out e [= <- <- <-] Hex. not_this_event Hex. Qed.

Lemma ae_call_agent (E : env) (c : agent_call) : agent_error_raised (call_agent E c).
Proof.
  intros db h r db' out e [= <- <- <-] Hex.
  inversion Hex as [? ? (c' & Heq) | ? ? Hnil]; [|inversion Hnil].
  now injection Heq as _ ->.
Qed.

Lemma ae_execute_insert (E : env) table rows store data :
  agent_error_raised (execute_insert E table rows store data).
Proof.
  intros db h r db' out e Hrun Hex.
  apply execute_insert_inv in Hrun.
  destruct Hrun as [(msg & _ & -> & _ & ->) | (_ & -> & _ & ->)].
  - inversion Hex as [? ? (c & Heq) | ? ? Htl]; [discriminate Heq|].
    not_this_event Htl.
  - not_this_event Hex.
Qed.

Ltac agent_error_tac :=
  repeat first
    [ apply ae_bind; [|intros]
    | apply ae_try_except
    | apply ae_ret
    | apply ae_raise
    | apply ae_log
    | apply ae_clock
    | apply ae_call_agent
    | apply ae_select_by_id
    | apply ae_execute_insert
    | match goal with
      | |- agent_error_raised (match ?x with _ => _ end) => destruct x
      end ].

Lemma ae_run_task (E : env) (t : task) : agent_error_raised (run_task E t).
Proof.
  destruct t; cbn [run_task]; unfold_bodies;
    unfold add_research_session, save_analysis_result, add_document;
    agent_error_tac.
Qed.

(** *** The database changes only through accepted writes *)

Section WritesOnly.
Context {A B : Type}.

Lemma cw_ret (a : A) : changes_by_writes_only (ret a).
Proof. now intros db h r db' out [= <- <- <-] _. Qed.

Lemma cw_raise (x : exn) : changes_by_writes_only (@raise A x).
Proof. now intros db h r db' out [= <- <- <-] _. Qed.

Lemma cw_bind (m : M A) (f : A -> M B) :
  changes_by_writes_only m -> (forall a, changes_by_writes_only (f a)) ->
  changes_by_writes_only (bind m f).
Proof.
  unfold changes_by_writes_only. intros Hm Hf db h r db' out Hrun Hz.
  apply bind_inv in Hrun.
  destruct Hrun as [(x & Hrun & ->) | (a & db1 & out1 & out2 & Hrun1 & Hrun2 & ->)].
  - eapply Hm; eassumption.
  - rewrite count_events_app in Hz.
    rewrite (Hf _ _ _ _ _ _ Hrun2) by lia. eapply Hm; [eassumption | lia].
Qed.

Lemma cw_try_except (label : string) (body : M A) :
  changes_by_writes_only body -> changes_by_writes_only (try_except label body).
Proof.
  unfold changes_by_writes_only. intros Hb db h r db' out Hrun Hz.
  apply try_except_inv in Hrun.
  destruct Hrun as [(a & Hrun & ->) | (x & out1 & Hrun & -> & ->)].
  - eapply Hb; eassumption.
  - rewrite count_events_app in Hz. eapply Hb; [eassumption | lia].
Qed.

End WritesOnly.

Lemma cw_log (lvl : level) (msg : string) : changes_by_writes_only (log lvl msg).
Proof. now intros db h r db' out [= <- <- <-] _. Qed.

Lemma cw_clock (E : env) : changes_by_writes_only (clock E).
Proof. now intros db h r db' out [= <- <- <-] _. Qed.

Lemma cw_select_by_id table rows key :
  changes_by_writes_only (select_by_id table rows key).
Proof. now intros db h r db' out [= <- <- <-] _. Qed.

Lemma cw_get_case_documents (E : env) key :
  changes_by_writes_only (get_case_documents E key).
Proof. now intros db h r db' out [= <- <- <-] _. Qed.

Lemma cw_call_agent (E : env) (c : agent_call) : changes_by_writes_only (call_agent E c).
Proof. now intros db h r db' out [= <- <- <-] _. Qed.

Lemma cw_execute_insert (E : env) table rows store data :
  changes_by_writes_only (execute_insert E table rows store data).
Proof.
  intros db h r db' out Hrun Hz.
  apply execute_insert_inv in Hrun.
  destruct Hrun as [(msg & _ & _ & -> & _) | (_ & _ & _ & ->)];
    [reflexivity | discriminate Hz].
Qed.

Ltac writes_only_tac :=
  repeat first
    [ apply cw_bind; [|intros]
    | apply cw_try_except
    | apply cw_ret
    | apply cw_raise
    | apply cw_log
    | apply cw_clock
    | apply cw_call_agent
    | apply cw_select_by_id
    | apply cw_get_case_documents
    | apply cw_execute_insert
    | match goal with
      | |- changes_by_writes_only (match ?x with _ => _ end) => destruct x
      end ].

Lemma cw_run_task (E : env) (t : task) : changes_by_writes_only (run_task E t).
Proof.
  destruct t; cbn [run_task]; unfold_bodies;
    unfold add_research_session, save_analysis_result, add_document;
    writes_only_tac.
Qed.

(** *** Writes come after the text of the agent *)

Section WritesFollow.
Context {A B : Type}.

Lemma wf_silent (m : M A) : emits is_insert 0 m -> writes_follow_generation m.
Proof.
  intros Hm db h r db' out Hrun Hone.
  destruct (Hm _ _ _ _ _ Hrun) as [Hle _]. lia.
Qed.

Lemma wf_bind (m : M A) (f : A -> M B) :
  writes_follow_generation m -> (forall a, writes_follow_generation (f a)) ->
  writes_follow_generation (bind m f).
Proof.
  unfold writes_follow_generation. intros Hm Hf db h r db' out Hrun Hone.
  apply bind_inv in Hrun.
  destruct Hrun as [(x & Hrun & ->) | (a & db1 & out1 & out2 & Hrun1 & Hrun2 & ->)].
  - eapply Hm; eassumption.
  - rewrite count_events_app in Hone.
    destruct (count_events is_insert out1) eqn:E1.
    + destruct (Hf _ _ _ _ _ _ Hrun2) as [text Htext]; [lia|].
      exists text. apply Exists_app. now right.
    + destruct (Hm _ _ _ _ _ Hrun1) as [text Htext]; [lia|].
      exists text. apply Exists_app. now left.
Qed.

Lemma wf_try_except (label : string) (body : M A) :
  writes_follow_generation body -> writes_follow_generation (try_except label body).
Proof.
  unfold writes_follow_generation. intros Hb db h r db' out Hrun Hone.
  apply try_except_inv in Hrun.
  destruct Hrun as [(a & Hrun & ->) | (x & out1 & Hrun & -> & ->)].
  - eapply Hb; eassumption.
  - rewrite count_events_app in Hone.
    destruct (Hb _ _ _ _ _ Hrun) as [text Htext]; [cbn in Hone; lia|].
    exists text. apply Exists_app. now left.
Qed.

End WritesFollow.

(** Whatever follows a call of the agent follows its text. *)
Lemma wf_after_agent {B : Type} (E : env) (c : agent_call) (f : string -> M B) :
  writes_follow_generation (bind (call_agent E c) f).
Proof.
  intros db h r db' out Hrun Hone.
  apply bind_inv in Hrun.
  destruct Hrun as [(x & Hrun & ->) | (a & db1 & out1 & out2 & Hrun1 & Hrun2 & ->)].
  - injection Hrun as _ _ <-. cbn in Hone. lia.
  - injection Hrun1 as Ha _ <-. exists a. apply Exists_cons_hd.
    exists c. now rewrite Ha.
Qed.

Ltac writes_follow_tac :=
  repeat first
    [ apply wf_after_agent
    | apply wf_bind; [|intros]
    | apply wf_try_except
    | match goal with
      | |- writes_follow_generation (match ?x with _ => _ end) => destruct x
      end
    | apply wf_silent; emits_tac ].

Lemma wf_run_task (E : env) (t : task) : writes_follow_generation (run_task E t).
Proof.
  destruct t; cbn [run_task]; unfold_bodies;
    unfold add_research_session, save_analysis_result, add_document;
    writes_follow_tac.
Qed.

(** *** Nothing is rolled back *)

Lemma extends_refl (db : database) : extends db db.
Proof.
  repeat split; try reflexivity; exists []; now rewrite app_nil_r.
Qed.

Lemma extends_trans (db1 db2 db3 : database) :
  extends db1 db2 -> extends db2 db3 -> extends db1 db3.
Proof.
  intros (Hl1 & Hc1 & [d1 Hd1] & [s1 Hs1] & [a1 Ha1])
         (Hl2 & Hc2 & [d2 Hd2] & [s2 Hs2] & [a2 Ha2]).
  split; [congruence|]. split; [congruence|].
  split; [exists (d1 ++ d2)%list; now rewrite Hd2, Hd1, app_assoc|].
  split; [exists (s1 ++ s2)%list; now rewrite Hs2, Hs1, app_assoc|].
  exists (a1 ++ a2)%list. now rewrite Ha2, Ha1, app_assoc.
Qed.

Lemma extends_in (db db' : database) (table : string) (r : row) :
  extends db db' -> In r (table_rows table db) -> In r (table_rows table db').
Proof.
  intros (Hl & Hc & [d Hd] & [s Hs] & [a Ha]). unfold table_rows.
  repeat match goal with |- context [String.eqb ?x ?y] => destruct (String.eqb x y) end;
    try rewrite Hl; try rewrite Hc; try rewrite Hd; try rewrite Hs; try rewrite Ha;
    auto using in_or_app.
Qed.

Ltac no_accepted_write :=
  let table := fresh in let data := fresh in let new_id := fresh in
  let H := fresh in
  intros table data new_id H; cbn in H;
  repeat match goal with
         | H : _ \/ _ |- _ => destruct H as [H | H]
         end;
  solve [contradiction | discriminate].

Section Durable.
Context {A B : Type}.

Lemma du_ret (a : A) : durable (ret a).
Proof.
  intros db h r db' out [= <- <- <-]. split; [apply extends_refl | no_accepted_write].
Qed.

Lemma du_raise (x : exn) : durable (@raise A x).
Proof.
  intros db h r db' out [= <- <- <-]. split; [apply extends_refl | no_accepted_write].
Qed.

Lemma du_bind (m : M A) (f : A -> M B) :
  durable m -> (forall a, durable (f a)) -> durable (bind m f).
Proof.
  unfold durable. intros Hm Hf db h r db' out Hrun.
  apply bind_inv in Hrun.
  destruct Hrun as [(x & Hrun & ->) | (a & db1 & out1 & out2 & Hrun1 & Hrun2 & ->)].
  - exact (Hm _ _ _ _ _ Hrun).
  - destruct (Hm _ _ _ _ _ Hrun1) as [He1 Hin1].
    destruct (Hf _ _ _ _ _ _ Hrun2) as [He2 Hin2].
    split; [eapply extends_trans; eassumption|].
    intros table data new_id Hin. apply in_app_or in Hin. destruct Hin as [Hin | Hin].
    + eapply extends_in; [exact He2 | now apply Hin1].
    + now apply Hin2.
Qed.

Lemma du_try_except (label : string) (body : M A) :
  durable body -> durable (try_except label body).
Proof.
  unfold durable. intros Hb db h r db' out Hrun.
  apply try_except_inv in Hrun.
  destruct Hrun as [(a & Hrun & ->) | (x & out1 & Hrun & -> & ->)].
  - exact (Hb _ _ _ _ _ Hrun).
  - destruct (Hb _ _ _ _ _ Hrun) as [He Hin]. split; [exact He|].
    intros table data new_id H. apply in_app_or in H. destruct H as [H | H].
    + now apply Hin.
    + destruct H as [H | []]. discriminate H.
Qed.

End Durable.

Lemma du_log (lvl : level) (msg : string) : durable (log lvl msg).
Proof.
  intros db h r db' out [= <- <- <-]. split; [apply extends_refl | no_accepted_write].
Qed.

Lemma du_clock (E : env) : durable (clock E).
Proof.
  intros db h r db' out [= <- <- <-]. split; [apply extends_refl | no_accepted_write].
Qed.

Lemma du_select_by_id table rows key : durable (select_by_id table rows key).
Proof.
  intros db h r db' out [= <- <- <-]. split; [apply extends_refl | no_accepted_write].
Qed.

Lemma du_get_case_documents (E : env) key : durable (get_case_documents E key).
Proof.
  intros db h r db' out [= <- <- <-]. split; [apply extends_refl | no_accepted_write].
Qed.

Lemma du_call_agent (E : env) (c : agent_call) : durable (call_agent E c).
Proof.
  intros db h r db' out [= <- <- <-]. split; [apply extends_refl | no_accepted_write].
Qed.

Ltac durable_insert :=
  let db := fresh "db" in let h := fresh "h" in let r := fresh "r" in
  let db' := fresh "db'" in let out := fresh "out" in let Hrun := fresh "Hrun" in
  let msg := fresh "msg" in
  intros db h r db' out Hrun; apply execute_insert_inv in Hrun;
  destruct Hrun as [(msg & _ & -> & -> & ->) | (_ & -> & -> & ->)];
  [ split; [apply extends_refl | no_accepted_write]
  | split;
    [ repeat split; cbn; try reflexivity; try (eexists; reflexivity);
      exists []; now rewrite app_nil_r
    | let table := fresh in let data := fresh in let new_id := fresh in
      let H := fresh in
      intros table data new_id H; destruct H as [H | []];
      injection H as <- <- <-; cbn; apply in_or_app; right; now left ] ].

Lemma du_add_document (E : env) (data : row) : durable (add_document E data).
Proof. unfold add_document. durable_insert. Qed.

Lemma du_add_research_session (E : env) (data : row) :
  durable (add_research_session E data).
Proof. unfold add_research_session. durable_insert. Qed.

Lemma du_save_analysis_result (E : env) (data : row) :
  durable (save_analysis_result E data).
Proof. unfold save_analysis_result. durable_insert. Qed.

Ltac durable_tac :=
  repeat first
    [ apply du_bind; [|intros]
    | apply du_try_except
    | apply du_ret
    | apply du_raise
    | apply du_log
    | apply du_clock
    | apply du_call_agent
    | apply du_select_by_id
    | apply du_get_case_documents
    | apply du_add_document
    | apply du_add_research_session
    | apply du_save_analysis_result
    | match goal with
      | |- durable (match ?x with _ => _ end) => destruct x
      end ].

Lemma du_run_task (E : env) (t : task) : durable (run_task E t).
Proof. destruct t; cbn [run_task]; unfold_bodies; durable_tac. Qed.

Lemma du_analyze_each (E : env) (lawyer_id : Z) (docs : list row) :
  forall acc, durable (analyze_each E lawyer_id docs acc).
Proof.
  induction docs as [|doc rest IH]; intros acc; cbn [analyze_each].
  - apply du_ret.
  - destruct (is_contract_document doc); [|apply IH].
    apply du_bind; [|intros; apply IH].
    exact (du_run_task E (AnalyzeContract lawyer_id (document_id doc) [])).
Qed.

Lemma du_comprehensive_case_analysis (E : env) (lawyer_id case_id : Z) :
  durable (comprehensive_case_analysis E lawyer_id case_id).
Proof.
  unfold comprehensive_case_analysis, analyze_case_documents.
  unfold get_case_by_id, attr_get.
  repeat first
    [ exact (du_run_task E (ResearchCaseLaw lawyer_id _))
    | exact (du_run_task E (DevelopLitigationStrategy lawyer_id case_id _))
    | apply du_analyze_each
    | apply du_bind; [|intros]
    | apply du_try_except
    | apply du_ret
    | apply du_raise
    | apply du_log
    | apply du_select_by_id
    | apply du_get_case_documents
    | match goal with
      | |- durable (match ?x with _ => _ end) => destruct x
      end ].
Qed.

(** *** The text a task returns *)

Ltac invert_ok :=
  repeat first
    [ invert_run
    | match goal with
      | H : (match ?x with _ => _ end) _ _ = (_, _, _) |- _ => destruct x eqn:?
      end ];
  subst.

Ltac agent_event :=
  cbn [Datatypes.app];
  repeat first
    [ apply Exists_cons_hd; eexists; f_equal; eassumption
    | apply Exists_cons_tl
    | apply Exists_app; right ].

Lemma returned_text_is_agent_text (E : env) (t : task) db h text db' out :
  run_task E t db h = (Ok text, db', out) ->
  Exists (agent_returned text) out.
Proof.
  intros Hrun.
  destruct t; cbn [run_task] in Hrun;
    unfold research_case_law, analyze_contract, assess_compliance,
      draft_legal_document, develop_litigation_strategy,
      get_lawyer_by_id, get_case_by_id, get_document_by_id,
      add_research_session, save_analysis_result, add_document,
      require_row, attr_get, slice_prefix in Hrun;
    invert_ok;
    repeat match goal with
           | H : Ok _ = Ok _ |- _ => injection H as ->
           end;
    agent_event.
Qed.

(** *** One generation and one write per task *)

Lemma agent_event_counts (P : event -> Prop) (out : list event) :
  (forall e, P e -> is_agent_call e = true) ->
  Exists P out -> (1 <= count_events is_agent_call out)%nat.
Proof.
  intros HP. induction 1 as [e out' He | e out' _ IH]; unfold count_events in *; cbn.
  - rewrite (HP e He). cbn. lia.
  - destruct (is_agent_call e); cbn; lia.
Qed.

Lemma agent_returned_counts (text : string) (out : list event) :
  Exists (agent_returned text) out -> (1 <= count_events is_agent_call out)%nat.
Proof. apply agent_event_counts. now intros e (c & ->). Qed.

Lemma agent_failed_counts (err : exn) (out : list event) :
  Exists (agent_failed err) out -> (1 <= count_events is_agent_call out)%nat.
Proof. apply agent_event_counts. now intros e (c & ->). Qed.

Lemma failed_and_returned_are_two_calls (e : exn) (text : string) (out : list event) :
  Exists (agent_failed e) out -> Exists (agent_returned text) out ->
  (2 <= count_events is_agent_call out)%nat.
Proof.
  induction out as [|ev out' IH]; intros Hf Hr; [inversion Hf|].
  inversion Hf as [? ? (c & Hc) | ? ? Hf']; inversion Hr as [? ? (c' & Hc') | ? ? Hr']; subst.
  - discriminate Hc'.
  - apply agent_returned_counts in Hr'. unfold count_events in *. cbn. lia.
  - apply agent_failed_counts in Hf'. unfold count_events in *. cbn. lia.
  - specialize (IH Hf' Hr'). unfold count_events in *. cbn.
    destruct (is_agent_call ev); cbn; lia.
Qed.

(** X16: every task operation (case-law research, contract analysis,
    compliance assessment, drafting, litigation strategy) calls an agent at
    most once and attempts at most one write, and never a write without a call
    before it.  When the operation returns, it made exactly one call and
    exactly one write, and what it returns is the text of that call. *)
Theorem task_generates_once_and_writes_once
    (E : env) (t : task) (db : database) (h : list event) :
  let run := run_task E t db h in
  (count_events is_insert (snd run) <= count_events is_agent_call (snd run) <= 1)%nat /\
  forall text, fst (fst run) = Ok text ->
    count_events is_agent_call (snd run) = 1%nat /\
    count_events is_insert (snd run) = 1%nat /\
    Exists (agent_returned text) (snd run).
Proof.
  cbv zeta. destruct (run_task E t db h) as [[r db'] out] eqn:Hrun. cbn [fst snd].
  destruct (em_run_task_agent E t _ _ _ _ _ Hrun) as [Hagent Hagent_ok].
  destruct (em_run_task_insert E t _ _ _ _ _ Hrun) as [Hinsert Hinsert_ok].
  split.
  - split; [|exact Hagent].
    destruct (count_events is_insert out) as [|n] eqn:Hn; [lia|].
    destruct (wf_run_task E t _ _ _ _ _ Hrun) as [text Htext]; [lia|].
    apply agent_returned_counts in Htext. lia.
  - intros text ->. repeat split; eauto.
    exact (returned_text_is_agent_text E t _ _ _ _ _ Hrun).
Qed.

(** X17: when the agent's call fails inside a task operation, the operation
    raises the agent's error to its caller, logs it under the operation's
    label as the last thing it does, attempts no write and leaves the
    database as it found it. *)
Theorem failed_generation_writes_nothing
    (E : env) (t : task) (db : database) (h : list event)
    (r : result string) (db' : database) (out : list event) (e : exn)
    (Hrun : run_task E t db h = (r, db', out))
    (Hfailed : Exists (agent_failed e) out) :
  r = Raise e /\
  count_events is_insert out = 0%nat /\
  db' = db /\
  exists out0, out = (out0 ++ [Log ERROR (task_label t ++ exn_str e)])%list.
Proof.
  assert (Hr : r = Raise e) by exact (ae_run_task E t _ _ _ _ _ _ Hrun Hfailed).
  assert (Hnone : count_events is_insert out = 0%nat).
  { destruct (count_events is_insert out) as [|n] eqn:Hn; [reflexivity|].
    destruct (wf_run_task E t _ _ _ _ _ Hrun) as [text Htext]; [lia|].
    pose proof (failed_and_returned_are_two_calls _ _ _ Hfailed Htext) as Htwo.
    destruct (em_run_task_agent E t _ _ _ _ _ Hrun) as [Hone _]. lia. }
  split; [exact Hr|]. split; [exact Hnone|].
  split; [exact (cw_run_task E t _ _ _ _ _ Hrun Hnone)|].
  subst r. exact (failed_task_is_logged E t _ _ _ _ _ Hrun).
Qed.

(** Case-law research for a known lawyer while no agent answers. *)
Lemma failed_generation_for_research :
  let run := run_task Examples.env_agent_down Examples.research_task Examples.db0 [] in
  fst (fst run) = Raise (AgentError "model unavailable") /\
  snd (fst run) = Examples.db0 /\
  count_events is_insert (snd run) = 0%nat.
Proof.
  cbv zeta.
  destruct (run_task Examples.env_agent_down Examples.research_task Examples.db0 [])
    as [[r db'] out] eqn:Hrun.
  cbn [fst snd].
  refine (match failed_generation_writes_nothing _ _ _ _ _ _ _
                  (AgentError "model unavailable") Hrun _ with
          | conj Hr (conj Hn (conj Hd _)) => conj Hr (conj Hd Hn)
          end).
  vm_compute in Hrun. injection Hrun as <- <- <-.
  repeat first [ apply Exists_cons_hd; eexists; reflexivity | apply Exists_cons_tl ].
Defined.

(** X18: the comprehensive analysis is not a transaction.  Whether it
    returns or fails, the database it leaves extends the one it started
    from (no lawyer or case is touched, no stored row is changed or removed),
    and the row of every write that was accepted along the way is in its
    table: the research session and the analyses of the steps that completed
    stay when a later step fails. *)
Theorem completed_steps_survive_a_later_failure
    (E : env) (lawyer_id case_id : Z) (db : database) (h : list event)
    (r : result analysis_bundle) (db' : database) (out : list event)
    (Hrun : comprehensive_case_analysis E lawyer_id case_id db h = (r, db', out)) :
  extends db db' /\
  forall table data new_id,
    In (Insert table data (Ok new_id)) out ->
    In (dict_set data "id" (VInt new_id)) (table_rows table db').
Proof. exact (du_comprehensive_case_analysis E lawyer_id case_id _ _ _ _ _ Hrun). Qed.

(** The litigation agent fails after the research step has completed: the
    analysis fails and the research session stays. *)
Lemma research_session_survives_failed_strategy :
  let run := comprehensive_case_analysis Examples.env_strategy_down 1 10 Examples.db0 [] in
  fst (fst run) = Raise (AgentError "model unavailable") /\
  List.length (research_sessions (snd (fst run))) = 1%nat /\
  extends Examples.db0 (snd (fst run)).
Proof.
  cbv zeta.
  destruct (comprehensive_case_analysis Examples.env_strategy_down 1 10 Examples.db0 [])
    as [[r db'] out] eqn:Hrun.
  cbn [fst snd].
  pose proof (proj1 (completed_steps_survive_a_later_failure _ _ _ _ _ _ _ _ Hrun))
    as Hext.
  vm_compute in Hrun. injection Hrun as <- <- <-.
  split; [reflexivity|]. split; [reflexivity|]. exact Hext.
Defined.

(** *** What a comprehensive analysis costs *)

Section Between.
Variable p : event -> bool.
Hypothesis p_log : forall lvl msg, p (Log lvl msg) = false.
Hypothesis p_select : forall t c k, p (Select t c k) = false.
Hypothesis p_task : forall E t, emits p 1 (run_task E t).

Lemma eb_of_emits {A : Type} (k : nat) (m : M A) :
  emits p k m -> emits_between p k k m.
Proof.
  intros Hm db h r db' out Hrun. destruct (Hm _ _ _ _ _ Hrun) as [Hle Heq].
  split; [exact Hle|]. intros a Ha. rewrite (Heq a Ha). apply le_n.
Qed.

Lemma eb_bind {A B : Type} (lo1 hi1 lo2 hi2 lo hi : nat) (m : M A) (f : A -> M B) :
  emits_between p lo1 hi1 m -> (forall x, emits_between p lo2 hi2 (f x)) ->
  (lo <= lo1 + lo2)%nat -> (hi1 + hi2 <= hi)%nat ->
  emits_between p lo hi (bind m f).
Proof.
  unfold emits_between. intros Hm Hf Hlo Hhi db h r db' out Hrun.
  apply bind_inv in Hrun.
  destruct Hrun as [(e & Hrun & ->) | (x & db1 & out1 & out2 & H1 & H2 & ->)].
  - destruct (Hm _ _ _ _ _ Hrun) as [Hle _]. split; [lia | discriminate].
  - destruct (Hm _ _ _ _ _ H1) as [Hle1 Hge1]. specialize (Hge1 x eq_refl).
    destruct (Hf _ _ _ _ _ _ H2) as [Hle2 Hge2].
    rewrite count_events_app. split; [lia|].
    intros y Hy. specialize (Hge2 y Hy). lia.
Qed.

Lemma eb_try_except {A : Type} (lo hi : nat) (label : string) (body : M A) :
  emits_between p lo hi body -> emits_between p lo hi (try_except label body).
Proof.
  unfold emits_between. intros Hb db h r db' out Hrun.
  apply try_except_inv in Hrun.
  destruct Hrun as [(a & Hrun & ->) | (e & out1 & Hrun & -> & ->)].
  - exact (Hb _ _ _ _ _ Hrun).
  - destruct (Hb _ _ _ _ _ Hrun) as [Hle _].
    rewrite count_events_app. unfold count_events at 2. cbn. rewrite p_log. cbn.
    split; [lia | discriminate].
Qed.

(** A step that emits nothing of the kind. *)
Ltac quiet :=
  apply eb_of_emits;
  first [ apply em_ret
        | apply em_raise
        | apply em_log; exact p_log
        | apply em_select_by_id; exact p_select
        | apply em_get_case_documents; exact p_select ].

Ltac after_quiet lo hi :=
  apply (eb_bind 0 0 lo hi lo hi); [quiet | intros | apply le_n | apply le_n].

Lemma eb_analyze_each (E : env) (lawyer_id : Z) (docs : list row) :
  forall acc,
    emits_between p 0 (List.length docs) (analyze_each E lawyer_id docs acc).
Proof.
  induction docs as [|doc rest IH]; intros acc; cbn [analyze_each List.length].
  - quiet.
  - destruct (is_contract_document doc).
    + apply (eb_bind 1 1 0 (List.length rest) 0 (S (List.length rest)));
        [|intros; apply IH | lia | lia].
      apply eb_of_emits.
      exact (p_task E (AnalyzeContract lawyer_id (document_id doc) [])).
    + intros db h r db' out Hrun. destruct (IH acc _ _ _ _ _ Hrun) as [Hle _].
      split; [lia|]. intros; lia.
Qed.

Lemma eb_analyze_case_documents (E : env) (lawyer_id : Z) (documents : list row) :
  emits_between p 0 3 (analyze_case_documents E lawyer_id documents).
Proof.
  unfold analyze_case_documents. destruct documents as [|doc rest].
  - intros db h r db' out [= <- <- <-]. cbn. split; [lia|]. intros; lia.
  - after_quiet 0%nat 3%nat.
    apply (eb_bind 0 3 0 0 0 3); [|intros; quiet | lia | lia].
    intros db h r db' out Hrun.
    destruct (eb_analyze_each E lawyer_id _ _ _ _ _ _ _ Hrun) as [Hle _].
    pose proof (firstn_le_length 3 (doc :: rest)).
    split; [lia|]. intros; lia.
Qed.

Lemma eb_comprehensive_case_analysis (E : env) (lawyer_id case_id : Z) :
  emits_between p 2 5 (comprehensive_case_analysis E lawyer_id case_id).
Proof.
  unfold comprehensive_case_analysis, get_case_by_id.
  after_quiet 2%nat 5%nat. apply eb_try_except.
  after_quiet 2%nat 5%nat. after_quiet 2%nat 5%nat.
  apply (eb_bind 0 0 2 5 2 5);
    [unfold attr_get; match goal with |- context [match ?c with _ => _ end] => destruct c end; quiet | intros | apply le_n | apply le_n].
  apply (eb_bind 0 0 2 5 2 5);
    [unfold attr_get; match goal with |- context [match ?c with _ => _ end] => destruct c end; quiet | intros | apply le_n | apply le_n].
  apply (eb_bind 1 1 1 4 2 5);
    [apply eb_of_emits; exact (p_task E (ResearchCaseLaw lawyer_id _))
    | intros | apply le_n | apply le_n].
  after_quiet 1%nat 4%nat.
  apply (eb_bind 1 1 0 3 1 4);
    [apply eb_of_emits;
     exact (p_task E (DevelopLitigationStrategy lawyer_id case_id []))
    | intros | apply le_n | apply le_n].
  after_quiet 0%nat 3%nat.
  apply (eb_bind 0 3 0 0 0 3);
    [apply eb_analyze_case_documents | intros | apply le_n | apply le_n].
  after_quiet 0%nat 0%nat. quiet.
Qed.

End Between.

(** X19: a comprehensive analysis makes at most five calls of an agent and
    attempts at most five writes, whatever the case and however many
    documents it has; when it returns it made at least two of each (the
    research and the strategy). *)
Theorem comprehensive_analysis_cost
    (E : env) (lawyer_id case_id : Z) (db : database) (h : list event) :
  let run := comprehensive_case_analysis E lawyer_id case_id db h in
  (count_events is_agent_call (snd run) <= 5)%nat /\
  (count_events is_insert (snd run) <= 5)%nat /\
  forall bundle, fst (fst run) = Ok bundle ->
    (2 <= count_events is_agent_call (snd run))%nat /\
    (2 <= count_events is_insert (snd run))%nat.
Proof.
  cbv zeta.
  destruct (comprehensive_case_analysis E lawyer_id case_id db h)
    as [[r db'] out] eqn:Hrun.
  cbn [fst snd].
  destruct (eb_comprehensive_case_analysis is_agent_call
              (fun _ _ => eq_refl) (fun _ _ _ => eq_refl) em_run_task_agent
              E lawyer_id case_id _ _ _ _ _ Hrun) as [Hcalls Hcalls_ok].
  destruct (eb_comprehensive_case_analysis is_insert
              (fun _ _ => eq_refl) (fun _ _ _ => eq_refl) em_run_task_insert
              E lawyer_id case_id _ _ _ _ _ Hrun) as [Hwrites Hwrites_ok].
  split; [exact Hcalls|]. split; [exact Hwrites|].
  intros bundle ->. split; [eapply Hcalls_ok | eapply Hwrites_ok]; reflexivity.
Qed.

(** *** Lookups that find nothing *)

(** X20: for a case that is not in the database the two operations on a case
    fail differently.  The litigation strategy raises "Case with ID ... not
    found"; the comprehensive analysis raises the attribute error of [None],
    since it reads the case without checking it.  Both fail after the one
    lookup: no agent is called and nothing is written. *)
Theorem unknown_case_fails_in_two_ways
    (E : env) (lawyer_id case_id : Z) (kwargs : dict pyval)
    (db : database) (h : list event)
    (Hunknown : find (column_is "id" (VInt case_id)) (cases db) = None) :
  develop_litigation_strategy E lawyer_id case_id kwargs db h
  = (Raise (case_not_found case_id), db,
     [Log INFO ("Developing litigation strategy for case " ++ str_of_int case_id);
      Select "cases" "id" (VInt case_id);
      Log ERROR ("Litigation strategy development failed: "
                 ++ exn_str (case_not_found case_id))]) /\
  comprehensive_case_analysis E lawyer_id case_id db h
  = (Raise (AttributeError "'NoneType' object has no attribute 'get'"), db,
     [Log INFO ("Starting comprehensive analysis for case " ++ str_of_int case_id);
      Select "cases" "id" (VInt case_id);
      Log INFO "Running case law research...";
      Log ERROR "Comprehensive analysis failed: 'NoneType' object has no attribute 'get'"]).
Proof.
  split.
  - unfold develop_litigation_strategy, get_case_by_id, select_by_id, bind,
      try_except, log, emit.
    rewrite Hunknown. reflexivity.
  - unfold comprehensive_case_analysis, get_case_by_id, select_by_id, bind,
      try_except, log, emit.
    rewrite Hunknown. reflexivity.
Qed.

Lemma unknown_case_11 :
  fst (fst (develop_litigation_strategy Examples.env_ok 1 11 [] Examples.db0 []))
  = Raise (ValueError "Case with ID 11 not found") /\
  fst (fst (comprehensive_case_analysis Examples.env_ok 1 11 Examples.db0 []))
  = Raise (AttributeError "'NoneType' object has no attribute 'get'").
Proof.
  destruct (unknown_case_fails_in_two_ways Examples.env_ok 1 11 [] Examples.db0 []
              eq_refl) as [-> ->].
  split; reflexivity.
Defined.

(** The document types the drafting operation knows. *)
Lemma drafting_method_none (document_type : string) :
  drafting_method document_type = None <->
  ~ In document_type ["memo"; "motion"; "demand_letter"; "contract_clause"]%string.
Proof.
  unfold drafting_method.
  destruct (String.eqb_spec document_type "memo") as [-> | H1];
    [split; [discriminate | intros H; exfalso; apply H; cbn; auto]|].
  destruct (String.eqb_spec document_type "motion") as [-> | H2];
    [split; [discriminate | intros H; exfalso; apply H; cbn; auto]|].
  destruct (String.eqb_spec document_type "demand_letter") as [-> | H3];
    [split; [discriminate | intros H; exfalso; apply H; cbn; auto]|].
  destruct (String.eqb_spec document_type "contract_clause") as [-> | H4];
    [split; [discriminate | intros H; exfalso; apply H; cbn; auto]|].
  split; [|reflexivity].
  intros _ [H | [H | [H | [H | []]]]]; congruence.
Qed.

(** X21: a document type other than memo, motion, demand_letter and
    contract_clause is refused before anything happens: the drafting
    operation raises "Unsupported document type: ..." without calling the
    agent, reading the clock or writing, and logs the refusal.  The type is
    compared as it is, so "Memo" is refused too. *)
Theorem unsupported_document_type_is_refused
    (E : env) (lawyer_id : Z) (document_type : string) (kwargs : dict pyval)
    (db : database) (h : list event)
    (Hother : ~ In document_type
                ["memo"; "motion"; "demand_letter"; "contract_clause"]%string) :
  draft_legal_document E lawyer_id document_type kwargs db h
  = (Raise (ValueError ("Unsupported document type: " ++ document_type)), db,
     [Log INFO ("Drafting " ++ document_type ++ " for lawyer "
                ++ str_of_int lawyer_id);
      Log ERROR ("Document drafting failed: Unsupported document type: "
                 ++ document_type)]).
Proof.
  apply drafting_method_none in Hother.
  unfold draft_legal_document, bind, try_except, log, emit.
  rewrite Hother. reflexivity.
Qed.

Lemma capitalised_memo_is_refused :
  fst (fst (draft_legal_document Examples.env_ok 1 "Memo" [] Examples.db0 []))
  = Raise (ValueError "Unsupported document type: Memo").
Proof.
  rewrite (unsupported_document_type_is_refused Examples.env_ok 1 "Memo" []
             Examples.db0 []).
  - reflexivity.
  - apply drafting_method_none. reflexivity.
Defined.

(** *** Following an operation step by step *)

Section Ensures.
Context {A B : Type}.

Lemma en_ret (db : database) (a : A) Q : Q (Ok a) db [] -> ensures db (ret a) Q.
Proof. now intros HQ h r db' out [= <- <- <-]. Qed.

Lemma en_raise (db : database) (e : exn) Q :
  Q (Raise e) db [] -> ensures db (@raise A e) Q.
Proof. now intros HQ h r db' out [= <- <- <-]. Qed.

Lemma en_bind (db : database) (m : M A) (f : A -> M B) Q :
  ensures db m
    (fun r db1 out1 =>
       match r with
       | Ok a => ensures db1 (f a) (fun r2 db2 out2 => Q r2 db2 (out1 ++ out2)%list)
       | Raise e => Q (Raise e) db1 out1
       end) ->
  ensures db (bind m f) Q.
Proof.
  intros Hm h r db' out Hrun. apply bind_inv in Hrun.
  destruct Hrun as [(e & Hrun & ->) | (a & db1 & out1 & out2 & H1 & H2 & ->)].
  - exact (Hm _ _ _ _ Hrun).
  - exact (Hm _ _ _ _ H1 _ _ _ _ H2).
Qed.

Lemma en_try_except (db : database) (label : string) (body : M A) Q :
  ensures db body
    (fun r db1 out1 =>
       match r with
       | Ok a => Q (Ok a) db1 out1
       | Raise e => Q (Raise e) db1 (out1 ++ [Log ERROR (label ++ exn_str e)])%list
       end) ->
  ensures db (try_except label body) Q.
Proof.
  intros Hb h r db' out Hrun. apply try_except_inv in Hrun.
  destruct Hrun as [(a & Hrun & ->) | (e & out1 & Hrun & -> & ->)];
    exact (Hb _ _ _ _ Hrun).
Qed.

End Ensures.

Lemma en_log (db : database) (lvl : level) (msg : string) Q :
  Q (Ok tt) db [Log lvl msg] -> ensures db (log lvl msg) Q.
Proof. now intros HQ h r db' out [= <- <- <-]. Qed.

Lemma en_clock (E : env) (db : database) Q :
  (forall today, Q (Ok today) db []) -> ensures db (clock E) Q.
Proof. intros HQ h r db' out [= <- <- <-]. apply HQ. Qed.

Lemma en_select_by_id (db : database) table rows key Q :
  Q (Ok (find (column_is "id" key) (rows db))) db [Select table "id" key] ->
  ensures db (select_by_id table rows key) Q.
Proof. now intros HQ h r db' out [= <- <- <-]. Qed.

Lemma en_call_agent (E : env) (db : database) (c : agent_call) Q :
  (forall outcome, Q outcome db [AgentCall c outcome]) ->
  ensures db (call_agent E c) Q.
Proof. intros HQ h r db' out [= <- <- <-]. apply HQ. Qed.

Lemma en_execute_insert (E : env) (db : database) table rows store data Q :
  (forall msg,
      Q (Raise (DatabaseError msg)) db
        [Insert table data (Raise (DatabaseError msg));
         Log ERROR ("Database error: " ++ msg)]) ->
  Q (Ok (next_id (rows db)))
    (store db (rows db ++ [dict_set data "id" (VInt (next_id (rows db)))])%list)
    [Insert table data (Ok (next_id (rows db)))] ->
  ensures db (execute_insert E table rows store data) Q.
Proof.
  intros Hfault Hok h r db' out Hrun. apply execute_insert_inv in Hrun.
  destruct Hrun as [(msg & _ & -> & -> & ->) | (_ & -> & -> & ->)];
    [apply Hfault | exact Hok].
Qed.

(** Walks through an operation; what is left is the property at the end of
    each of its paths. *)
Ltac walk :=
  repeat
    match goal with
    | |- ensures _ (bind _ _) _ => apply en_bind
    | |- ensures _ (try_except _ _) _ => apply en_try_except
    | |- ensures _ (ret _) _ => apply en_ret
    | |- ensures _ (raise _) _ => apply en_raise
    | |- ensures _ (log _ _) _ => apply en_log
    | |- ensures _ (select_by_id _ _ _) _ => apply en_select_by_id
    | |- ensures _ (clock _) _ => apply en_clock; intros ?
    | |- ensures _ (call_agent _ _) _ => apply en_call_agent; intros [?|?]
    | |- ensures _ (execute_insert _ _ _ _ _) _ =>
        apply en_execute_insert; [intros ?|]
    | |- ensures _ (require_row ?x _) _ => unfold require_row
    | |- ensures _ (slice_prefix _ ?x) _ => unfold slice_prefix
    | |- ensures _ (attr_get ?x _) _ => unfold attr_get
    | |- ensures _ (match ?x with _ => _ end) _ => destruct x eqn:?
    | |- ensures _ (if ?x then _ else _) _ => destruct x eqn:?
    | |- _ => progress cbv beta iota
    end.

(** *** What the research agent is given *)

Ltac the_agent_call H :=
  unfold agent_inputs in H; cbn [flat_map Datatypes.app In] in H;
  repeat match type of H with
         | _ \/ _ => destruct H as [H | H]
         | False => destruct H
         end;
  try subst.

(** ['k' in kwargs and kwargs['k']] is the truthiness of [kwargs.get('k')]. *)
Lemma guard_is_truthiness (kwargs : dict pyval) (k : string) :
  dict_contains kwargs k && truthy (get_none kwargs k) = truthy (get_none kwargs k).
Proof.
  unfold dict_contains, get_none, get. now destruct (dict_get kwargs k).
Qed.

Lemma research_run_inv (E : env) (lawyer_id : Z) (kwargs : dict pyval)
    (db : database) (c : agent_call) :
  ensures db (research_case_law E lawyer_id kwargs)
    (fun r db' out =>
  In c (agent_inputs out) ->
  exists lawyer data,
    c = research_precedents data /\
    lookup_lawyer db lawyer_id = Some lawyer /\
    dict_keys data = ["legal_issue"; "jurisdiction"; "practice_area";
                      "current_facts"; "precedents"]%string /\
    get_none data "legal_issue" = get_none kwargs "legal_issue" /\
    get_none data "jurisdiction"
    = get kwargs "jurisdiction" (get lawyer "jurisdiction" (VStr "Not specified")) /\
    get_none data "practice_area"
    = get kwargs "practice_area" (get lawyer "practice_areas" (VStr "General")) /\
    get_none data "precedents" = get kwargs "precedents" (VList []) /\
    ((get_none data "current_facts" = get_none kwargs "current_facts" /\
      (truthy (get_none kwargs "case_id") = false \/
       find (column_is "id" (get_none kwargs "case_id")) (cases db) = None \/
       find (column_is "id" (get_none kwargs "case_id")) (cases db) = Some [])) \/
     exists kv case,
       truthy (get_none kwargs "case_id") = true /\
       find (column_is "id" (get_none kwargs "case_id")) (cases db)
       = Some (kv :: case) /\
       get_none data "current_facts" = get_none (kv :: case) "case_summary") /\
    (get_none kwargs "legal_issue" = VNone ->
     count_events is_insert out = 0%nat /\
     (r = Raise (TypeError "'NoneType' object is not subscriptable") \/
      exists e, r = Raise e /\ Exists (agent_failed e) out))).
Proof.
  match goal with
  | |- ensures _ _ ?P => set (Q := P)
  end.
  unfold research_case_law, get_lawyer_by_id, get_case_by_id, add_research_session.
  rewrite guard_is_truthiness.
  walk; subst Q; cbv beta; intros Hcall; the_agent_call Hcall;
    try match goal with
        | H : get _ "legal_issue" _ = ?v |- _ =>
            change (get_none kwargs "legal_issue" = v) in H
        end;
    (unfold lookup_lawyer; do 2 eexists; split; [reflexivity|];
     split; [eassumption|]);
    repeat (split; [reflexivity|]);
    (split;
     [ first
         [ right; do 2 eexists; split; [reflexivity | split; reflexivity]
         | left; split; [reflexivity | auto] ]
     | let Hnone := fresh in
       intros Hnone;
       first
         [ congruence
         | split; [reflexivity|];
           first
             [ left; reflexivity
             | right; eexists; split; [reflexivity|];
               cbn [Datatypes.app];
               repeat first [ apply Exists_cons_hd; eexists; reflexivity
                            | apply Exists_cons_tl ] ] ] ]).
Qed.

Lemma agent_inputs_app (a b : list event) :
  agent_inputs (a ++ b) = (agent_inputs a ++ agent_inputs b)%list.
Proof. apply flat_map_app. Qed.

Lemma returned_call_is_an_input (text : string) (out : list event) :
  Exists (agent_returned text) out -> exists c, In c (agent_inputs out).
Proof.
  induction 1 as [e out' (c & ->) | e out' _ (c & Hc)].
  - exists c. now left.
  - exists c. change (e :: out') with ([e] ++ out')%list.
    rewrite agent_inputs_app. apply in_or_app. now right.
Qed.

(** X22: what case-law research hands to the agent.  The one call it makes
    is for a lawyer that exists, with the five keys of the research data.  The
    legal issue is the caller's; jurisdiction and practice area are the
    caller's when the caller passed the key (even with [None]) and come from
    the lawyer's profile only when the key is absent; and when the caller
    names a case that exists, the summary of that case replaces whatever facts
    the caller passed. *)
Theorem research_agent_input
    (E : env) (lawyer_id : Z) (kwargs : dict pyval) (db : database)
    (h : list event) (r : result string) (db' : database) (out : list event)
    (data : dict pyval)
    (Hrun : research_case_law E lawyer_id kwargs db h = (r, db', out))
    (Hcall : In (research_precedents data) (agent_inputs out)) :
  exists lawyer,
    lookup_lawyer db lawyer_id = Some lawyer /\
    dict_keys data = ["legal_issue"; "jurisdiction"; "practice_area";
                      "current_facts"; "precedents"]%string /\
    get_none data "legal_issue" = get_none kwargs "legal_issue" /\
    get_none data "jurisdiction"
    = get kwargs "jurisdiction" (get lawyer "jurisdiction" (VStr "Not specified")) /\
    get_none data "practice_area"
    = get kwargs "practice_area" (get lawyer "practice_areas" (VStr "General")) /\
    get_none data "precedents" = get kwargs "precedents" (VList []) /\
    ((get_none data "current_facts" = get_none kwargs "current_facts" /\
      (truthy (get_none kwargs "case_id") = false \/
       find (column_is "id" (get_none kwargs "case_id")) (cases db) = None \/
       find (column_is "id" (get_none kwargs "case_id")) (cases db) = Some [])) \/
     exists kv case,
       truthy (get_none kwargs "case_id") = true /\
       find (column_is "id" (get_none kwargs "case_id")) (cases db)
       = Some (kv :: case) /\
       get_none data "current_facts" = get_none (kv :: case) "case_summary").
Proof.
  destruct (research_run_inv E lawyer_id kwargs db _ _ _ _ _ Hrun Hcall)
    as (lawyer & data' & [= <-] & Hlawyer & Hkeys & Hissue & Hj & Hp & Hprec & Hfacts & _).
  exists lawyer. auto 10.
Qed.

(** The caller passes facts and names case 10: the agent gets the summary of
    the case, and the jurisdiction of the lawyer's profile. *)
Lemma research_agent_input_for_case_10 :
  let kwargs := [("legal_issue", VStr "breach of contract");
                 ("current_facts", VStr "facts of the caller");
                 ("case_id", VInt 10)]%string in
  let run := research_case_law Examples.env_ok 1 kwargs Examples.db0 [] in
  exists data,
    In (research_precedents data) (agent_inputs (snd run)) /\
    get_none data "current_facts" = VStr "Supply agreement dispute" /\
    get_none data "jurisdiction" = VStr "Federal".
Proof.
  cbv zeta.
  destruct (research_case_law Examples.env_ok 1
              [("legal_issue", VStr "breach of contract");
               ("current_facts", VStr "facts of the caller");
               ("case_id", VInt 10)]%string Examples.db0 [])
    as [[r db'] out] eqn:Hrun.
  cbn [snd].
  assert (Hcall : exists data, In (research_precedents data) (agent_inputs out)).
  { vm_compute in Hrun. injection Hrun as <- <- <-. eexists. left. reflexivity. }
  destruct Hcall as [data Hcall]. exists data. split; [exact Hcall|].
  destruct (research_agent_input _ _ _ _ _ _ _ _ _ Hrun Hcall)
    as (lawyer & Hlawyer & _ & _ & Hj & _ & _ & Hfacts).
  injection Hlawyer as <-.
  split; [|exact Hj].
  destruct Hfacts as [[_ [H | [H | H]]] | (kv & case & _ & Hcase & H)];
    try discriminate H.
  injection Hcase as <- <-. exact H.
Defined.

(** X23: case-law research without a legal issue (the key absent, or
    [None]) never returns, whatever the agent and the database do: the run
    raises, the handler of the operation logs the error last, no write is
    attempted and the database is left as it was. *)
Theorem research_without_legal_issue_never_returns
    (E : env) (lawyer_id : Z) (kwargs : dict pyval) (db : database)
    (h : list event) (r : result string) (db' : database) (out : list event)
    (Hrun : research_case_law E lawyer_id kwargs db h = (r, db', out))
    (Hnone : get_none kwargs "legal_issue" = VNone) :
  (exists e out0,
      r = Raise e /\
      out = (out0 ++ [Log ERROR ("Case law research failed: " ++ exn_str e)])%list) /\
  count_events is_insert out = 0%nat /\
  db' = db.
Proof.
  pose (t := ResearchCaseLaw lawyer_id kwargs).
  change (run_task E t db h = (r, db', out)) in Hrun.
  assert (Hcalled : forall text, Exists (agent_returned text) out ->
            count_events is_insert out = 0%nat /\
            r = Raise (TypeError "'NoneType' object is not subscriptable")).
  { intros text Htext.
    destruct (returned_call_is_an_input _ _ Htext) as [c Hc].
    destruct (research_run_inv E lawyer_id kwargs db c _ _ _ _ Hrun Hc)
      as (_ & _ & _ & _ & _ & _ & _ & _ & _ & _ & Hend).
    destruct (Hend Hnone) as [Hzero [Hr | (e & Hr & Hfailed)]]; [now split|].
    pose proof (failed_and_returned_are_two_calls _ _ _ Hfailed Htext) as Htwo.
    destruct (em_run_task_agent E t _ _ _ _ _ Hrun) as [Hone _]. lia. }
  assert (Hzero : count_events is_insert out = 0%nat).
  { destruct (count_events is_insert out) as [|n] eqn:Hn; [reflexivity|].
    destruct (wf_run_task E t _ _ _ _ _ Hrun) as [text Htext]; [lia|].
    destruct (Hcalled text Htext) as [Hz _]. congruence. }
  split; [|split; [exact Hzero|]].
  - destruct r as [text | e].
    + pose proof (returned_text_is_agent_text E t _ _ _ _ _ Hrun) as Htext.
      destruct (Hcalled text Htext) as [_ Hr]. discriminate Hr.
    + destruct (failed_task_is_logged E t _ _ _ _ _ Hrun) as [out0 Hout].
      exists e, out0. split; [reflexivity | exact Hout].
  - exact (cw_run_task E t _ _ _ _ _ Hrun Hzero).
Qed.

(** Research for lawyer 1 with a jurisdiction and no legal issue, with the
    agent that slices the legal issue for its log line: the agent call
    fails, nothing is written and the operation raises the agent's error. *)
Lemma research_for_a_jurisdiction_only :
  let run :=
    research_case_law Examples.env_research_logs_issue 1
      [("jurisdiction", VStr "Federal")]%string Examples.db0 [] in
  fst (fst run) = Raise (TypeError "'NoneType' object is not subscriptable") /\
  count_events is_insert (snd run) = 0%nat /\
  snd (fst run) = Examples.db0.
Proof.
  cbv zeta.
  destruct (research_case_law Examples.env_research_logs_issue 1
              [("jurisdiction", VStr "Federal")]%string Examples.db0 [])
    as [[r db'] out] eqn:Hrun.
  cbn [fst snd].
  destruct (research_without_legal_issue_never_returns _ _ _ _ _ _ _ _ Hrun eq_refl)
    as (_ & Hzero & Hdb).
  split; [|split; [exact Hzero | exact Hdb]].
  vm_compute in Hrun. injection Hrun as <- _ _. reflexivity.
Defined.

(** *** What the litigation agent is given *)

(** [{**d, **upd}] read at a key: the entry of [upd] wins. *)
Lemma dict_get_update (d upd : dict pyval) (k : string) :
  NoDup (dict_keys upd) ->
  dict_get (dict_update d upd) k
  = match dict_get upd k with
    | Some v => Some v
    | None => dict_get d k
    end.
Proof.
  unfold dict_update. revert d.
  induction upd as [|[k0 v0] upd IH]; intros d Hnodup; [reflexivity|].
  cbn [fold_left fst snd dict_get]. inversion Hnodup as [|? ? Hnotin Hrest]; subst.
  rewrite (IH _ Hrest).
  destruct (String.eqb_spec k k0) as [-> | Hne].
  - apply dict_get_None_iff in Hnotin. rewrite Hnotin. apply dict_get_set_same.
  - now rewrite dict_get_set_other.
Qed.

Lemma strategy_run_inv (E : env) (lawyer_id case_id : Z) (kwargs : dict pyval)
    (db : database) (c : agent_call) :
  ensures db (develop_litigation_strategy E lawyer_id case_id kwargs)
    (fun r db' out =>
       In c (agent_inputs out) ->
       exists case lawyer,
         find (column_is "id" (VInt case_id)) (cases db) = Some case /\
         lookup_lawyer db lawyer_id = Some lawyer /\
         c = analyze_case_strategy
               (dict_update
                  [("case_name", get case "title" (VStr "Unknown"));
                   ("case_type", get case "case_type" (VStr "Civil"));
                   ("client_position", get kwargs "client_position" (VStr "plaintiff"));
                   ("case_stage", get case "status" (VStr "active"));
                   ("facts", get case "case_summary" (VStr "Not provided"));
                   ("legal_issues", get case "key_issues" (VStr "Not specified"));
                   ("client_info",
                    get kwargs "client_info" (get case "client_name" (VStr "Client")));
                   ("objectives", get_none kwargs "objectives")]%string
                  kwargs)).
Proof.
  match goal with
  | |- ensures _ _ ?P => set (Q := P)
  end.
  unfold develop_litigation_strategy, get_lawyer_by_id, get_case_by_id,
    save_analysis_result.
  walk; subst Q; cbv beta; intros Hcall; the_agent_call Hcall;
    unfold lookup_lawyer; do 2 eexists;
    (split; [first [eassumption | reflexivity]
           | split; [first [eassumption | reflexivity] | reflexivity]]).
Qed.

(** X24: what the litigation strategy hands to the agent.  The case data are
    built from the stored case, and every keyword argument of the caller is
    laid over them: at a key the caller passed the agent sees the caller's
    value, also where the case has one ("facts", "case_name", ...); at any
    other key it sees the value of the case, "plaintiff" as the client's
    position and no objectives. *)
Theorem strategy_input_prefers_the_caller
    (E : env) (lawyer_id case_id : Z) (kwargs : dict pyval) (db : database)
    (h : list event) (r : result string) (db' : database) (out : list event)
    (data : dict pyval)
    (Hdict : NoDup (dict_keys kwargs))
    (Hrun : develop_litigation_strategy E lawyer_id case_id kwargs db h = (r, db', out))
    (Hcall : In (analyze_case_strategy data) (agent_inputs out)) :
  exists case,
    find (column_is "id" (VInt case_id)) (cases db) = Some case /\
    forall k,
      dict_get data k
      = match dict_get kwargs k with
        | Some v => Some v
        | None =>
            dict_get
              [("case_name", get case "title" (VStr "Unknown"));
               ("case_type", get case "case_type" (VStr "Civil"));
               ("client_position", VStr "plaintiff");
               ("case_stage", get case "status" (VStr "active"));
               ("facts", get case "case_summary" (VStr "Not provided"));
               ("legal_issues", get case "key_issues" (VStr "Not specified"));
               ("client_info", get case "client_name" (VStr "Client"));
               ("objectives", VNone)]%string k
        end.
Proof.
  destruct (strategy_run_inv E lawyer_id case_id kwargs db _ _ _ _ _ Hrun Hcall)
    as (case & lawyer & Hcase & _ & [= ->]).
  exists case. split; [exact Hcase|]. intros k.
  rewrite (dict_get_update _ _ _ Hdict).
  destruct (dict_get kwargs k) as [v|] eqn:Hk; [reflexivity|].
  cbn [dict_get].
  repeat match goal with
         | |- context [String.eqb k ?s] =>
             destruct (String.eqb_spec k s) as [-> | ?];
             [unfold get_none, get; rewrite Hk; reflexivity|]
         end.
  reflexivity.
Qed.

(** The caller passes facts of its own for case 10: they reach the agent in
    place of the stored summary, next to the stored title. *)
Lemma strategy_input_with_callers_facts :
  let kwargs := [("facts", VStr "facts of the caller")]%string in
  let run := develop_litigation_strategy Examples.env_ok 1 10 kwargs Examples.db0 [] in
  exists data,
    In (analyze_case_strategy data) (agent_inputs (snd run)) /\
    dict_get data "facts" = Some (VStr "facts of the caller") /\
    dict_get data "case_name" = Some (VStr "Test Corp v. Sample Inc") /\
    dict_get data "client_position" = Some (VStr "plaintiff").
Proof.
  cbv zeta.
  destruct (develop_litigation_strategy Examples.env_ok 1 10
              [("facts", VStr "facts of the caller")]%string Examples.db0 [])
    as [[r db'] out] eqn:Hrun.
  cbn [snd].
  assert (Hcall : exists data, In (analyze_case_strategy data) (agent_inputs out)).
  { vm_compute in Hrun. injection Hrun as <- <- <-. eexists. left. reflexivity. }
  destruct Hcall as [data Hcall]. exists data. split; [exact Hcall|].
  assert (Hdict : NoDup (dict_keys [("facts"%string, VStr "facts of the caller")])).
  { repeat constructor. intros []. }
  destruct (strategy_input_prefers_the_caller _ _ _ _ _ _ _ _ _ _ Hdict Hrun Hcall)
    as (case & Hcase & Hdata).
  injection Hcase as <-.
  repeat split; rewrite Hdata; reflexivity.
Defined.

(** *** Contract analysis *)

(** X25: contract analysis of a document id that is not stored fails before
    anything is generated: the lookup returns [None], reading its title
    raises the attribute error of [None], which is logged and raised; no
    agent is called and nothing is written. *)
Theorem contract_of_missing_document
    (E : env) (lawyer_id contract_id : Z) (kwargs : dict pyval)
    (db : database) (h : list event)
    (Hid : contract_id <> 0)
    (Hmissing : find (column_is "id" (VInt contract_id)) (legal_documents db) = None) :
  analyze_contract E lawyer_id (Some contract_id) kwargs db h
  = (Raise (AttributeError "'NoneType' object has no attribute 'get'"), db,
     [Log INFO ("Analyzing contract for lawyer " ++ str_of_int lawyer_id);
      Select "legal_documents" "id" (VInt contract_id);
      Log ERROR "Contract analysis failed: 'NoneType' object has no attribute 'get'"]).
Proof.
  apply Z.eqb_neq in Hid.
  unfold analyze_contract, get_document_by_id, select_by_id, bind, try_except,
    log, emit.
  rewrite Hid, Hmissing. reflexivity.
Qed.

Lemma contract_of_document_99 :
  fst (fst (analyze_contract Examples.env_ok 1 (Some 99) [] Examples.db0 []))
  = Raise (AttributeError "'NoneType' object has no attribute 'get'").
Proof.
  rewrite (contract_of_missing_document Examples.env_ok 1 99 [] Examples.db0 []).
  - reflexivity.
  - discriminate.
  - reflexivity.
Defined.

Lemma contract_run_inv (E : env) (lawyer_id : Z) (contract_id : option Z)
    (kwargs : dict pyval) (db : database) (c : agent_call) :
  ensures db (analyze_contract E lawyer_id contract_id kwargs)
    (fun r db' out =>
       In c (agent_inputs out) ->
       ((contract_id = None \/ contract_id = Some 0) /\
        c = agent_analyze_contract kwargs) \/
       exists cid doc,
         contract_id = Some cid /\ cid <> 0 /\
         find (column_is "id" (VInt cid)) (legal_documents db) = Some doc /\
         c = agent_analyze_contract
               (dict_update kwargs
                  [("contract_name", get_none doc "title");
                   ("contract_text", get_none doc "document_content");
                   ("contract_type", get_none doc "document_type")]%string)).
Proof.
  match goal with
  | |- ensures _ _ ?P => set (Q := P)
  end.
  unfold analyze_contract, get_document_by_id, save_analysis_result.
  walk; subst Q; cbv beta; intros Hcall; the_agent_call Hcall;
    first
      [ left; split; [|reflexivity];
        first [ now left
              | right; f_equal; symmetry; now apply Z.eqb_eq ]
      | right; do 2 eexists;
        split; [reflexivity|];
        split; [now apply Z.eqb_neq|];
        split; [first [eassumption | reflexivity] | reflexivity] ].
Qed.

(** X26: what contract analysis hands to the agent.  Without a document id
    (or with id 0) the agent gets the caller's keyword arguments as they are
    and nothing is looked up.  With the id of a stored document the name, text
    and type of that document replace whatever the caller passed under
    'contract_name', 'contract_text' and 'contract_type'; every other
    argument of the caller goes through unchanged. *)
Theorem contract_input_prefers_the_stored_document
    (E : env) (lawyer_id : Z) (contract_id : option Z) (kwargs : dict pyval)
    (db : database) (h : list event) (r : result string) (db' : database)
    (out : list event) (data : dict pyval)
    (Hrun : analyze_contract E lawyer_id contract_id kwargs db h = (r, db', out))
    (Hcall : In (agent_analyze_contract data) (agent_inputs out)) :
  ((contract_id = None \/ contract_id = Some 0) /\ data = kwargs) \/
  exists cid doc,
    contract_id = Some cid /\ cid <> 0 /\
    find (column_is "id" (VInt cid)) (legal_documents db) = Some doc /\
    dict_get data "contract_name" = Some (get_none doc "title") /\
    dict_get data "contract_text" = Some (get_none doc "document_content") /\
    dict_get data "contract_type" = Some (get_none doc "document_type") /\
    forall k,
      ~ In k ["contract_name"; "contract_text"; "contract_type"]%string ->
      dict_get data k = dict_get kwargs k.
Proof.
  destruct (contract_run_inv E lawyer_id contract_id kwargs db _ _ _ _ _ Hrun Hcall)
    as [[Hnone [= ->]] | (cid & doc & -> & Hid & Hdoc & [= ->])].
  - left. now split.
  - right. exists cid, doc. split; [reflexivity|]. split; [exact Hid|].
    split; [exact Hdoc|].
    unfold dict_update. cbn [fold_left fst snd].
    split; [|split; [|split]].
    + rewrite !dict_get_set_other by discriminate. apply dict_get_set_same.
    + rewrite dict_get_set_other by discriminate. apply dict_get_set_same.
    + apply dict_get_set_same.
    + intros k Hk. cbn [In] in Hk.
      rewrite !dict_get_set_other; [reflexivity | | |]; intros ->; tauto.
Qed.

(** The caller passes a text of its own together with the id of document 4:
    the agent gets the stored text. *)
Lemma contract_input_for_document_4 :
  let kwargs := [("contract_text", VStr "text of the caller");
                 ("party_role", VStr "buyer")]%string in
  let run := analyze_contract Examples.env_ok 1 (Some 4) kwargs Examples.db0 [] in
  exists data,
    In (agent_analyze_contract data) (agent_inputs (snd run)) /\
    dict_get data "contract_text" = Some (VStr "text of the exhibit") /\
    dict_get data "party_role" = Some (VStr "buyer").
Proof.
  cbv zeta.
  destruct (analyze_contract Examples.env_ok 1 (Some 4)
              [("contract_text", VStr "text of the caller");
               ("party_role", VStr "buyer")]%string Examples.db0 [])
    as [[r db'] out] eqn:Hrun.
  cbn [snd].
  assert (Hcall : exists data, In (agent_analyze_contract data) (agent_inputs out)).
  { vm_compute in Hrun. injection Hrun as <- <- <-. eexists. left. reflexivity. }
  destruct Hcall as [data Hcall]. exists data. split; [exact Hcall|].
  destruct (contract_input_prefers_the_stored_document _ _ _ _ _ _ _ _ _ _ Hrun Hcall)
    as [[[H | H] _] | (cid & doc & [= <-] & _ & Hdoc & _ & Htext & _ & Hother)];
    try discriminate H.
  injection Hdoc as <-. split; [exact Htext|].
  rewrite Hother; [reflexivity|].
  cbn [In]. intros [H | [H | [H | []]]]; discriminate H.
Defined.

(** *** The endpoints *)

Lemma respond_inv {A : Type} (m : M A) db h (resp : ApiServer.response A) db' out :
  ApiServer.respond m db h = (resp, db', out) ->
  exists r,
    m db h = (r, db', out) /\
    resp = match r with
           | Ok result => ApiServer.Http200 result
           | Raise e => ApiServer.HttpError 500 (exn_str e)
           end.
Proof.
  unfold ApiServer.respond. destruct (m db h) as [[[a | e] db1] out1];
    intros [= <- <- <-]; eexists; (split; [reflexivity|]); reflexivity.
Qed.

(** X27: the research endpoint never falls back on the lawyer's profile.  It
    passes every field of the request as a keyword argument, set or not, so
    the jurisdiction and the practice area that reach the agent are those of
    the request, [None] when the request leaves them out; the defaults of the
    orchestrator (the lawyer's jurisdiction and practice areas) are out of
    reach through this endpoint. *)
Theorem api_research_ignores_the_profile
    (E : env) (request : ApiServer.CaseLawResearchRequest) (db : database)
    (h : list event) (resp : ApiServer.response string) (db' : database)
    (out : list event) (data : dict pyval)
    (Hrun : ApiServer.research_case_law E request db h = (resp, db', out))
    (Hcall : In (research_precedents data) (agent_inputs out)) :
  get_none data "legal_issue" = VStr (ApiServer.legal_issue request) /\
  get_none data "jurisdiction" = ApiServer.opt_str (ApiServer.jurisdiction request) /\
  get_none data "practice_area" = ApiServer.opt_str (ApiServer.practice_area request) /\
  get_none data "precedents" = VList [].
Proof.
  apply respond_inv in Hrun. destruct Hrun as (r & Hrun & _).
  destruct (research_run_inv E _ _ db _ _ _ _ _ Hrun Hcall)
    as (lawyer & data' & [= <-] & _ & _ & Hissue & Hj & Hp & Hprec & _).
  rewrite Hissue, Hj, Hp, Hprec. repeat split; reflexivity.
Qed.

(** A request with the legal issue only, for lawyer 1 whose profile says
    "Federal": the agent is given no jurisdiction. *)
Lemma api_research_for_a_bare_request :
  let run := ApiServer.research_case_law Examples.env_ok Examples.bare_request
               Examples.db0 [] in
  exists data,
    In (research_precedents data) (agent_inputs (snd run)) /\
    get_none data "jurisdiction" = VNone /\
    get_none Examples.lawyer_1 "jurisdiction" = VStr "Federal".
Proof.
  cbv zeta.
  destruct (ApiServer.research_case_law Examples.env_ok Examples.bare_request
              Examples.db0 []) as [[resp db'] out] eqn:Hrun.
  cbn [snd].
  assert (Hcall : exists data, In (research_precedents data) (agent_inputs out)).
  { vm_compute in Hrun. injection Hrun as <- <- <-. eexists. left. reflexivity. }
  destruct Hcall as [data Hcall]. exists data. split; [exact Hcall|].
  destruct (api_research_ignores_the_profile _ _ _ _ _ _ _ _ Hrun Hcall)
    as (_ & Hj & _).
  split; [exact Hj | reflexivity].
Defined.

(** X28: three answers for a lawyer that does not exist.  [GET
    /lawyers/{id}] answers 404 "Lawyer not found"; the summary of the same
    id answers 500 with the attribute error of [None], after three queries;
    and the research endpoint answers 500 "Lawyer with ID ... not found",
    without calling the agent or writing. *)
Theorem api_answers_for_an_unknown_lawyer
    (E : env) (O : orderings) (request : ApiServer.CaseLawResearchRequest)
    (db : database) (h : list event)
    (Hunknown : lookup_lawyer db (ApiServer.lawyer_id request) = None) :
  let lawyer_id := ApiServer.lawyer_id request in
  ApiServer.get_lawyer lawyer_id db h
  = (ApiServer.HttpError 404 "Lawyer not found", db,
     [Select "lawyers" "id" (VInt lawyer_id)]) /\
  ApiServer.get_lawyer_summary O lawyer_id db h
  = (ApiServer.HttpError 500 "'NoneType' object has no attribute 'get'", db,
     [Select "lawyers" "id" (VInt lawyer_id);
      Select "cases" "lawyer_id" (VInt lawyer_id);
      Select "research_sessions" "lawyer_id" (VInt lawyer_id);
      Log ERROR "Failed to get lawyer summary: 'NoneType' object has no attribute 'get'"]) /\
  ApiServer.research_case_law E request db h
  = (ApiServer.HttpError 500
       ("Lawyer with ID " ++ str_of_int lawyer_id ++ " not found"), db,
     [Log INFO ("Starting case law research for lawyer " ++ str_of_int lawyer_id);
      Select "lawyers" "id" (VInt lawyer_id);
      Log ERROR ("Case law research failed: Lawyer with ID "
                 ++ str_of_int lawyer_id ++ " not found")]).
Proof.
  cbv zeta. unfold lookup_lawyer in Hunknown. split; [|split].
  - unfold ApiServer.get_lawyer, get_lawyer_by_id, select_by_id.
    rewrite Hunknown. reflexivity.
  - unfold ApiServer.get_lawyer_summary, ApiServer.respond, get_lawyer_summary,
      get_lawyer_by_id, get_lawyer_cases, get_lawyer_research_sessions,
      select_by_id, bind, try_except.
    rewrite Hunknown. reflexivity.
  - unfold ApiServer.research_case_law, ApiServer.respond, research_case_law,
      get_lawyer_by_id, select_by_id, bind, try_except, log, emit.
    rewrite Hunknown. reflexivity.
Qed.

Lemma api_answers_for_lawyer_99 :
  let request := ApiServer.mk_research_request 99 "breach of contract"
                   None None None None in
  fst (fst (ApiServer.get_lawyer 99 Examples.db0 []))
  = ApiServer.HttpError 404 "Lawyer not found" /\
  fst (fst (ApiServer.get_lawyer_summary Examples.table_order 99 Examples.db0 []))
  = ApiServer.HttpError 500 "'NoneType' object has no attribute 'get'" /\
  fst (fst (ApiServer.research_case_law Examples.env_ok request Examples.db0 []))
  = ApiServer.HttpError 500 "Lawyer with ID 99 not found".
Proof.
  cbv zeta.
  destruct (api_answers_for_an_unknown_lawyer Examples.env_ok Examples.table_order
              (ApiServer.mk_research_request 99 "breach of contract"
                 None None None None)
              Examples.db0 [] eq_refl) as (H1 & H2 & H3).
  cbn [ApiServer.lawyer_id] in H1, H2, H3.
  rewrite H1, H2, H3. repeat split; reflexivity.
Defined.

(** *** The summary of a lawyer *)

Lemma filter_permutation {A : Type} (f : A -> bool) (l l' : list A) :
  Permutation l l' -> Permutation (filter f l) (filter f l').
Proof.
  induction 1 as [|x l l' _ IH|x y l|l l' l'' _ IH1 _ IH2]; cbn [filter].
  - constructor.
  - destruct (f x); [now constructor | exact IH].
  - destruct (f x), (f y); try reflexivity; apply perm_swap.
  - now transitivity (filter f l').
Qed.

Lemma disjoint_filters {A : Type} (f g : A -> bool) (l : list A) :
  (forall x, f x = true -> g x = false) ->
  (List.length (filter f l) + List.length (filter g l) <= List.length l)%nat.
Proof.
  intros Hfg. induction l as [|x l IH]; cbn [filter List.length]; [lia|].
  destruct (f x) eqn:Hf.
  - rewrite (Hfg x Hf). cbn [List.length]. lia.
  - destruct (g x); cbn [List.length]; lia.
Qed.

Lemma active_is_not_closed (c : row) : is_active c = true -> is_closed c = false.
Proof.
  unfold is_active, is_closed. destruct (get_none c "status"); try discriminate.
  intros H. apply String.eqb_eq in H. subst. reflexivity.
Qed.

Lemma get_lawyer_summary_inv (O : orderings) (lawyer_id : Z) db h s db' out :
  get_lawyer_summary O lawyer_id db h = (Ok s, db', out) ->
  let mine :=
    order_by_filing_date_desc O
      (filter (column_is "lawyer_id" (VInt lawyer_id)) (cases db)) in
  db' = db /\
  (exists lawyer, lookup_lawyer db lawyer_id = Some lawyer /\
                  summary_lawyer s = Some lawyer) /\
  total_cases s = FeedbackHandler.len mine /\
  active_cases s = FeedbackHandler.len (filter is_active mine) /\
  closed_cases s = FeedbackHandler.len (filter is_closed mine) /\
  (filter is_closed mine = [] -> win_rate s = FeedbackHandler.Int 0) /\
  (win_rate s = FeedbackHandler.Int 0 -> filter is_closed mine = []) /\
  recent_cases s = firstn 5 mine.
Proof.
  cbv zeta.
  unfold get_lawyer_summary, get_lawyer_by_id, get_lawyer_cases,
    get_lawyer_research_sessions, select_by_id, bind, try_except, lookup_lawyer.
  destruct (find (column_is "id" (VInt lawyer_id)) (lawyers db)) as [lawyer|];
    cbn; [|discriminate].
  intros [= <- <- <-]. cbn.
  split; [reflexivity|]. split; [now exists lawyer|].
  repeat (split; [reflexivity|]).
  split; [|split; [|reflexivity]].
  - now intros ->.
  - now destruct (filter is_closed _).
Qed.

(** X29: the summary of a lawyer, when the engine returns the lawyer's cases
    in some order (any permutation of them).  It leaves the database as it
    is and carries the stored lawyer; the total is the number of cases of the
    lawyer; active and closed cases are counted apart and together never
    exceed the total (a case that is neither, say "pending", is in neither
    count); the win rate is the integer 0 exactly when no case is closed, so
    it is never computed by dividing by zero; and at most five recent cases
    are listed. *)
Theorem lawyer_summary_counts
    (O : orderings) (lawyer_id : Z) (db : database) (h : list event)
    (s : lawyer_summary) (db' : database) (out : list event)
    (Horder : forall rows, Permutation rows (order_by_filing_date_desc O rows))
    (Hrun : get_lawyer_summary O lawyer_id db h = (Ok s, db', out)) :
  let mine := filter (column_is "lawyer_id" (VInt lawyer_id)) (cases db) in
  db' = db /\
  summary_lawyer s = lookup_lawyer db lawyer_id /\
  total_cases s = FeedbackHandler.len mine /\
  active_cases s = FeedbackHandler.len (filter is_active mine) /\
  closed_cases s = FeedbackHandler.len (filter is_closed mine) /\
  0 <= active_cases s + closed_cases s <= total_cases s /\
  (closed_cases s = 0 <-> win_rate s = FeedbackHandler.Int 0) /\
  List.length (recent_cases s) = Nat.min 5 (List.length mine).
Proof.
  cbv zeta.
  destruct (get_lawyer_summary_inv O lawyer_id _ _ _ _ _ Hrun)
    as (Hdb & (lawyer & Hlawyer & Hs) & Htotal & Hactive & Hclosed & Hzero & Hint
        & Hrecent).
  set (mine := filter (column_is "lawyer_id" (VInt lawyer_id)) (cases db)) in *.
  pose proof (Horder mine) as Hperm.
  assert (Hlen : forall f,
             List.length (filter f (order_by_filing_date_desc O mine))
             = List.length (filter f mine)).
  { intros f. symmetry. apply Permutation_length, filter_permutation, Hperm. }
  unfold FeedbackHandler.len in *.
  rewrite Hlen in Hactive, Hclosed.
  rewrite <- (Permutation_length Hperm) in Htotal.
  split; [exact Hdb|]. split; [congruence|].
  split; [exact Htotal|]. split; [exact Hactive|]. split; [exact Hclosed|].
  split; [|split].
  - pose proof (disjoint_filters is_active is_closed mine active_is_not_closed).
    lia.
  - split.
    + intros H0. apply Hzero. apply length_zero_iff_nil. rewrite Hlen. lia.
    + intros Hw. rewrite Hclosed, <- Hlen, (Hint Hw). reflexivity.
  - rewrite Hrecent, length_firstn, (Permutation_length Hperm). reflexivity.
Qed.

(** Lawyer 1 with one active case and two closed ones, one of them won: the
    win rate is 50.0. *)
Lemma lawyer_summary_of_lawyer_1 :
  exists s,
    fst (fst (get_lawyer_summary Examples.table_order 1 Examples.db_with_cases []))
    = Ok s /\
    total_cases s = 3 /\ active_cases s = 1 /\ closed_cases s = 2 /\
    win_rate s = FeedbackHandler.Float 50%float.
Proof.
  destruct (get_lawyer_summary Examples.table_order 1 Examples.db_with_cases [])
    as [[[s | e] db'] out] eqn:Hrun; [|vm_compute in Hrun; discriminate Hrun].
  exists s. split; [reflexivity|].
  destruct (lawyer_summary_counts Examples.table_order 1 Examples.db_with_cases []
              s db' out (fun rows => Permutation_refl rows) Hrun)
    as (_ & _ & Htotal & Hactive & Hclosed & _).
  split; [exact Htotal|]. split; [exact Hactive|]. split; [exact Hclosed|].
  vm_compute in Hrun. injection Hrun as <- _ _. reflexivity.
Defined.

End OrchestratorExtra.
